(** * LoblawBio immune drug trial: the load, the frequency view, the cohort
      comparison and the baseline subset report.

    Source: [ImmuneDrugTrialAnalysis.py] (batch script, Parts 1 to 4) and
    [ImmuneDrugTrialDashboard.py] (the same queries and tests at dashboard
    start-up).  The program is a sequence of SQLite statements driven from
    Python, so the embedding has three layers:

    - [Binary64]: SQLite's REAL storage class, IEEE 754 binary64, as the
      rationals that are representable with a 53 bit significand, every
      operation being the exact one followed by rounding to nearest, ties to
      even;
    - SQLite values and arithmetic ([sql_add], [sql_mul], [sql_div]) as the
      virtual machine computes them for the storage classes the script uses;
    - the store (tables that may or may not exist, rows in rowid order) and
      the statements of the script, run in a monad that keeps the store when a
      statement raises. *)

From Stdlib Require Import ZArith QArith Qabs Qround Qpower Qreduction.
From Stdlib Require Import Reals Qreals Psatz.
From Stdlib Require Import Bool List String Ascii Lia.
From Stdlib Require Import Permutation Sorted.
From Stdlib Require Floats.
Import ListNotations.

Local Open Scope Z_scope.

(* ================================================================== *)
(** * Binary64: the REAL storage class *)
(* ================================================================== *)

Module Binary64.

Local Open Scope Q_scope.

(** [Qlog2 x] is the binary exponent of a positive rational:
    [2 ^ Qlog2 x <= x < 2 ^ (Qlog2 x + 1)]. *)
Definition Qlog2 (x : Q) : Z :=
  let e0 := (Z.log2 (Qnum x) - Z.log2 (Zpos (Qden x)))%Z in
  if Qle_bool (2 ^ e0) x then e0 else (e0 - 1)%Z.

(** Nearest integer, ties to the even one. *)
Definition round_half_even (x : Q) : Z :=
  let f := Qfloor x in
  match Qcompare (x - inject_Z f) (1 # 2) with
  | Lt => f
  | Gt => (f + 1)%Z
  | Eq => if Z.even f then f else (f + 1)%Z
  end.

(** Significand width of binary64. *)
Definition prec : Z := 53.

(** Rounding of an exact result to binary64: scale so that the significand has
    [prec] bits, round it to an integer, scale back.  The result is kept in
    lowest terms, so that equal doubles are equal terms.  The exponent is not
    bounded: every REAL the script computes from 64 bit integers lies between
    [1e-19] and [1e22], far inside the normal range of binary64. *)
Definition round (x : Q) : Q :=
  if Qeq_bool x 0 then 0
  else
    let e := (Qlog2 (Qabs x) - (prec - 1))%Z in
    Qred (inject_Z (round_half_even (x / 2 ^ e)) * 2 ^ e).

(** The conversion of a 64 bit integer to a double ([sqlite3VdbeRealValue]). *)
Definition of_int (i : Z) : Q := round (inject_Z i).

Definition add (x y : Q) : Q := round (x + y).
Definition mul (x y : Q) : Q := round (x * y).
Definition div (x y : Q) : Q := round (x / y).

(** Unit roundoff. *)
Definition u : Q := 1 # (2 ^ 53).

(** Twice the unit roundoff. *)
Definition delta : Q := 1 # (2 ^ 52).

(** [q] approximates the non-negative [x] with relative error [k * delta]. *)
Definition near (k x q : Q) : Prop :=
  (1 - k * delta) * x <= q /\ q <= (1 + k * delta) * x.

End Binary64.

(** ** The hardware doubles, for comparison *)

(** The rational a finite double of Rocq's primitive binary64 stands for. *)
Definition SF2Q (f : SpecFloat.spec_float) : option Q :=
  match f with
  | SpecFloat.S754_zero _ => Some 0%Q
  | SpecFloat.S754_finite s m e =>
      Some (Qred ((if s then -1 else 1) * inject_Z (Zpos m) * 2 ^ e)%Q)
  | _ => None
  end.

Definition Prim2Q (f : PrimFloat.float) : option Q := SF2Q (FloatOps.Prim2SF f).

(** The primitive double of a non-negative integer below 2^63. *)
Definition prim_of_int (z : Z) : PrimFloat.float :=
  PrimFloat.of_uint63 (Uint63.of_Z z).

(* ================================================================== *)
(** * SQLite values and arithmetic *)
(* ================================================================== *)

(** The storage classes the script's numeric expressions range over.  A
    division by zero is not an error in SQLite: its result is NULL. *)
Inductive value : Type :=
| VNull
| VInt (i : Z)
| VReal (r : Q).

Definition min_int64 : Z := - 2 ^ 63.
Definition max_int64 : Z := 2 ^ 63 - 1.

Definition fits_int64 (z : Z) : bool := (min_int64 <=? z) && (z <=? max_int64).

(** [sqlite3VdbeRealValue]: the operand of a floating-point operation. *)
Definition real_value (v : value) : Q :=
  match v with
  | VNull => 0%Q
  | VInt i => Binary64.of_int i
  | VReal r => r
  end.

(** [OP_Add]: integer addition while both operands are integers and the sum
    fits 64 bits, floating-point addition otherwise. *)
Definition sql_add (a b : value) : value :=
  match a, b with
  | VNull, _ | _, VNull => VNull
  | VInt x, VInt y =>
      if fits_int64 (x + y) then VInt (x + y)
      else VReal (Binary64.add (real_value a) (real_value b))
  | _, _ => VReal (Binary64.add (real_value a) (real_value b))
  end.

(** [OP_Multiply]. *)
Definition sql_mul (a b : value) : value :=
  match a, b with
  | VNull, _ | _, VNull => VNull
  | VInt x, VInt y =>
      if fits_int64 (x * y) then VInt (x * y)
      else VReal (Binary64.mul (real_value a) (real_value b))
  | _, _ => VReal (Binary64.mul (real_value a) (real_value b))
  end.

(** [OP_Divide]: a zero divisor gives NULL, on the integer path and on the
    floating-point path alike. *)
Definition sql_div (a b : value) : value :=
  match a, b with
  | VNull, _ | _, VNull => VNull
  | VInt x, VInt y =>
      if y =? 0 then VNull
      else if (y =? -1) && (x =? min_int64)
           then VReal (Binary64.div (real_value a) (real_value b))
           else VInt (Z.quot x y)
  | _, _ =>
      if Qeq_bool (real_value b) 0 then VNull
      else VReal (Binary64.div (real_value a) (real_value b))
  end.

(** A value that stands for the non-negative rational [x]: an integer equal to
    it, or a double near it. *)
Definition approximates (k : Q) (x : Q) (v : value) : Prop :=
  match v with
  | VNull => False
  | VInt i => (inject_Z i == x)%Q
  | VReal q => Binary64.near k x q
  end.

(* ================================================================== *)
(** * Tables *)
(* ================================================================== *)

(** Rows are typed by the declared column types: TEXT columns hold text and
    INTEGER columns hold 64 bit integers, which is what the column affinities
    make of a well-formed CSV. *)

Module countCSVStaging.
Record row : Type := {
  project : string;
  subject : string;
  condition : string;
  age : Z;
  sex : string;
  treatment : string;
  response : string;
  sample : string;
  sample_type : string;
  time_from_treatment : Z;
  b_cell : Z;
  cd8_t_cell : Z;
  cd4_t_cell : Z;
  nk_cell : Z;
  monocyte : Z
}.
End countCSVStaging.

Module Subjects.
Record row : Type := {
  project : string;
  subject : string;   (* PRIMARY KEY *)
  condition : string;
  age : Z;
  sex : string;
  treatment : string;
  response : string
}.

Definition eq_dec (x y : row) : {x = y} + {x <> y}.
Proof. decide equality; (apply string_dec || apply Z.eq_dec). Defined.
End Subjects.

Module Samples.
Record row : Type := {
  subject : string;   (* REFERENCES Subjects(subject) *)
  sample : string;    (* PRIMARY KEY *)
  sample_type : string;
  time_from_treatment : Z;
  b_cell : Z;
  cd8_t_cell : Z;
  cd4_t_cell : Z;
  nk_cell : Z;
  monocyte : Z
}.

Definition eq_dec (x y : row) : {x = y} + {x <> y}.
Proof. decide equality; (apply string_dec || apply Z.eq_dec). Defined.
End Samples.

Module SampleCellFrequencies.
Record row : Type := {
  subject : string;
  sample : string;
  total_count : value;
  population : string;
  count : Z;
  percentage : value
}.
End SampleCellFrequencies.

(** The database file.  A table is absent ([None]) or holds its rows in rowid
    order; the view is defined or not. *)
Record store : Type := {
  countCSVStaging_table : option (list countCSVStaging.row);
  Subjects_table : option (list Subjects.row);
  Samples_table : option (list Samples.row);
  SampleCellFrequencies_view : bool
}.

Definition empty_store : store :=
  {| countCSVStaging_table := None; Subjects_table := None;
     Samples_table := None; SampleCellFrequencies_view := false |}.

Definition set_staging (t : option (list countCSVStaging.row)) (s : store) : store :=
  {| countCSVStaging_table := t; Subjects_table := Subjects_table s;
     Samples_table := Samples_table s;
     SampleCellFrequencies_view := SampleCellFrequencies_view s |}.

Definition set_subjects (t : option (list Subjects.row)) (s : store) : store :=
  {| countCSVStaging_table := countCSVStaging_table s; Subjects_table := t;
     Samples_table := Samples_table s;
     SampleCellFrequencies_view := SampleCellFrequencies_view s |}.

Definition set_samples (t : option (list Samples.row)) (s : store) : store :=
  {| countCSVStaging_table := countCSVStaging_table s;
     Subjects_table := Subjects_table s; Samples_table := t;
     SampleCellFrequencies_view := SampleCellFrequencies_view s |}.

Definition set_view (b : bool) (s : store) : store :=
  {| countCSVStaging_table := countCSVStaging_table s;
     Subjects_table := Subjects_table s; Samples_table := Samples_table s;
     SampleCellFrequencies_view := b |}.

(* ================================================================== *)
(** * Statements *)
(* ================================================================== *)

(** What the script can raise: the errors of [sqlite3], and the [KeyError]
    of a dictionary lookup. *)
Inductive exception : Type :=
| no_such_table (name : string)
| table_already_exists (name : string)
| unique_constraint_failed (column : string)
| foreign_key_constraint_failed
| KeyError (key : string).

Inductive result (A : Type) : Type :=
| Ok (a : A)
| Raise (e : exception).
Arguments Ok {A} a.
Arguments Raise {A} e.

(** A statement run on the connection: it returns or raises, and leaves a
    store either way.  [executescript] runs outside any transaction, every
    statement being committed as it completes, so what a script leaves when a
    statement raises is the work of the statements before it. *)
Definition script (A : Type) : Type := store -> result A * store.

Definition bind {A B} (m : script A) (k : A -> script B) : script B :=
  fun s =>
    match m s with
    | (Ok a, s') => k a s'
    | (Raise e, s') => (Raise e, s')
    end.

Notation "m ;; k" := (bind m (fun _ => k))
  (at level 61, right associativity).

(** Queries only read: their monad is [result]. *)
Definition rbind {A B} (m : result A) (k : A -> result B) : result B :=
  match m with
  | Ok a => k a
  | Raise e => Raise e
  end.

Notation "'let*' x ':=' m 'in' k" := (rbind m (fun x => k))
  (at level 10, x name, m at level 100, k at level 200, only parsing).

Local Open Scope string_scope.
Local Open Scope list_scope.

Section Relational.
Context {A : Type}.

(** SELECT DISTINCT: a row is produced the first time the scan meets it. *)
Fixpoint distinct_from (eq_dec : forall x y : A, {x = y} + {x <> y})
    (seen l : list A) : list A :=
  match l with
  | [] => []
  | x :: xs =>
      if in_dec eq_dec x seen then distinct_from eq_dec seen xs
      else x :: distinct_from eq_dec (x :: seen) xs
  end.

Definition distinct (eq_dec : forall x y : A, {x = y} + {x <> y})
    (l : list A) : list A :=
  distinct_from eq_dec [] l.

(** Is [k] the key of a row of the table? *)
Definition has_key (key : A -> string) (k : string) (table : list A) : bool :=
  existsb (fun r => key r =? k) table.

(** INSERT ... SELECT into a table with a PRIMARY KEY: the rows go in one
    by one, and the first one whose key is already in the table aborts the
    statement ([None]). *)
Fixpoint insert_rows (key : A -> string) (table rows : list A)
    : option (list A) :=
  match rows with
  | [] => Some table
  | r :: rest =>
      if has_key key (key r) table then None
      else insert_rows key (table ++ [r]) rest
  end.

(** ORDER BY a TEXT column (BINARY collation): insertion sort, stable. *)
Fixpoint insert_sorted (key : A -> string) (x : A) (l : list A) : list A :=
  match l with
  | [] => [x]
  | y :: ys =>
      if String.leb (key x) (key y) then x :: l
      else y :: insert_sorted key x ys
  end.

Definition order_by (key : A -> string) (l : list A) : list A :=
  fold_right (insert_sorted key) [] l.
End Relational.

(** The columns of a staged row that go to [Subjects] and to [Samples]. *)
Definition subject_columns (r : countCSVStaging.row) : Subjects.row :=
  {| Subjects.project := countCSVStaging.project r;
     Subjects.subject := countCSVStaging.subject r;
     Subjects.condition := countCSVStaging.condition r;
     Subjects.age := countCSVStaging.age r;
     Subjects.sex := countCSVStaging.sex r;
     Subjects.treatment := countCSVStaging.treatment r;
     Subjects.response := countCSVStaging.response r |}.

Definition sample_columns (r : countCSVStaging.row) : Samples.row :=
  {| Samples.subject := countCSVStaging.subject r;
     Samples.sample := countCSVStaging.sample r;
     Samples.sample_type := countCSVStaging.sample_type r;
     Samples.time_from_treatment := countCSVStaging.time_from_treatment r;
     Samples.b_cell := countCSVStaging.b_cell r;
     Samples.cd8_t_cell := countCSVStaging.cd8_t_cell r;
     Samples.cd4_t_cell := countCSVStaging.cd4_t_cell r;
     Samples.nk_cell := countCSVStaging.nk_cell r;
     Samples.monocyte := countCSVStaging.monocyte r |}.

(** SELECT DISTINCT project, subject, condition, age, sex, treatment, response
    FROM countCSVStaging. *)
Definition select_subjects (staged : list countCSVStaging.row) : list Subjects.row :=
  distinct Subjects.eq_dec (map subject_columns staged).

(** SELECT DISTINCT subject, sample, sample_type, time_from_treatment, b_cell,
    cd8_t_cell, cd4_t_cell, nk_cell, monocyte FROM countCSVStaging. *)
Definition select_samples (staged : list countCSVStaging.row) : list Samples.row :=
  distinct Samples.eq_dec (map sample_columns staged).

(** A row of the CSV for the examples: subject, age, response, sample, time
    offset and B cell count vary; the other fields are those of the cohort. *)
Definition csv_row (subject : string) (age : Z) (response sample : string)
    (time b_cell : Z) : countCSVStaging.row :=
  {| countCSVStaging.project := "prj1"; countCSVStaging.subject := subject;
     countCSVStaging.condition := "melanoma"; countCSVStaging.age := age;
     countCSVStaging.sex := "F"; countCSVStaging.treatment := "miraclib";
     countCSVStaging.response := response; countCSVStaging.sample := sample;
     countCSVStaging.sample_type := "PBMC";
     countCSVStaging.time_from_treatment := time;
     countCSVStaging.b_cell := b_cell; countCSVStaging.cd8_t_cell := 20;
     countCSVStaging.cd4_t_cell := 30; countCSVStaging.nk_cell := 40;
     countCSVStaging.monocyte := 50 |}.

(** ** Part 1, first [executescript]: lines 14 to 59 *)

(** DROP TABLE IF EXISTS countCSVStaging. *)
Definition drop_countCSVStaging_if_exists : script unit :=
  fun s => (Ok tt, set_staging None s).

(** DROP TABLE IF EXISTS Samples. *)
Definition drop_Samples_if_exists : script unit :=
  fun s => (Ok tt, set_samples None s).

(** DROP TABLE IF EXISTS Subjects.  With foreign keys on, the drop deletes the
    rows first, and that fails while a row of [Samples] refers to one of
    them. *)
Definition drop_Subjects_if_exists : script unit :=
  fun s =>
    match Subjects_table s, Samples_table s with
    | Some subjects, Some samples =>
        if existsb (fun r => has_key Subjects.subject (Samples.subject r) subjects)
             samples
        then (Raise foreign_key_constraint_failed, s)
        else (Ok tt, set_subjects None s)
    | _, _ => (Ok tt, set_subjects None s)
    end.

Definition create_countCSVStaging : script unit :=
  fun s =>
    match countCSVStaging_table s with
    | Some _ => (Raise (table_already_exists "countCSVStaging"), s)
    | None => (Ok tt, set_staging (Some []) s)
    end.

Definition create_Subjects : script unit :=
  fun s =>
    match Subjects_table s with
    | Some _ => (Raise (table_already_exists "Subjects"), s)
    | None => (Ok tt, set_subjects (Some []) s)
    end.

Definition create_Samples : script unit :=
  fun s =>
    match Samples_table s with
    | Some _ => (Raise (table_already_exists "Samples"), s)
    | None => (Ok tt, set_samples (Some []) s)
    end.

Definition drop_tables : script unit :=
  drop_countCSVStaging_if_exists ;;
  drop_Samples_if_exists ;;
  drop_Subjects_if_exists.

Definition create_tables : script unit :=
  create_countCSVStaging ;;
  create_Subjects ;;
  create_Samples.

(** ** Part 1, the load: lines 61 to 85 *)

(** [executemany] of INSERT INTO countCSVStaging over the rows of the CSV
    file after its header.  The staging table has no constraint, so the
    statement raises only when the table is missing, before any row. *)
Definition insert_countCSVStaging (csv : list countCSVStaging.row) : script unit :=
  fun s =>
    match countCSVStaging_table s with
    | None => (Raise (no_such_table "countCSVStaging"), s)
    | Some staged => (Ok tt, set_staging (Some (staged ++ csv)) s)
    end.

(** INSERT INTO Subjects SELECT DISTINCT project, subject, condition, age,
    sex, treatment, response FROM countCSVStaging.  A statement that raises
    undoes its own changes: the table is as it was. *)
Definition insert_Subjects : script unit :=
  fun s =>
    match Subjects_table s, countCSVStaging_table s with
    | None, _ => (Raise (no_such_table "Subjects"), s)
    | _, None => (Raise (no_such_table "countCSVStaging"), s)
    | Some subjects, Some staged =>
        match insert_rows Subjects.subject subjects (select_subjects staged) with
        | None => (Raise (unique_constraint_failed "Subjects.subject"), s)
        | Some subjects' => (Ok tt, set_subjects (Some subjects') s)
        end
    end.

(** INSERT INTO Samples SELECT DISTINCT subject, sample, ... FROM
    countCSVStaging.  The primary key is checked row by row; the foreign key
    (PRAGMA foreign_keys = ON, line 12) when the statement ends. *)
Definition insert_Samples : script unit :=
  fun s =>
    match Samples_table s, countCSVStaging_table s with
    | None, _ => (Raise (no_such_table "Samples"), s)
    | _, None => (Raise (no_such_table "countCSVStaging"), s)
    | Some samples, Some staged =>
        let rows := select_samples staged in
        match insert_rows Samples.sample samples rows with
        | None => (Raise (unique_constraint_failed "Samples.sample"), s)
        | Some samples' =>
            match Subjects_table s with
            | None => (Raise (no_such_table "Subjects"), s)
            | Some subjects =>
                if forallb
                     (fun r => has_key Subjects.subject (Samples.subject r) subjects)
                     rows
                then (Ok tt, set_samples (Some samples') s)
                else (Raise foreign_key_constraint_failed, s)
            end
        end
    end.

(** DROP TABLE countCSVStaging. *)
Definition drop_countCSVStaging : script unit :=
  fun s =>
    match countCSVStaging_table s with
    | None => (Raise (no_such_table "countCSVStaging"), s)
    | Some _ => (Ok tt, set_staging None s)
    end.

(** Lines 61 to 85: the rows are staged, then the second [executescript]
    commits them and runs its three statements. *)
Definition load (csv : list countCSVStaging.row) : script unit :=
  insert_countCSVStaging csv ;;
  insert_Subjects ;;
  insert_Samples ;;
  drop_countCSVStaging.

(** Part 1 as the script runs it. *)
Definition part1 (csv : list countCSVStaging.row) : script unit :=
  drop_tables ;;
  create_tables ;;
  load csv.

(* ================================================================== *)
(** * Part 2: the frequency view *)
(* ================================================================== *)

(** The CTE [totals]: (b_cell + cd8_t_cell + cd4_t_cell + nk_cell + monocyte). *)
Definition total_count (r : Samples.row) : value :=
  sql_add
    (sql_add
       (sql_add
          (sql_add (VInt (Samples.b_cell r)) (VInt (Samples.cd8_t_cell r)))
          (VInt (Samples.cd4_t_cell r)))
       (VInt (Samples.nk_cell r)))
    (VInt (Samples.monocyte r)).

(** 100.0 * count / total_count. *)
Definition percentage_of (count : Z) (total : value) : value :=
  sql_div (sql_mul (VReal 100) (VInt count)) total.

(** One arm of the UNION ALL, for one row of [totals]. *)
Definition frequency (population : string) (count : Samples.row -> Z)
    (r : Samples.row) : SampleCellFrequencies.row :=
  {| SampleCellFrequencies.subject := Samples.subject r;
     SampleCellFrequencies.sample := Samples.sample r;
     SampleCellFrequencies.total_count := total_count r;
     SampleCellFrequencies.population := population;
     SampleCellFrequencies.count := count r;
     SampleCellFrequencies.percentage := percentage_of (count r) (total_count r) |}.

(** The five populations, with the column each one is counted in. *)
Definition population_columns : list (string * (Samples.row -> Z)) :=
  [ ("b_cell", Samples.b_cell);
    ("cd8_t_cell", Samples.cd8_t_cell);
    ("cd4_t_cell", Samples.cd4_t_cell);
    ("nk_cell", Samples.nk_cell);
    ("monocyte", Samples.monocyte) ].

(** The rows of the view over a [Samples] table: the five SELECTs of the
    UNION ALL one after the other, each over all of [totals]. *)
Definition SampleCellFrequencies_rows (samples : list Samples.row)
    : list SampleCellFrequencies.row :=
  map (frequency "b_cell" Samples.b_cell) samples
  ++ map (frequency "cd8_t_cell" Samples.cd8_t_cell) samples
  ++ map (frequency "cd4_t_cell" Samples.cd4_t_cell) samples
  ++ map (frequency "nk_cell" Samples.nk_cell) samples
  ++ map (frequency "monocyte" Samples.monocyte) samples.

(** CREATE VIEW IF NOT EXISTS SampleCellFrequencies.  The names in its body
    are resolved when the view is read, not when it is created. *)
Definition create_view_if_not_exists : script unit :=
  fun s => (Ok tt, set_view true s).

(** FROM SampleCellFrequencies. *)
Definition scan_SampleCellFrequencies (s : store)
    : result (list SampleCellFrequencies.row) :=
  if SampleCellFrequencies_view s then
    match Samples_table s with
    | Some samples => Ok (SampleCellFrequencies_rows samples)
    | None => Raise (no_such_table "main.Samples")
    end
  else Raise (no_such_table "SampleCellFrequencies").

Definition scan_Samples (s : store) : result (list Samples.row) :=
  match Samples_table s with
  | Some t => Ok t
  | None => Raise (no_such_table "Samples")
  end.

Definition scan_Subjects (s : store) : result (list Subjects.row) :=
  match Subjects_table s with
  | Some t => Ok t
  | None => Raise (no_such_table "Subjects")
  end.

(** SELECT * FROM SampleCellFrequencies ORDER BY sample, population. *)
Definition read_frequencies (s : store) : result (list SampleCellFrequencies.row) :=
  let* rows := scan_SampleCellFrequencies s in
  Ok (order_by SampleCellFrequencies.sample
        (order_by SampleCellFrequencies.population rows)).

(** The rows a table holds; none when the table is absent. *)
Definition table_rows {A : Type} (t : option (list A)) : list A :=
  match t with
  | Some rows => rows
  | None => []
  end.

(** The sum of the five counts of a sample, as an integer. *)
Definition five_counts (r : Samples.row) : Z :=
  Samples.b_cell r + Samples.cd8_t_cell r + Samples.cd4_t_cell r
  + Samples.nk_cell r + Samples.monocyte r.

(** The data model's samples: five non-negative 64 bit counts. *)
Definition counts_in_range (r : Samples.row) : Prop :=
  0 <= Samples.b_cell r <= max_int64
  /\ 0 <= Samples.cd8_t_cell r <= max_int64
  /\ 0 <= Samples.cd4_t_cell r <= max_int64
  /\ 0 <= Samples.nk_cell r <= max_int64
  /\ 0 <= Samples.monocyte r <= max_int64.

(* ================================================================== *)
(** * Part 3: the cohort *)
(* ================================================================== *)

(** SELECT Subjects.response, SampleCellFrequencies.percentage
    FROM SampleCellFrequencies
    JOIN Samples ON Samples.sample = SampleCellFrequencies.sample
    JOIN Subjects ON Subjects.subject = Samples.subject
    WHERE Subjects.treatment = 'miraclib' AND Subjects.condition = 'melanoma'
      AND Samples.sample_type = 'PBMC'
      AND SampleCellFrequencies.population = <population>

    as nested loops in the order of the FROM clause. *)
Definition cohort_where (population : string) (f : SampleCellFrequencies.row)
    (sa : Samples.row) (su : Subjects.row) : bool :=
  (Subjects.treatment su =? "miraclib")
  && (Subjects.condition su =? "melanoma")
  && (Samples.sample_type sa =? "PBMC")
  && (SampleCellFrequencies.population f =? population).

Definition cohort_rows (population : string)
    (freqs : list SampleCellFrequencies.row) (samples : list Samples.row)
    (subjects : list Subjects.row) : list (string * value) :=
  flat_map (fun f =>
    flat_map (fun sa =>
      if Samples.sample sa =? SampleCellFrequencies.sample f then
        flat_map (fun su =>
          if (Subjects.subject su =? Samples.subject sa)
             && cohort_where population f sa su
          then [(Subjects.response su, SampleCellFrequencies.percentage f)]
          else [])
          subjects
      else [])
      samples)
    freqs.

(** [get_cell_data] of the dashboard, and each of the five [pd.read_sql]
    calls of Part 3. *)
Definition get_cell_data (population : string) (s : store)
    : result (list (string * value)) :=
  let* freqs := scan_SampleCellFrequencies s in
  let* samples := scan_Samples s in
  let* subjects := scan_Subjects s in
  Ok (cohort_rows population freqs samples subjects).

(** df.loc[df['response'] == label, "percentage"]. *)
Definition arm (label : string) (df : list (string * value)) : list value :=
  map snd (filter (fun r => fst r =? label) df).

(* ================================================================== *)
(** * Part 4: the baseline subset report *)
(* ================================================================== *)

(** [filter_condition]. *)
Definition filter_condition (sa : Samples.row) (su : Subjects.row) : bool :=
  (Subjects.treatment su =? "miraclib")
  && (Subjects.condition su =? "melanoma")
  && (Samples.sample_type sa =? "PBMC")
  && (Samples.time_from_treatment sa =? 0)%Z.

(** FROM Samples JOIN Subjects ON Subjects.subject = Samples.subject
    WHERE filter_condition. *)
Definition baseline_rows (samples : list Samples.row)
    (subjects : list Subjects.row) : list (Samples.row * Subjects.row) :=
  flat_map (fun sa =>
    flat_map (fun su =>
      if (Subjects.subject su =? Samples.subject sa) && filter_condition sa su
      then [(sa, su)] else [])
      subjects)
    samples.

(** GROUP BY a TEXT column: one group per distinct key, in key order. *)
Definition group_by {A : Type} (key : A -> string) (rows : list A)
    : list (string * list A) :=
  map (fun k => (k, filter (fun r => key r =? k) rows))
      (order_by (fun k => k) (distinct string_dec (map key rows))).

Definition count_distinct (l : list string) : Z :=
  Z.of_nat (List.length (distinct string_dec l)).

Record baseline_sample : Type := {
  bs_sample : string;
  bs_subject : string;
  bs_project : string;
  bs_response : string;
  bs_sex : string
}.

(** query1: SELECT Samples.sample, Subjects.subject, Subjects.project,
    Subjects.response, Subjects.sex ... ORDER BY Samples.sample. *)
Definition query1 (s : store) : result (list baseline_sample) :=
  let* samples := scan_Samples s in
  let* subjects := scan_Subjects s in
  Ok (map (fun r =>
             {| bs_sample := Samples.sample (fst r);
                bs_subject := Subjects.subject (snd r);
                bs_project := Subjects.project (snd r);
                bs_response := Subjects.response (snd r);
                bs_sex := Subjects.sex (snd r) |})
          (order_by (fun r => Samples.sample (fst r))
                    (baseline_rows samples subjects))).

(** query2: SELECT Subjects.project, COUNT(Samples.sample) ... GROUP BY
    Subjects.project. *)
Definition query2 (s : store) : result (list (string * Z)) :=
  let* samples := scan_Samples s in
  let* subjects := scan_Subjects s in
  Ok (map (fun g => (fst g, Z.of_nat (List.length (snd g))))
          (group_by (fun r => Subjects.project (snd r))
                    (baseline_rows samples subjects))).

(** query3: SELECT Subjects.response, COUNT(DISTINCT Subjects.subject) ...
    GROUP BY Subjects.response. *)
Definition query3 (s : store) : result (list (string * Z)) :=
  let* samples := scan_Samples s in
  let* subjects := scan_Subjects s in
  Ok (map (fun g =>
             (fst g, count_distinct (map (fun r => Subjects.subject (snd r)) (snd g))))
          (group_by (fun r => Subjects.response (snd r))
                    (baseline_rows samples subjects))).

(** query4: SELECT Subjects.sex, COUNT(DISTINCT Subjects.subject) ... GROUP BY
    Subjects.sex. *)
Definition query4 (s : store) : result (list (string * Z)) :=
  let* samples := scan_Samples s in
  let* subjects := scan_Subjects s in
  Ok (map (fun g =>
             (fst g, count_distinct (map (fun r => Subjects.subject (snd r)) (snd g))))
          (group_by (fun r => Subjects.sex (snd r))
                    (baseline_rows samples subjects))).

Record subset_report : Type := {
  baseline_samples : list baseline_sample;
  samples_per_project : list (string * Z);
  subjects_per_response : list (string * Z);
  subjects_per_sex : list (string * Z)
}.

(** Part 4: the four queries, one after the other. *)
Definition part4 (s : store) : result subset_report :=
  let* q1 := query1 s in
  let* q2 := query2 s in
  let* q3 := query3 s in
  let* q4 := query4 s in
  Ok {| baseline_samples := q1; samples_per_project := q2;
        subjects_per_response := q3; subjects_per_sex := q4 |}.

(* ================================================================== *)
(** * The two-sample t-test *)
(* ================================================================== *)

(** A double as Python sees it: not a number, an infinity, or a finite value
    (taken as a real number here). *)
Inductive xreal : Type :=
| XNaN
| XInf (negative : bool)
| XFin (r : R).

(** The percentage column as pandas hands it to SciPy: NULL is NaN.
    [None] when an observation is NaN. *)
Fixpoint observations (l : list value) : option (list Q) :=
  match l with
  | [] => Some []
  | VNull :: _ => None
  | VInt i :: rest => option_map (cons (Binary64.of_int i)) (observations rest)
  | VReal r :: rest => option_map (cons r) (observations rest)
  end.

Definition Qsum (l : list Q) : Q := fold_right Qplus 0%Q l.

Definition Qcount (l : list Q) : Q := inject_Z (Z.of_nat (List.length l)).

Definition mean (l : list Q) : Q := (Qsum l / Qcount l)%Q.

(** Sum of the squared deviations from the mean. *)
Definition sum_sq_dev (l : list Q) : Q :=
  Qsum (map (fun x => ((x - mean l) * (x - mean l))%Q) l).

Local Open Scope R_scope.

(** [1 + a1 c + a2 c^2 + ...], [n] terms, the coefficient of each term being
    the one before times [step j]. *)
Fixpoint cos_series (step : nat -> R) (c term : R) (j n : nat) : R :=
  match n with
  | O => 0
  | S n' => term + cos_series step c (term * step (S j) * c) (S j) n'
  end.

(** The probability that a Student variable with [nu] degrees of freedom lies
    within [-t, t], for [0 <= t], in closed form (Abramowitz and Stegun
    26.7.3 and 26.7.4, with theta = atan (t / sqrt nu)). *)
Definition student_within (nu : nat) (t : R) : R :=
  let c := INR nu / (INR nu + t * t) in
  let sin_theta := t / R_sqrt.sqrt (INR nu + t * t) in
  if Nat.even nu then
    sin_theta
    * cos_series (fun j => (2 * INR j - 1) / (2 * INR j)) c 1 0 (Nat.div2 nu)
  else
    2 / PI
    * (atan (t / R_sqrt.sqrt (INR nu))
       + sin_theta * R_sqrt.sqrt c
         * cos_series (fun j => (2 * INR j) / (2 * INR j + 1)) c 1 0
             (Nat.div2 (nu - 1))).

(** Two-sided p-value. *)
Definition student_two_sided (nu : nat) (t : R) : R :=
  1 - student_within nu (Rabs t).

(** Modelled from the spec: [scipy.stats.ttest_ind (a, b, equal_var=True)],
    which is library code and not part of the sources.  Section 4.3: "a
    two-sample t-test assuming equal variance (pooled-variance / Student's
    t-test, two-sided)".  The statistic is the difference of the means over
    the pooled standard error, with [n1 + n2 - 2] degrees of freedom; it is
    not a number when an arm is empty, when there is no degree of freedom,
    when an observation is NaN, or when both the difference and the standard
    error are zero.  The arithmetic is exact. *)
Definition ttest_ind (a b : list value) : xreal * xreal :=
  match observations a, observations b with
  | Some xs, Some ys =>
      let n1 := List.length xs in
      let n2 := List.length ys in
      if (n1 =? 0)%nat || (n2 =? 0)%nat || (n1 + n2 <=? 2)%nat
      then (XNaN, XNaN)
      else
        let df := (n1 + n2 - 2)%nat in
        let svar :=
          ((sum_sq_dev xs + sum_sq_dev ys) / inject_Z (Z.of_nat df))%Q in
        let se2 := (svar * (1 / Qcount xs + 1 / Qcount ys))%Q in
        let d := (mean xs - mean ys)%Q in
        if Qeq_bool se2 0 then
          if Qeq_bool d 0 then (XNaN, XNaN)
          else (XInf (negb (Qle_bool 0 d)), XFin 0)
        else
          let t := Q2R d / R_sqrt.sqrt (Q2R se2) in
          (XFin t, XFin (student_two_sided df t))
  | _, _ => (XNaN, XNaN)
  end.

(** [x < c] on doubles: false on NaN. *)
Definition xlt (x : xreal) (c : R) : bool :=
  match x with
  | XNaN => false
  | XInf negative => negative
  | XFin r => if Rlt_dec r c then true else false
  end.

(** Nearest integer to a real, ties to the even one. *)
Definition Rround_half_even (x : R) : Z :=
  let f := Int_part x in
  if Rlt_dec (frac_part x) (1 / 2) then f
  else if Rlt_dec (1 / 2) (frac_part x) then (f + 1)%Z
  else if Z.even f then f else (f + 1)%Z.

(** Python's [round (x, ndigits)]. *)
Definition py_round (x : xreal) (ndigits : nat) : xreal :=
  match x with
  | XFin r => XFin (IZR (Rround_half_even (r * 10 ^ ndigits)) / 10 ^ ndigits)
  | _ => x
  end.

Local Close Scope R_scope.

(** ** The loop of Part 3: lines 185 to 265 *)

Definition data_frame : Type := list (string * value).

(** The five frames, read one after the other, and the list [dfs]. *)
Definition dfs (s : store) : result (list (string * data_frame)) :=
  let* bCellDf := get_cell_data "b_cell" s in
  let* cd8CellDf := get_cell_data "cd8_t_cell" s in
  let* cd4CellDf := get_cell_data "cd4_t_cell" s in
  let* nkCellDf := get_cell_data "nk_cell" s in
  let* monocyteCellDf := get_cell_data "monocyte" s in
  Ok [ ("B Cell", bCellDf);
       ("CD8 T Cell", cd8CellDf);
       ("CD4 T Cell", cd4CellDf);
       ("NK Cell", nkCellDf);
       ("Monocyte", monocyteCellDf) ].

(** One turn of the loop: what is printed for a population. *)
Definition ttest_of (name : string) (df : data_frame) : string * xreal * xreal :=
  let responders := arm "yes" df in
  let nonresponders := arm "no" df in
  let (t_stat, p_value) := ttest_ind responders nonresponders in
  (name, t_stat, p_value).

Definition part3 (s : store) : result (list (string * xreal * xreal)) :=
  let* frames := dfs s in
  Ok (map (fun x => ttest_of (fst x) (snd x)) frames).

(** ** The dashboard at start-up: lines 28 to 66 *)

Definition populations : list string :=
  ["b_cell"; "cd8_t_cell"; "cd4_t_cell"; "nk_cell"; "monocyte"].

Definition population_names : list (string * string) :=
  [ ("b_cell", "B Cell");
    ("cd8_t_cell", "CD8 T Cell");
    ("cd4_t_cell", "CD4 T Cell");
    ("nk_cell", "NK Cell");
    ("monocyte", "Monocyte") ].

(** [d[k]] on a dictionary. *)
Fixpoint getitem {V : Type} (d : list (string * V)) (k : string) : result V :=
  match d with
  | [] => Raise (KeyError k)
  | (k', v) :: rest => if k' =? k then Ok v else getitem rest k
  end.

(** A comprehension or a loop over a list, stopping at the first exception. *)
Fixpoint for_each {A B : Type} (f : A -> result B) (l : list A)
    : result (list B) :=
  match l with
  | [] => Ok []
  | x :: xs =>
      let* y := f x in
      let* ys := for_each f xs in
      Ok (y :: ys)
  end.

(** cell_data = {pop: get_cell_data(pop) for pop in populations}. *)
Definition cell_data (s : store) : result (list (string * data_frame)) :=
  for_each (fun pop => let* df := get_cell_data pop s in Ok (pop, df))
           populations.

Record stats_row : Type := {
  Cell_Type : string;
  T_statistic : xreal;
  P_value : xreal;
  Significant : string
}.

(** The loop body up to the call of the test: [t_stat] and [p_value] as the
    test returns them. *)
Definition stats_of (data : list (string * data_frame)) (pop : string)
    : result (string * xreal * xreal) :=
  let* df := getitem data pop in
  let responders := arm "yes" df in
  let nonresponders := arm "no" df in
  let (t_stat, p_value) := ttest_ind responders nonresponders in
  let* name := getitem population_names pop in
  Ok (name, t_stat, p_value).

(** The dictionary appended to [stats_results]: the values rounded, and the
    significance flag. *)
Definition stats_row_of (x : string * xreal * xreal) : stats_row :=
  let '(name, t_stat, p_value) := x in
  {| Cell_Type := name;
     T_statistic := py_round t_stat 3;
     P_value := py_round p_value 4;
     Significant := if xlt p_value (5 / 100)%R then "Yes" else "No" |}.

Definition stats_results (s : store) : result (list stats_row) :=
  let* data := cell_data s in
  for_each (fun pop => let* x := stats_of data pop in Ok (stats_row_of x))
           populations.

(* ================================================================== *)
(** * Specifications the code is compared with *)
(* ================================================================== *)

(** Specification: the sample a frequency record belongs to, and that
    sample's subject, looked up by key. *)
Definition owner_sample (samples : list Samples.row)
    (f : SampleCellFrequencies.row) : option Samples.row :=
  find (fun sa => Samples.sample sa =? SampleCellFrequencies.sample f) samples.

Definition owner_subject (subjects : list Subjects.row) (sa : Samples.row)
    : option Subjects.row :=
  find (fun su => Subjects.subject su =? Samples.subject sa) subjects.

(** Specification: the frequency records of the cohort, for a population and
    a response label: the record is of that population, its sample is a PBMC
    sample, and the subject of the sample was treated with miraclib for
    melanoma and has that response. *)
Definition spec_in_cohort (samples : list Samples.row)
    (subjects : list Subjects.row) (population label : string)
    (f : SampleCellFrequencies.row) : bool :=
  match owner_sample samples f with
  | None => false
  | Some sa =>
      match owner_subject subjects sa with
      | None => false
      | Some su =>
          (Subjects.treatment su =? "miraclib")
          && (Subjects.condition su =? "melanoma")
          && (Samples.sample_type sa =? "PBMC")
          && (SampleCellFrequencies.population f =? population)
          && (Subjects.response su =? label)
      end
  end.

(* ================================================================== *)
(** * The script and the dashboard as wholes *)
(* ================================================================== *)





Record dashboard_data : Type := {
  subjects_df : list Subjects.row;
  samples_df : list Samples.row;
  cell_frequencies_df : list SampleCellFrequencies.row;
  stats_df : list stats_row;
  subset_tables : subset_report
}.

(** The dashboard between [sqlite3.connect] and [conn.close ()], lines 18 to
    108: the two tables in key order, the view, the five cohort frames with
    their tests, and the four queries of the subset report. *)
Definition dashboard_startup (s : store) : result dashboard_data :=
  let* subjects := scan_Subjects s in
  let* samples := scan_Samples s in
  let* freqs := read_frequencies s in
  let* stats := stats_results s in
  let* subset := part4 s in
  Ok {| subjects_df := order_by Subjects.subject subjects;
        samples_df := order_by Samples.sample samples;
        cell_frequencies_df := freqs;
        stats_df := stats;
        subset_tables := subset |}.

(** DROP TABLE IF EXISTS Subjects before DROP TABLE IF EXISTS Samples: the
    two statements of lines 16 and 17 the other way round. *)
Definition drop_Subjects_first : script unit :=
  drop_Subjects_if_exists ;;
  drop_Samples_if_exists.

(** The CSV rows agree on the columns of each subject, and on the columns of
    each sample. *)
Definition subjects_consistent (csv : list countCSVStaging.row) : Prop :=
  forall r1 r2, In r1 csv -> In r2 csv ->
    countCSVStaging.subject r1 = countCSVStaging.subject r2 ->
    subject_columns r1 = subject_columns r2.

Definition samples_consistent (csv : list countCSVStaging.row) : Prop :=
  forall r1 r2, In r1 csv -> In r2 csv ->
    countCSVStaging.sample r1 = countCSVStaging.sample r2 ->
    sample_columns r1 = sample_columns r2.

(** The sum of the counts of a grouped query. *)
Definition total_of (groups : list (string * Z)) : Z :=
  fold_right (fun g acc => snd g + acc) 0 groups.

(** The same sample taken at another time. *)
Definition at_time (time : Samples.row -> Z) (r : Samples.row) : Samples.row :=
  {| Samples.subject := Samples.subject r;
     Samples.sample := Samples.sample r;
     Samples.sample_type := Samples.sample_type r;
     Samples.time_from_treatment := time r;
     Samples.b_cell := Samples.b_cell r;
     Samples.cd8_t_cell := Samples.cd8_t_cell r;
     Samples.cd4_t_cell := Samples.cd4_t_cell r;
     Samples.nk_cell := Samples.nk_cell r;
     Samples.monocyte := Samples.monocyte r |}.

(** The order of an ORDER BY on a TEXT column: BINARY collation on the key. *)
Definition key_le {A : Type} (key : A -> string) (x y : A) : Prop :=
  String.leb (key x) (key y) = true.

(** The order of an ORDER BY on two TEXT columns. *)
Definition lex_le {A : Type} (key1 key2 : A -> string) (x y : A) : Prop :=
  String.leb (key1 x) (key1 y) = true
  /\ (key1 x = key1 y -> String.leb (key2 x) (key2 y) = true).

(** The order of ORDER BY sample, population. *)
Definition sample_population_le : SampleCellFrequencies.row ->
    SampleCellFrequencies.row -> Prop :=
  lex_le SampleCellFrequencies.sample SampleCellFrequencies.population.

(** A grouped count as SQLite returns it: one row per key, the keys in
    ascending order, and no row with a count below one. *)
Definition well_grouped (q : list (string * Z)) : Prop :=
  NoDup (map fst q)
  /\ StronglySorted (fun a b => String.leb a b = true) (map fst q)
  /\ Forall (fun g => 1 <= snd g) q.

(** The row query1 selects from a sample joined to its subject. *)
Definition baseline_of (r : Samples.row * Subjects.row) : baseline_sample :=
  {| bs_sample := Samples.sample (fst r);
     bs_subject := Subjects.subject (snd r);
     bs_project := Subjects.project (snd r);
     bs_response := Subjects.response (snd r);
     bs_sex := Subjects.sex (snd r) |}.

(** The store with every sample moved to another time. *)
Definition retime (time : Samples.row -> Z) (s : store) : store :=
  set_samples (option_map (map (at_time time)) (Samples_table s)) s.

(** Specification: a sample of the cohort of Part 3, a PBMC sample of a subject
    treated with miraclib for melanoma; the time of the sample is not asked. *)
Definition in_cohort (subjects : list Subjects.row) (sa : Samples.row) : bool :=
  match owner_subject subjects sa with
  | Some su =>
      (Subjects.treatment su =? "miraclib")
      && (Subjects.condition su =? "melanoma")
      && (Samples.sample_type sa =? "PBMC")
  | None => false
  end.

(** Specification: the response of the subject of a sample. *)
Definition response_of (subjects : list Subjects.row) (sa : Samples.row) : string :=
  match owner_subject subjects sa with
  | Some su => Subjects.response su
  | None => ""
  end.

(** Specification: the frame of a population, one row per sample of the
    cohort in the order of the Samples table. *)
Definition cohort_frame (count : Samples.row -> Z) (samples : list Samples.row)
    (subjects : list Subjects.row) : data_frame :=
  map (fun sa => (response_of subjects sa,
                  percentage_of (count sa) (total_count sa)))
      (filter (in_cohort subjects) samples).
(* ================================================================== *)
(** * Facts about binary64 rounding *)
(* ================================================================== *)

Module Binary64Facts.
Import Binary64.
Local Open Scope Q_scope.

Lemma pow2_pos (e : Z) : 0 < 2 ^ e.
Proof. apply Qpower_0_lt. reflexivity. Qed.

Lemma pow2_succ (e : Z) : 2 ^ (e + 1) == 2 * 2 ^ e.
Proof. rewrite Qpower_plus by discriminate. simpl. ring. Qed.

Lemma pow2_inject (n : Z) : (0 <= n)%Z -> inject_Z (2 ^ n) == 2 ^ n.
Proof. intros H. now rewrite Zpower_Qpower. Qed.

Lemma Zlog2_bounds_Q (n : Z) :
  (0 < n)%Z -> 2 ^ Z.log2 n <= inject_Z n /\ inject_Z n < 2 * 2 ^ Z.log2 n.
Proof.
  intros H. destruct (Z.log2_spec n H) as [Hl Hu].
  pose proof (Z.log2_nonneg n) as Hn.
  rewrite <- pow2_inject by assumption.
  split.
  - rewrite <- Zle_Qle. exact Hl.
  - replace (2 * inject_Z (2 ^ Z.log2 n)) with (inject_Z 2 * inject_Z (2 ^ Z.log2 n)) by reflexivity.
    rewrite <- inject_Z_mult, <- Zlt_Qlt.
    replace (Z.succ (Z.log2 n)) with (Z.log2 n + 1)%Z in Hu by lia.
    rewrite Z.pow_add_r in Hu by lia. lia.
Qed.

Lemma Qlog2_spec (x : Q) :
  0 < x -> 2 ^ Qlog2 x <= x /\ x < 2 ^ (Qlog2 x + 1).
Proof.
  intros Hx. destruct x as [n d]. unfold Qlog2. cbn [Qnum Qden].
  assert (Hn : (0 < n)%Z) by (unfold Qlt in Hx; simpl in Hx; lia).
  destruct (Zlog2_bounds_Q n Hn) as [Hn1 Hn2].
  destruct (Zlog2_bounds_Q (Zpos d) eq_refl) as [Hd1 Hd2].
  set (a := Z.log2 n) in *. set (b := Z.log2 (Zpos d)) in *.
  pose proof (pow2_pos a) as Ha. pose proof (pow2_pos b) as Hb.
  assert (Hab : 2 ^ (a - b) * 2 ^ b == 2 ^ a).
  { rewrite <- Qpower_plus by discriminate. now replace (a - b + b)%Z with a by lia. }
  assert (Hx' : (n # d) * inject_Z (Zpos d) == inject_Z n).
  { unfold Qeq, Qmult, inject_Z. simpl. lia. }
  pose proof (pow2_pos (a - b)) as Hc.
  assert (Hd0 : 0 < inject_Z (Z.pos d)) by (unfold Qlt; simpl; lia).
  destruct (Qle_bool (2 ^ (a - b)) (n # d)) eqn:E.
  - apply Qle_bool_iff in E. split; [exact E|].
    rewrite pow2_succ. nra.
  - assert (E' : n # d < 2 ^ (a - b)).
    { apply Qnot_le_lt. intros C. apply Qle_bool_iff in C. congruence. }
    split.
    + assert (Hs : 2 * 2 ^ (a - b - 1) == 2 ^ (a - b)).
      { rewrite <- pow2_succ. now replace (a - b - 1 + 1)%Z with (a - b)%Z by lia. }
      pose proof (pow2_pos (a - b - 1)). nra.
    + now replace (a - b - 1 + 1)%Z with (a - b)%Z by lia.
Qed.

Lemma round_half_even_spec (x : Q) :
  Qabs (inject_Z (round_half_even x) - x) <= 1 # 2.
Proof.
  unfold round_half_even.
  pose proof (Qfloor_le x) as Hl. pose proof (Qlt_floor x) as Hu.
  rewrite inject_Z_plus in Hu. change (inject_Z 1) with 1 in Hu.
  apply Qabs_Qle_condition.
  destruct (Qcompare_spec (x - inject_Z (Qfloor x)) (1 # 2)) as [E|E|E].
  - destruct (Z.even (Qfloor x)); [|rewrite inject_Z_plus; change (inject_Z 1) with 1]; lra.
  - lra.
  - rewrite inject_Z_plus. change (inject_Z 1) with 1. lra.
Qed.

Lemma round_half_even_nonneg (x : Q) : 0 <= x -> (0 <= round_half_even x)%Z.
Proof.
  intros Hx. unfold round_half_even.
  assert (0 <= Qfloor x)%Z.
  { replace 0%Z with (Qfloor 0) by reflexivity. now apply Qfloor_resp_le. }
  destruct (Qcompare _ _); [destruct (Z.even _)| |]; lia.
Qed.

Lemma Qabs_pos_lt (x : Q) : ~ x == 0 -> 0 < Qabs x.
Proof.
  intros Hx. apply Qabs_case; intros H.
  - apply Qle_lteq in H as [H|H]; [exact H|]. exfalso. apply Hx. now symmetry.
  - apply Qle_lteq in H as [H|H]; [lra|]. exfalso. now apply Hx.
Qed.

Lemma u_value : u == 1 # 9007199254740992.
Proof. reflexivity. Qed.

(** The standard model of rounding: the relative error of [round] is at most
    the unit roundoff. *)
Lemma round_error (x : Q) : Qabs (round x - x) <= u * Qabs x.
Proof.
  unfold round. destruct (Qeq_bool x 0) eqn:E.
  - apply Qeq_bool_iff in E. rewrite E. vm_compute. discriminate.
  - assert (Hx : ~ x == 0) by (intros C; apply Qeq_bool_iff in C; congruence).
    pose proof (Qabs_pos_lt x Hx) as Ha.
    destruct (Qlog2_spec _ Ha) as [Hl _].
    set (L := Qlog2 (Qabs x)) in *. unfold prec.
    set (e := (L - (53 - 1))%Z).
    pose proof (pow2_pos e) as HP.
    assert (HL : 2 ^ L == 4503599627370496 * 2 ^ e).
    { replace L with (52 + e)%Z by (unfold e; lia).
      rewrite Qpower_plus by discriminate. reflexivity. }
    pose proof (round_half_even_spec (x / 2 ^ e)) as Hr.
    apply Qabs_Qle_condition in Hr.
    set (r := inject_Z (round_half_even (x / 2 ^ e))) in *.
    assert (Hy : x / 2 ^ e * 2 ^ e == x) by (field; lra).
    set (y := x / 2 ^ e) in *. set (P := 2 ^ e) in *.
    rewrite Qred_correct, u_value.
    apply Qabs_Qle_condition. nra.
Qed.

Lemma round_nonneg (x : Q) : 0 <= x -> 0 <= round x.
Proof.
  intros Hx. unfold round. destruct (Qeq_bool x 0); [lra|].
  rewrite Qred_correct.
  set (e := (_ - _)%Z). pose proof (pow2_pos e) as HP.
  assert (0 <= round_half_even (x / 2 ^ e))%Z.
  { apply round_half_even_nonneg. apply Qle_shift_div_l; lra. }
  apply Qmult_le_0_compat; [|lra].
  now rewrite Zle_Qle in H.
Qed.

(** For a non-negative exact result the rounded one lies within a factor
    [1 - u] and [1 + u] of it. *)
Lemma round_within (x : Q) :
  0 <= x -> (1 - u) * x <= round x /\ round x <= (1 + u) * x.
Proof.
  intros Hx. pose proof (round_error x) as H.
  rewrite (Qabs_pos x Hx) in H. apply Qabs_Qle_condition in H.
  rewrite u_value in *. lra.
Qed.


End Binary64Facts.

Module NearFacts.
Import Binary64 Binary64Facts.
Local Open Scope Q_scope.

Lemma delta_value : delta == 1 # 4503599627370496.
Proof. reflexivity. Qed.

Lemma near_exact (x : Q) : near 0 x x.
Proof. unfold near. rewrite delta_value. split; lra. Qed.

Lemma near_nonneg (k x q : Q) :
  0 <= x -> 0 <= k <= 1000 -> near k x q -> 0 <= q.
Proof.
  unfold near. rewrite delta_value. intros Hx Hk [Hl _].
  assert (0 <= (1 - k * (1 # 4503599627370496)) * x); [|lra].
  apply Qmult_le_0_compat; lra.
Qed.

Lemma near_weaken (k k' x q : Q) :
  0 <= x -> k <= k' -> near k x q -> near k' x q.
Proof.
  unfold near. rewrite delta_value. intros Hx Hk [Hl Hu].
  assert (H : 0 <= (k' - k) * x) by (apply Qmult_le_0_compat; lra).
  split; lra.
Qed.

Lemma near_plus (k x y q p : Q) :
  near k x q -> near k y p -> near k (x + y) (q + p).
Proof. unfold near. intros [? ?] [? ?]. split; lra. Qed.

Lemma near_scale (k c x q : Q) :
  0 <= c -> near k x q -> near k (c * x) (c * q).
Proof.
  unfold near. intros Hc [Hl Hu]. split.
  - setoid_replace ((1 - k * delta) * (c * x)) with (c * ((1 - k * delta) * x)) by ring.
    now apply Qmult_le_l_weak || (apply Qmult_le_compat_nonneg'; lra) || nra.
  - setoid_replace ((1 + k * delta) * (c * x)) with (c * ((1 + k * delta) * x)) by ring.
    nra.
Qed.

Lemma near_round (k x q : Q) :
  0 <= x -> 0 <= k <= 1000 -> near k x q -> near (k + 1) x (round q).
Proof.
  intros Hx Hk H. pose proof (near_nonneg _ _ _ Hx Hk H) as Hq.
  destruct (round_within q Hq) as [Hl Hu].
  unfold near in *. rewrite u_value in *. rewrite delta_value in *.
  destruct H as [H1 H2].
  set (d := 1 # 4503599627370496) in *.
  assert (Hkx : 0 <= k * x) by (apply Qmult_le_0_compat; lra).
  split; unfold d in *; nra.
Qed.
End NearFacts.

(** ** The model against the primitive doubles

    [Binary64] leaves the exponent unbounded; on the values the script
    computes it agrees with the primitive binary64 arithmetic of Rocq, here on
    a few conversions, products and quotients, inexact ones and a tie
    included. *)

Example of_int_inexact :
  Prim2Q (prim_of_int (10 ^ 17 - 100)) = Some (Binary64.of_int (10 ^ 17 - 100))
  /\ Binary64.of_int (10 ^ 17 - 100) = inject_Z (10 ^ 17 - 96).
Proof. vm_compute. split; reflexivity. Qed.

Example of_int_tie_to_even :
  Prim2Q (prim_of_int (2 ^ 53 + 1)) = Some (Binary64.of_int (2 ^ 53 + 1))
  /\ Binary64.of_int (2 ^ 53 + 1) = inject_Z (2 ^ 53)
  /\ Binary64.of_int (2 ^ 53 + 3) = inject_Z (2 ^ 53 + 4).
Proof. vm_compute. repeat split; reflexivity. Qed.

Example percentage_7_of_30 :
  Prim2Q (PrimFloat.div (PrimFloat.mul (prim_of_int 100) (prim_of_int 7))
                        (prim_of_int 30))
  = Some (Binary64.div (Binary64.mul 100 (Binary64.of_int 7)) (Binary64.of_int 30)).
Proof. vm_compute. reflexivity. Qed.

Example percentage_of_large_counts :
  Prim2Q (PrimFloat.div
            (PrimFloat.mul (prim_of_int 100) (prim_of_int 12345678901234567))
            (prim_of_int 98765432109876543))
  = Some (Binary64.div (Binary64.mul 100 (Binary64.of_int 12345678901234567))
                       (Binary64.of_int 98765432109876543)).
Proof. vm_compute. reflexivity. Qed.

Example sum_past_64_bits :
  Prim2Q (PrimFloat.add (prim_of_int (2 ^ 63 - 1)) (prim_of_int 12345))
  = Some (Binary64.add (Binary64.of_int (2 ^ 63 - 1)) (Binary64.of_int 12345))
  /\ sql_add (VInt (2 ^ 63 - 1)) (VInt 12345)
     = VReal (Binary64.add (Binary64.of_int (2 ^ 63 - 1)) (Binary64.of_int 12345)).
Proof. vm_compute. split; reflexivity. Qed.
(* ================================================================== *)
(** * The frequency view *)
(* ================================================================== *)

Section Lists.
Context {A B : Type}.

Lemma filter_map_comm (p : B -> bool) (f : A -> B) (l : list A) :
  filter p (map f l) = map f (filter (fun x => p (f x)) l).
Proof.
  induction l as [|x xs IH]; simpl; [reflexivity|].
  destruct (p (f x)); simpl; now rewrite IH.
Qed.

Lemma filter_none (p : A -> bool) (l : list A) :
  (forall x, In x l -> p x = false) -> filter p l = [].
Proof.
  induction l as [|x xs IH]; intros H; simpl; [reflexivity|].
  rewrite (H x (or_introl eq_refl)). apply IH. intros y Hy. apply H. now right.
Qed.

(** In a table whose keys are pairwise different, selecting on the key of
    one of its rows gives that row and no other. *)
Lemma filter_key_unique (key : A -> string) (l : list A) (r : A) :
  NoDup (map key l) -> In r l ->
  filter (fun x => key x =? key r) l = [r].
Proof.
  induction l as [|x xs IH]; intros Hnd Hin; [contradiction|].
  simpl in Hnd. inversion Hnd as [|? ? Hx Hxs]; subst.
  simpl. destruct Hin as [->|Hin].
  - rewrite String.eqb_refl. f_equal. apply filter_none.
    intros y Hy. apply String.eqb_neq. intros E. apply Hx.
    rewrite <- E. now apply in_map.
  - destruct (String.eqb_spec (key x) (key r)) as [E|E].
    + exfalso. apply Hx. rewrite E. now apply in_map.
    + now apply IH.
Qed.
End Lists.

(** The record of the view for one sample and one population. *)
Lemma frequency_select (pop pop' : string) (count : Samples.row -> Z)
    (samples : list Samples.row) (r : Samples.row) :
  NoDup (map Samples.sample samples) -> In r samples ->
  filter (fun f => (SampleCellFrequencies.sample f =? Samples.sample r)
                   && (SampleCellFrequencies.population f =? pop))
         (map (frequency pop' count) samples)
  = if pop' =? pop then [frequency pop' count r] else [].
Proof.
  intros Hnd Hin. rewrite filter_map_comm. cbn [frequency SampleCellFrequencies.sample SampleCellFrequencies.population].
  destruct (pop' =? pop).
  - rewrite (filter_ext _ (fun x => Samples.sample x =? Samples.sample r)).
    + now rewrite filter_key_unique.
    + intros x. apply andb_true_r.
  - rewrite filter_none; [reflexivity|]. intros x _. apply andb_false_r.
Qed.

Lemma fits_int64_true (z : Z) : 0 <= z <= max_int64 -> fits_int64 z = true.
Proof.
  intros H. unfold fits_int64, min_int64, max_int64 in *.
  apply andb_true_iff. split; apply Z.leb_le; lia.
Qed.

(** With non-negative counts whose sum fits 64 bits the total is the integer
    sum: no addition leaves the integer path. *)
Lemma total_count_int (r : Samples.row) :
  counts_in_range r -> five_counts r <= max_int64 ->
  total_count r = VInt (five_counts r).
Proof.
  unfold counts_in_range, five_counts, total_count. intros H Hs.
  cbn [sql_add]. rewrite fits_int64_true by lia. cbn [sql_add].
  rewrite fits_int64_true by lia. cbn [sql_add].
  rewrite fits_int64_true by lia. cbn [sql_add].
  rewrite fits_int64_true by lia. reflexivity.
Qed.

Lemma of_int_nonzero (i : Z) : 0 < i -> Qeq_bool (Binary64.of_int i) 0 = false.
Proof.
  intros Hi. destruct (Qeq_bool (Binary64.of_int i) 0) eqn:E; [|reflexivity].
  apply Qeq_bool_iff in E. exfalso.
  assert (Hq : (0 < inject_Z i)%Q) by (rewrite Zlt_Qlt in Hi; exact Hi).
  destruct (Binary64Facts.round_within (inject_Z i)) as [Hl _]; [lra|].
  unfold Binary64.of_int in E. rewrite Binary64Facts.u_value in Hl. lra.
Qed.

(** C1: for every sample of the Samples table (keys pairwise different, as the
    primary key has them) and each of the five populations, the view holds
    exactly one record; its total is the sum of the five counts, and its
    percentage is [100.0 * count / total] as SQLite evaluates it: NULL when
    the total is zero, and otherwise the double obtained by converting the
    count, multiplying by 100.0 and dividing by the converted total.  The view
    has five records per sample.  For the counts (10,10,10,10,10) each
    percentage is exactly 20.0. *)
Theorem frequency_view_records :
  (forall (samples : list Samples.row) (r : Samples.row)
          (pop : string) (count : Samples.row -> Z),
      NoDup (map Samples.sample samples) ->
      In r samples ->
      In (pop, count) population_columns ->
      counts_in_range r ->
      five_counts r <= max_int64 ->
      List.length (SampleCellFrequencies_rows samples) = (5 * List.length samples)%nat
      /\ filter (fun f => (SampleCellFrequencies.sample f =? Samples.sample r)
                          && (SampleCellFrequencies.population f =? pop))
                (SampleCellFrequencies_rows samples)
         = [ {| SampleCellFrequencies.subject := Samples.subject r;
                SampleCellFrequencies.sample := Samples.sample r;
                SampleCellFrequencies.total_count := VInt (five_counts r);
                SampleCellFrequencies.population := pop;
                SampleCellFrequencies.count := count r;
                SampleCellFrequencies.percentage :=
                  if (five_counts r =? 0)%Z then VNull
                  else VReal (Binary64.div
                                (Binary64.mul 100 (Binary64.of_int (count r)))
                                (Binary64.of_int (five_counts r))) |} ])
  /\ (forall (subject sample sample_type : string) (time : Z),
        map SampleCellFrequencies.percentage
          (SampleCellFrequencies_rows
             [ {| Samples.subject := subject; Samples.sample := sample;
                  Samples.sample_type := sample_type;
                  Samples.time_from_treatment := time;
                  Samples.b_cell := 10; Samples.cd8_t_cell := 10;
                  Samples.cd4_t_cell := 10; Samples.nk_cell := 10;
                  Samples.monocyte := 10 |} ])
        = [VReal 20; VReal 20; VReal 20; VReal 20; VReal 20]).
Proof.
  split.
  - intros samples r pop count Hnd Hin Hpop Hrange Hsum. split.
    + unfold SampleCellFrequencies_rows. rewrite !length_app, !length_map. lia.
    + unfold SampleCellFrequencies_rows. rewrite !filter_app.
      rewrite !frequency_select by assumption.
      assert (Hrec : forall c, frequency pop c r =
        {| SampleCellFrequencies.subject := Samples.subject r;
           SampleCellFrequencies.sample := Samples.sample r;
           SampleCellFrequencies.total_count := VInt (five_counts r);
           SampleCellFrequencies.population := pop;
           SampleCellFrequencies.count := c r;
           SampleCellFrequencies.percentage :=
             if (five_counts r =? 0)%Z then VNull
             else VReal (Binary64.div
                           (Binary64.mul 100 (Binary64.of_int (c r)))
                           (Binary64.of_int (five_counts r))) |}).
      { intros c. unfold frequency, percentage_of.
        rewrite total_count_int by assumption. f_equal.
        cbn [sql_mul sql_div real_value].
        destruct (Z.eqb_spec (five_counts r) 0) as [E|E].
        - rewrite E. reflexivity.
        - rewrite of_int_nonzero; [reflexivity|].
          unfold counts_in_range, five_counts in *. lia. }
      simpl in Hpop.
      destruct Hpop as [E|[E|[E|[E|[E|[]]]]]]; inversion E; subst pop count;
        rewrite <- Hrec; reflexivity.
  - intros. vm_compute. reflexivity.
Qed.

Module PercentageFacts.
Import Binary64 Binary64Facts NearFacts.
Local Open Scope Q_scope.

(** The quotient of two approximations. *)
Lemma near_div (x y q p : Q) :
  0 <= x -> 0 < y -> near 2 x q -> near 5 y p -> near 8 (x / y) (q / p).
Proof.
  intros Hx Hy [Hq1 Hq2] [Hp1 Hp2]. unfold near in *. rewrite delta_value in *.
  set (d := 1 # 4503599627370496) in *.
  assert (Hp : 0 < p) by (unfold d in *; nra).
  assert (HX : x / y * y == x) by (field; lra).
  assert (HQ : q / p * p == q) by (field; lra).
  set (X := x / y) in *. set (Z := q / p) in *.
  assert (HX0 : 0 <= X).
  { unfold X. apply Qle_shift_div_l; lra. }
  assert (HZ0 : 0 <= Z).
  { unfold Z. apply Qle_shift_div_l; [lra|]. unfold d in *; nra. }
  unfold d in *. split.
  - (* (1 - 8d) X <= Z : multiply by p *)
    apply Qmult_le_r with (z := p); [exact Hp|]. rewrite HQ.
    nra.
  - apply Qmult_le_r with (z := p); [exact Hp|]. rewrite HQ.
    nra.
Qed.
End PercentageFacts.

Module TotalFacts.
Import Binary64 Binary64Facts NearFacts PercentageFacts.
Local Open Scope Q_scope.

Lemma near_proper (k x y q : Q) : x == y -> near k x q -> near k y q.
Proof. unfold near. intros E [H1 H2]. rewrite <- E. now split. Qed.

Lemma near_round_exact (x : Q) : 0 <= x -> near 1 x (round x).
Proof.
  intros Hx. apply near_weaken with (k := 0 + 1); [exact Hx|lra|].
  apply near_round; [exact Hx|lra|apply near_exact].
Qed.

Lemma real_value_near (k x : Q) (v : value) :
  0 <= x -> 1 <= k -> approximates k x v -> near k x (real_value v).
Proof.
  intros Hx Hk. destruct v as [|i|q]; simpl; [contradiction| |tauto].
  intros E. apply near_weaken with (k := 1); [exact Hx|exact Hk|].
  unfold of_int. apply near_proper with (x := inject_Z i); [exact E|].
  apply near_round_exact. now rewrite E.
Qed.

Lemma of_int_near (y : Z) : (0 <= y)%Z -> near 1 (inject_Z y) (of_int y).
Proof.
  intros Hy. apply near_round_exact. now rewrite Zle_Qle in Hy.
Qed.

(** One addition of the sum of the counts. *)
Lemma sql_add_approximates (k x : Q) (v : value) (y : Z) :
  0 <= x -> (0 <= y)%Z -> 1 <= k <= 999 -> approximates k x v ->
  approximates (k + 1) (x + inject_Z y) (sql_add v (VInt y)).
Proof.
  intros Hx Hy Hk Hv.
  assert (Hyq : 0 <= inject_Z y) by (now rewrite Zle_Qle in Hy).
  pose proof (of_int_near y Hy) as Hny.
  assert (Hadd : forall q, near k x q ->
            near (k + 1) (x + inject_Z y) (add q (of_int y))).
  { intros q Hq. unfold add. apply near_round; [lra|lra|].
    apply near_plus; [exact Hq|].
    apply near_weaken with (k := 1); [exact Hyq|lra|exact Hny]. }
  destruct v as [|i|q]; [contradiction| |].
  - simpl in Hv. cbn [sql_add]. destruct (fits_int64 (i + y)).
    + simpl. rewrite inject_Z_plus, Hv. reflexivity.
    + cbn [approximates real_value]. apply Hadd.
      apply real_value_near with (v := VInt i); [exact Hx|lra|exact Hv].
  - simpl in Hv. cbn [sql_add approximates real_value]. now apply Hadd.
Qed.

Lemma approximates_weaken (k k' x : Q) (v : value) :
  0 <= x -> k <= k' -> approximates k x v -> approximates k' x v.
Proof.
  intros Hx Hk. destruct v; simpl; try tauto. now apply near_weaken.
Qed.

(** The total of a sample in range stands for the sum of its five counts,
    whether or not an addition left the integer path. *)
Lemma total_count_approximates (r : Samples.row) :
  counts_in_range r ->
  approximates 5 (inject_Z (five_counts r)) (total_count r).
Proof.
  unfold counts_in_range, five_counts, total_count.
  intros (Hb & H8 & H4 & Hn & Hm).
  assert (Q0 : forall z, (0 <= z)%Z -> 0 <= inject_Z z).
  { intros z Hz. now rewrite Zle_Qle in Hz. }
  pose proof (Q0 _ (proj1 Hb)). pose proof (Q0 _ (proj1 H8)).
  pose proof (Q0 _ (proj1 H4)). pose proof (Q0 _ (proj1 Hn)).
  pose proof (Q0 _ (proj1 Hm)).
  rewrite !inject_Z_plus.
  apply approximates_weaken with (k := 1 + 1 + 1 + 1 + 1); [lra | lra |].
  repeat (apply sql_add_approximates; [ lra | lia | lra | ]).
  simpl. reflexivity.
Qed.
End TotalFacts.

Module SumFacts.
Import Binary64 Binary64Facts NearFacts PercentageFacts TotalFacts.
Local Open Scope Q_scope.

(** The percentage of a count of a sample with a positive total is a double
    near [100 * count / total]. *)
Lemma percentage_near (r : Samples.row) (c : Z) :
  counts_in_range r -> (0 < five_counts r)%Z -> (0 <= c)%Z ->
  exists p : Q,
    percentage_of c (total_count r) = VReal p
    /\ near 9 (100 * inject_Z c / inject_Z (five_counts r)) p.
Proof.
  intros Hr HT Hc.
  pose proof (total_count_approximates r Hr) as Hv.
  assert (HTq : 0 < inject_Z (five_counts r)) by (now rewrite Zlt_Qlt in HT).
  assert (Hcq : 0 <= inject_Z c) by (now rewrite Zle_Qle in Hc).
  set (T := inject_Z (five_counts r)) in *.
  assert (HfT : near 5 T (real_value (total_count r))).
  { apply real_value_near; [lra|lra|exact Hv]. }
  set (v := total_count r) in *.
  assert (Hm : near 2 (100 * inject_Z c) (mul 100 (of_int c))).
  { unfold mul. apply near_weaken with (k := 1 + 1); [|lra|].
    - apply Qmult_le_0_compat; lra.
    - apply near_round; [apply Qmult_le_0_compat; lra|lra|].
      apply near_scale; [lra|]. now apply of_int_near. }
  assert (Hpos : 0 < real_value v).
  { destruct HfT as [Hl _]. rewrite delta_value in Hl. lra. }
  assert (Hnz : Qeq_bool (real_value v) 0 = false).
  { destruct (Qeq_bool (real_value v) 0) eqn:E; [|reflexivity].
    apply Qeq_bool_iff in E. lra. }
  exists (div (mul 100 (of_int c)) (real_value v)). split.
  - unfold percentage_of. cbn [sql_mul real_value].
    destruct v as [|i|q]; [contradiction| |]; cbn [sql_div]; now rewrite Hnz.
  - unfold div. apply near_weaken with (k := 8 + 1); [|lra|].
    + apply Qle_shift_div_l; [lra|]. 
      assert (0 <= 100 * inject_Z c) by (apply Qmult_le_0_compat; lra). lra.
    + apply near_round; [|lra|].
      * apply Qle_shift_div_l; [lra|].
        assert (0 <= 100 * inject_Z c) by (apply Qmult_le_0_compat; lra). lra.
      * apply near_div; [apply Qmult_le_0_compat; lra|lra|exact Hm|exact HfT].
Qed.

Lemma frequency_of_sample (pop : string) (count : Samples.row -> Z)
    (samples : list Samples.row) (r : Samples.row) :
  NoDup (map Samples.sample samples) -> In r samples ->
  filter (fun f => SampleCellFrequencies.sample f =? Samples.sample r)%string
         (map (frequency pop count) samples)
  = [frequency pop count r].
Proof.
  intros Hnd Hin. rewrite filter_map_comm.
  cbn [frequency SampleCellFrequencies.sample].
  now rewrite filter_key_unique.
Qed.
End SumFacts.

(** C2: for every sample of the Samples table with non-negative 64 bit counts
    and a strictly positive total, the five percentages the view holds for
    the sample are doubles whose sum is within 1e-6 of 100. *)
Theorem percentages_sum_to_100 :
  forall (samples : list Samples.row) (r : Samples.row),
    NoDup (map Samples.sample samples) ->
    In r samples ->
    counts_in_range r ->
    0 < five_counts r ->
    exists p1 p2 p3 p4 p5 : Q,
      map SampleCellFrequencies.percentage
        (filter (fun f => SampleCellFrequencies.sample f =? Samples.sample r)
                (SampleCellFrequencies_rows samples))
      = [VReal p1; VReal p2; VReal p3; VReal p4; VReal p5]
      /\ (Qabs (p1 + p2 + p3 + p4 + p5 - 100) <= 1 # 1000000)%Q.
Proof.
  intros samples r Hnd Hin Hr HT.
  pose proof Hr as (Hb & H8 & H4 & Hn & Hm).
  destruct (SumFacts.percentage_near r (Samples.b_cell r) Hr HT (proj1 Hb)) as (p1 & E1 & N1).
  destruct (SumFacts.percentage_near r (Samples.cd8_t_cell r) Hr HT (proj1 H8)) as (p2 & E2 & N2).
  destruct (SumFacts.percentage_near r (Samples.cd4_t_cell r) Hr HT (proj1 H4)) as (p3 & E3 & N3).
  destruct (SumFacts.percentage_near r (Samples.nk_cell r) Hr HT (proj1 Hn)) as (p4 & E4 & N4).
  destruct (SumFacts.percentage_near r (Samples.monocyte r) Hr HT (proj1 Hm)) as (p5 & E5 & N5).
  exists p1, p2, p3, p4, p5. split.
  - unfold SampleCellFrequencies_rows. rewrite !filter_app.
    rewrite !SumFacts.frequency_of_sample by assumption.
    cbn [app map frequency SampleCellFrequencies.percentage].
    now rewrite E1, E2, E3, E4, E5.
  - assert (HTq : (0 < inject_Z (five_counts r))%Q) by (now rewrite Zlt_Qlt in HT).
    pose proof (NearFacts.near_plus _ _ _ _ _
                  (NearFacts.near_plus _ _ _ _ _
                     (NearFacts.near_plus _ _ _ _ _
                        (NearFacts.near_plus _ _ _ _ _ N1 N2) N3) N4) N5) as [Hl Hu].
    rewrite NearFacts.delta_value in Hl, Hu.
    assert (Hsum : (100 * inject_Z (Samples.b_cell r) / inject_Z (five_counts r)
                    + 100 * inject_Z (Samples.cd8_t_cell r) / inject_Z (five_counts r)
                    + 100 * inject_Z (Samples.cd4_t_cell r) / inject_Z (five_counts r)
                    + 100 * inject_Z (Samples.nk_cell r) / inject_Z (five_counts r)
                    + 100 * inject_Z (Samples.monocyte r) / inject_Z (five_counts r)
                    == 100)%Q).
    { unfold five_counts at 1 2 3 4 5. unfold five_counts in HTq.
      rewrite !inject_Z_plus in *. field. lra. }
    rewrite Hsum in Hl, Hu.
    apply Qabs_Qle_condition. split; lra.
Qed.

(** The B cell record of a sample with counts 30, 10, 10, 0 and 10: half of
    a total of 60. *)
Lemma frequency_view_records_witness :
  let r := {| Samples.subject := "sbj1"; Samples.sample := "s1";
              Samples.sample_type := "PBMC"; Samples.time_from_treatment := 0;
              Samples.b_cell := 30; Samples.cd8_t_cell := 10;
              Samples.cd4_t_cell := 10; Samples.nk_cell := 0;
              Samples.monocyte := 10 |} in
  List.length (SampleCellFrequencies_rows [r]) = 5%nat
  /\ filter (fun f => (SampleCellFrequencies.sample f =? "s1")
                      && (SampleCellFrequencies.population f =? "b_cell"))
            (SampleCellFrequencies_rows [r])
     = [ {| SampleCellFrequencies.subject := "sbj1";
            SampleCellFrequencies.sample := "s1";
            SampleCellFrequencies.total_count := VInt 60;
            SampleCellFrequencies.population := "b_cell";
            SampleCellFrequencies.count := 30;
            SampleCellFrequencies.percentage := VReal 50 |} ].
Proof.
  intros r.
  apply (proj1 frequency_view_records [r] r "b_cell" Samples.b_cell).
  - repeat constructor. simpl. tauto.
  - simpl. tauto.
  - simpl. tauto.
  - unfold counts_in_range, max_int64. simpl. lia.
  - unfold five_counts, max_int64. simpl. lia.
Defined.

(** A sample with counts 1, 1, 1, 0 and 0: three thirds. *)
Lemma percentages_sum_to_100_witness :
  let r := {| Samples.subject := "sbj1"; Samples.sample := "s1";
              Samples.sample_type := "PBMC"; Samples.time_from_treatment := 0;
              Samples.b_cell := 1; Samples.cd8_t_cell := 1;
              Samples.cd4_t_cell := 1; Samples.nk_cell := 0;
              Samples.monocyte := 0 |} in
  exists p1 p2 p3 p4 p5 : Q,
    map SampleCellFrequencies.percentage
      (filter (fun f => SampleCellFrequencies.sample f =? "s1")
              (SampleCellFrequencies_rows [r]))
    = [VReal p1; VReal p2; VReal p3; VReal p4; VReal p5]
    /\ (Qabs (p1 + p2 + p3 + p4 + p5 - 100) <= 1 # 1000000)%Q.
Proof.
  intros r. apply (percentages_sum_to_100 [r] r).
  - repeat constructor. simpl. tauto.
  - simpl. tauto.
  - unfold counts_in_range, max_int64. simpl. lia.
  - unfold five_counts. simpl. lia.
Defined.

(** The thirds are not exact: each is the double nearest to 100/3, and the
    three add up to 100 less 2^-47. *)
Example thirds_do_not_add_up_exactly :
  map SampleCellFrequencies.percentage
    (SampleCellFrequencies_rows
       [ {| Samples.subject := "sbj1"; Samples.sample := "s1";
            Samples.sample_type := "PBMC"; Samples.time_from_treatment := 0;
            Samples.b_cell := 1; Samples.cd8_t_cell := 1;
            Samples.cd4_t_cell := 1; Samples.nk_cell := 0;
            Samples.monocyte := 0 |} ])
  = [ VReal (4691249611844267 # 140737488355328);
      VReal (4691249611844267 # 140737488355328);
      VReal (4691249611844267 # 140737488355328);
      VReal 0; VReal 0 ].
Proof. vm_compute. reflexivity. Qed.

(** Why the counts are taken non-negative, as the data model has them: the
    schema accepts a negative count, and then the two large percentages are
    rounded before they cancel.  With counts 10^15 and 1 - 10^15 the total is
    1 and the percentages add up to 96. *)
Remark negative_counts_cancel :
  let r := {| Samples.subject := "sbj1"; Samples.sample := "s1";
              Samples.sample_type := "PBMC"; Samples.time_from_treatment := 0;
              Samples.b_cell := 10 ^ 15; Samples.cd8_t_cell := 1 - 10 ^ 15;
              Samples.cd4_t_cell := 0; Samples.nk_cell := 0;
              Samples.monocyte := 0 |} in
  five_counts r = 1
  /\ map SampleCellFrequencies.percentage (SampleCellFrequencies_rows [r])
     = [ VReal (inject_Z (10 ^ 17)); VReal (inject_Z (96 - 10 ^ 17));
         VReal 0; VReal 0; VReal 0 ].
Proof. vm_compute. split; reflexivity. Qed.

(* ------------------------------------------------------------------ *)
(** ** A sample whose counts are all zero *)

(** C4 does not hold as stated: reading the view over a sample whose five
    counts sum to zero raises nothing.  The five records are there, and their
    percentage is NULL. *)
Lemma zero_total_raises_nothing :
  let r := {| Samples.subject := "sbj1"; Samples.sample := "s1";
              Samples.sample_type := "PBMC"; Samples.time_from_treatment := 0;
              Samples.b_cell := 0; Samples.cd8_t_cell := 0;
              Samples.cd4_t_cell := 0; Samples.nk_cell := 0;
              Samples.monocyte := 0 |} in
  let s := {| countCSVStaging_table := None;
              Subjects_table := Some [];
              Samples_table := Some [r];
              SampleCellFrequencies_view := true |} in
  five_counts r = 0
  /\ (forall e, scan_SampleCellFrequencies s <> Raise e)
  /\ (forall e, read_frequencies s <> Raise e)
  /\ exists rows,
       scan_SampleCellFrequencies s = Ok rows
       /\ map SampleCellFrequencies.percentage rows
          = [VNull; VNull; VNull; VNull; VNull].
Proof.
  intros r s. split; [reflexivity|]. split; [|split].
  - intros e. vm_compute. discriminate.
  - intros e. vm_compute. discriminate.
  - eexists. split; [reflexivity|]. vm_compute. reflexivity.
Qed.

(** C4, amended: for a sample with non-negative counts that sum to zero, the
    total is the integer 0 and the percentage of each of the five populations
    is NULL; the view is read without an error whenever the Samples table
    exists, and its rows hold those five records. *)
Theorem zero_total_percentage_is_null :
  forall (s : store) (samples : list Samples.row) (r : Samples.row),
    SampleCellFrequencies_view s = true ->
    Samples_table s = Some samples ->
    In r samples ->
    counts_in_range r ->
    five_counts r = 0 ->
    exists rows,
      scan_SampleCellFrequencies s = Ok rows
      /\ forall pop count,
           In (pop, count) population_columns ->
           In (frequency pop count r) rows
           /\ SampleCellFrequencies.total_count (frequency pop count r) = VInt 0
           /\ SampleCellFrequencies.percentage (frequency pop count r) = VNull.
Proof.
  intros s samples r Hview Htable Hin Hr H0.
  exists (SampleCellFrequencies_rows samples). split.
  - unfold scan_SampleCellFrequencies. now rewrite Hview, Htable.
  - intros pop count Hpop.
    assert (Ht : total_count r = VInt 0).
    { rewrite total_count_int; [now rewrite H0|exact Hr|].
      rewrite H0. unfold max_int64. lia. }
    split; [|split].
    + unfold SampleCellFrequencies_rows. rewrite !in_app_iff.
      simpl in Hpop.
      destruct Hpop as [E|[E|[E|[E|[E|[]]]]]]; inversion E; subst pop count;
        [left|right; left|do 2 right; left|do 3 right; left|do 4 right];
        now apply in_map.
    + cbn [frequency SampleCellFrequencies.total_count]. exact Ht.
    + cbn [frequency SampleCellFrequencies.percentage].
      unfold percentage_of. rewrite Ht. reflexivity.
Qed.

(** A store whose only sample has no cell at all. *)
Lemma zero_total_percentage_is_null_witness :
  let r := {| Samples.subject := "sbj1"; Samples.sample := "s1";
              Samples.sample_type := "PBMC"; Samples.time_from_treatment := 0;
              Samples.b_cell := 0; Samples.cd8_t_cell := 0;
              Samples.cd4_t_cell := 0; Samples.nk_cell := 0;
              Samples.monocyte := 0 |} in
  let s := {| countCSVStaging_table := None;
              Subjects_table := Some [];
              Samples_table := Some [r];
              SampleCellFrequencies_view := true |} in
  exists rows,
    scan_SampleCellFrequencies s = Ok rows
    /\ forall pop count,
         In (pop, count) population_columns ->
         In (frequency pop count r) rows
         /\ SampleCellFrequencies.total_count (frequency pop count r) = VInt 0
         /\ SampleCellFrequencies.percentage (frequency pop count r) = VNull.
Proof.
  intros r s. apply (zero_total_percentage_is_null s [r] r).
  - reflexivity.
  - reflexivity.
  - simpl. tauto.
  - unfold counts_in_range, max_int64. simpl. lia.
  - reflexivity.
Defined.

(* ================================================================== *)
(** * The load *)
(* ================================================================== *)

Section RelationalFacts.
Context {A : Type}.
Variable eq_dec : forall x y : A, {x = y} + {x <> y}.

Lemma in_distinct_from (seen l : list A) (x : A) :
  In x (distinct_from eq_dec seen l) <-> In x l /\ ~ In x seen.
Proof.
  revert seen. induction l as [|y ys IH]; intros seen; simpl; [tauto|].
  destruct (in_dec eq_dec y seen) as [Hy|Hy].
  - rewrite IH. split; [tauto|]. intros [[->|H] Hn]; tauto.
  - simpl. rewrite IH. simpl. split.
    + intros [->|[H Hn]]; tauto.
    + intros [[->|H] Hn]; [tauto|].
      destruct (eq_dec y x) as [->|Hne]; [tauto|]. right. tauto.
Qed.

(** SELECT DISTINCT keeps every row that occurs, once. *)
Lemma in_distinct (l : list A) (x : A) : In x (distinct eq_dec l) <-> In x l.
Proof. unfold distinct. rewrite in_distinct_from. simpl. tauto. Qed.

Lemma NoDup_distinct_from (seen l : list A) :
  NoDup (distinct_from eq_dec seen l).
Proof.
  revert seen. induction l as [|y ys IH]; intros seen; simpl; [constructor|].
  destruct (in_dec eq_dec y seen); [apply IH|].
  constructor; [|apply IH]. rewrite in_distinct_from. simpl. tauto.
Qed.

Lemma NoDup_distinct (l : list A) : NoDup (distinct eq_dec l).
Proof. apply NoDup_distinct_from. Qed.

Lemma distinct_nil_inv (l : list A) : distinct eq_dec l = [] -> l = [].
Proof.
  destruct l as [|x xs]; [reflexivity|]. intros H.
  assert (Hx : In x (distinct eq_dec (x :: xs))) by (apply in_distinct; now left).
  rewrite H in Hx. contradiction.
Qed.

Variable key : A -> string.

Lemma has_key_true (k : string) (table : list A) :
  has_key key k table = true <-> In k (map key table).
Proof.
  unfold has_key. rewrite existsb_exists, in_map_iff.
  split; intros (r & H1 & H2); exists r.
  - apply String.eqb_eq in H2. tauto.
  - split; [tauto|]. apply String.eqb_eq. tauto.
Qed.

Lemma has_key_false (k : string) (table : list A) :
  has_key key k table = false <-> ~ In k (map key table).
Proof.
  rewrite <- has_key_true. destruct (has_key key k table); split;
    intros H; try discriminate; try reflexivity.
  exfalso. now apply H.
Qed.

(** The rows go in exactly when their keys are new and pairwise
    different; they are then appended in order. *)
Lemma insert_rows_Some (table rows table' : list A) :
  insert_rows key table rows = Some table' <->
  table' = table ++ rows
  /\ NoDup (map key rows)
  /\ (forall r, In r rows -> ~ In (key r) (map key table)).
Proof.
  revert table. induction rows as [|r rest IH]; intros table; simpl.
  - rewrite app_nil_r. split.
    + intros [= <-]. repeat split; [constructor|tauto].
    + intros (-> & _). reflexivity.
  - destruct (has_key key (key r) table) eqn:E.
    + apply has_key_true in E. split; [discriminate|].
      intros (_ & _ & H). exfalso. apply (H r); [now left|exact E].
    + apply has_key_false in E. rewrite IH.
      rewrite <- app_assoc. simpl. split.
      * intros (-> & Hnd & Hnew). split; [reflexivity|]. split.
        -- constructor; [|exact Hnd]. intros Hin.
           apply in_map_iff in Hin as (r' & Hk & Hr').
           apply (Hnew r' Hr'). rewrite map_app, in_app_iff. right.
           simpl. left. now symmetry.
        -- intros r' [<-|Hr']; [exact E|].
           intros Hin. apply (Hnew r' Hr'). rewrite map_app, in_app_iff.
           now left.
      * intros (-> & Hnd & Hnew). split; [reflexivity|].
        inversion Hnd as [|? ? Hr Hrest]; subst. split; [exact Hrest|].
        intros r' Hr' Hin. rewrite map_app, in_app_iff in Hin.
        destruct Hin as [Hin|[Hin|[]]].
        -- apply (Hnew r'); [now right|exact Hin].
        -- apply Hr. rewrite Hin. now apply in_map.
Qed.

(** Two different rows with one key make the insertion fail. *)
Lemma insert_rows_conflict (table rows : list A) (a b : A) :
  In a rows -> In b rows -> a <> b -> key a = key b ->
  NoDup rows ->
  insert_rows key table rows = None.
Proof.
  intros Ha Hb Hne Hk Hnd.
  destruct (insert_rows key table rows) as [t|] eqn:E; [|reflexivity].
  exfalso. apply insert_rows_Some in E as (_ & Hkeys & _).
  clear t table. induction rows as [|r rest IH]; [contradiction|].
  simpl in Hkeys. inversion Hkeys as [|? ? Hr Hrest]; subst.
  inversion Hnd as [|? ? _ Hnd']; subst.
  destruct Ha as [->|Ha], Hb as [->|Hb].
  - now apply Hne.
  - apply Hr. rewrite Hk. now apply in_map.
  - apply Hr. rewrite <- Hk. now apply in_map.
  - now apply IH.
Qed.

(** A row whose key is in the table already makes the insertion fail. *)
Lemma insert_rows_existing (table rows : list A) (r : A) :
  In r rows -> In (key r) (map key table) ->
  insert_rows key table rows = None.
Proof.
  intros Hr Hin.
  destruct (insert_rows key table rows) as [t|] eqn:E; [|reflexivity].
  exfalso. apply insert_rows_Some in E as (_ & _ & Hnew). now apply (Hnew r).
Qed.
End RelationalFacts.

Ltac store_simpl :=
  cbn [countCSVStaging_table Subjects_table Samples_table
       SampleCellFrequencies_view set_staging set_subjects set_samples set_view
       app fst snd].

(** The store while the load runs: the three tables, and the view as it
    was. *)
Lemma reset_tables (s : store) :
  (drop_tables ;; create_tables) s
  = (Ok tt,
     {| countCSVStaging_table := Some []; Subjects_table := Some [];
        Samples_table := Some [];
        SampleCellFrequencies_view := SampleCellFrequencies_view s |}).
Proof. destruct s as [st [su|] sa v]; reflexivity. Qed.

(** Every sample selected from the staged rows has its subject among the
    subjects selected from them: the foreign key cannot fail in this load. *)
Lemma selected_samples_have_subjects (csv : list countCSVStaging.row) :
  forallb (fun r => has_key Subjects.subject (Samples.subject r) (select_subjects csv))
          (select_samples csv) = true.
Proof.
  apply forallb_forall. intros r Hr.
  apply in_distinct, in_map_iff in Hr as (x & <- & Hx).
  apply has_key_true, in_map_iff. exists (subject_columns x). split; [reflexivity|].
  apply in_distinct. now apply in_map.
Qed.

(** Part 1, case by case. *)
Lemma part1_cases (csv : list countCSVStaging.row) (s : store) :
  part1 csv s =
  match insert_rows Subjects.subject [] (select_subjects csv) with
  | None =>
      (Raise (unique_constraint_failed "Subjects.subject"),
       {| countCSVStaging_table := Some csv; Subjects_table := Some [];
          Samples_table := Some [];
          SampleCellFrequencies_view := SampleCellFrequencies_view s |})
  | Some _ =>
      match insert_rows Samples.sample [] (select_samples csv) with
      | None =>
          (Raise (unique_constraint_failed "Samples.sample"),
           {| countCSVStaging_table := Some csv;
              Subjects_table := Some (select_subjects csv);
              Samples_table := Some [];
              SampleCellFrequencies_view := SampleCellFrequencies_view s |})
      | Some _ =>
          (Ok tt,
           {| countCSVStaging_table := None;
              Subjects_table := Some (select_subjects csv);
              Samples_table := Some (select_samples csv);
              SampleCellFrequencies_view := SampleCellFrequencies_view s |})
      end
  end.
Proof.
  assert (Hreset : forall s0, part1 csv s0
            = load csv {| countCSVStaging_table := Some [];
                          Subjects_table := Some []; Samples_table := Some [];
                          SampleCellFrequencies_view := SampleCellFrequencies_view s0 |}).
  { intros [st [su|] sa v]; reflexivity. }
  rewrite Hreset. unfold load, bind, insert_countCSVStaging. store_simpl.
  unfold insert_Subjects. store_simpl.
  destruct (insert_rows Subjects.subject [] (select_subjects csv)) as [subjects|] eqn:Esub;
    [|reflexivity].
  apply insert_rows_Some in Esub as (-> & _). store_simpl.
  unfold insert_Samples. store_simpl.
  destruct (insert_rows Samples.sample [] (select_samples csv)) as [samples|] eqn:Esam;
    [|reflexivity].
  apply insert_rows_Some in Esam as (-> & _). store_simpl.
  rewrite selected_samples_have_subjects. reflexivity.
Qed.

Lemma select_subjects_nonempty (csv : list countCSVStaging.row) :
  csv <> [] -> exists u, In u (select_subjects csv).
Proof.
  destruct csv as [|r rest]; [congruence|]. intros _.
  exists (subject_columns r). apply in_distinct. now left.
Qed.

(** The load can only fail on a key: the foreign key of Samples never
    fires, since the subjects come from the same staged rows. *)
Lemma part1_raises_only_unique (csv : list countCSVStaging.row) (s : store) :
  fst (part1 csv s) = Ok tt
  \/ fst (part1 csv s) = Raise (unique_constraint_failed "Subjects.subject")
  \/ fst (part1 csv s) = Raise (unique_constraint_failed "Samples.sample").
Proof.
  rewrite part1_cases.
  destruct (insert_rows Subjects.subject [] (select_subjects csv)); [|tauto].
  destruct (insert_rows Samples.sample [] (select_samples csv)); tauto.
Qed.

(** What PRAGMA foreign_keys = ON does for INSERT INTO Samples on any store:
    a staged row whose subject is not in Subjects makes the statement raise,
    and a statement that raises leaves the store as it found it. *)
Lemma insert_Samples_checks_foreign_key (s : store)
    (staged : list countCSVStaging.row) (samples : list Samples.row)
    (subjects : list Subjects.row) (r : countCSVStaging.row) :
  countCSVStaging_table s = Some staged ->
  Samples_table s = Some samples ->
  Subjects_table s = Some subjects ->
  In r staged ->
  ~ In (countCSVStaging.subject r) (map Subjects.subject subjects) ->
  snd (insert_Samples s) = s
  /\ (fst (insert_Samples s) = Raise foreign_key_constraint_failed
      \/ fst (insert_Samples s) = Raise (unique_constraint_failed "Samples.sample")).
Proof.
  intros Hst Hsa Hsu Hr Habsent. unfold insert_Samples. rewrite Hst, Hsa, Hsu.
  destruct (insert_rows Samples.sample samples (select_samples staged));
    [|split; [reflexivity|now right]].
  assert (Hfk : forallb
                  (fun x => has_key Subjects.subject (Samples.subject x) subjects)
                  (select_samples staged) = false).
  { destruct (forallb _ _) eqn:E; [|reflexivity]. exfalso.
    rewrite forallb_forall in E. apply Habsent.
    apply (has_key_true Subjects.subject).
    apply (E (sample_columns r)). apply in_distinct. now apply in_map. }
  rewrite Hfk. split; [reflexivity|now left].
Qed.

(** The load is not one transaction.  Two staged rows with one sample code
    and different counts make INSERT INTO Samples fail, and the rows that
    INSERT INTO Subjects put in before stay in the store. *)
Lemma load_is_not_all_or_nothing :
  let csv := [ csv_row "sbj1" 70 "yes" "s1" 0 10;
               csv_row "sbj1" 70 "yes" "s1" 0 11 ] in
  let after := part1 csv empty_store in
  fst after = Raise (unique_constraint_failed "Samples.sample")
  /\ Subjects_table (snd after)
     = Some [subject_columns (csv_row "sbj1" 70 "yes" "s1" 0 10)]
  /\ Samples_table (snd after) = Some [].
Proof. vm_compute. repeat split. Qed.


(** C7: two staged rows with one subject code and different subject columns
    both come out of the SELECT DISTINCT, with the same key, and the load
    fails on the primary key of Subjects. *)
Theorem conflicting_subject_rows_fail :
  forall (csv : list countCSVStaging.row) (s : store)
         (r1 r2 : countCSVStaging.row),
    In r1 csv ->
    In r2 csv ->
    countCSVStaging.subject r1 = countCSVStaging.subject r2 ->
    subject_columns r1 <> subject_columns r2 ->
    In (subject_columns r1) (select_subjects csv)
    /\ In (subject_columns r2) (select_subjects csv)
    /\ Subjects.subject (subject_columns r1) = Subjects.subject (subject_columns r2)
    /\ fst (part1 csv s) = Raise (unique_constraint_failed "Subjects.subject").
Proof.
  intros csv s r1 r2 H1 H2 Hkey Hne.
  assert (I1 : In (subject_columns r1) (select_subjects csv))
    by (apply in_distinct; now apply in_map).
  assert (I2 : In (subject_columns r2) (select_subjects csv))
    by (apply in_distinct; now apply in_map).
  repeat split; try assumption.
  rewrite part1_cases.
  rewrite (insert_rows_conflict Subjects.subject [] (select_subjects csv)
             (subject_columns r1) (subject_columns r2));
    [reflexivity|assumption|assumption|assumption|exact Hkey|apply NoDup_distinct].
Qed.

(** Without the DROPs the script does not reach the load on a store that
    holds the tables: CREATE TABLE raises first. *)
Remark create_tables_on_loaded_store (csv : list countCSVStaging.row) (s : store) :
  fst (part1 csv s) = Ok tt ->
  fst (create_tables (snd (part1 csv s))) = Raise (table_already_exists "Subjects").
Proof.
  rewrite part1_cases.
  destruct (insert_rows Subjects.subject [] (select_subjects csv)); [|discriminate].
  destruct (insert_rows Samples.sample [] (select_samples csv)); [|discriminate].
  reflexivity.
Qed.

(** The statements of the load on a store whose Subjects table holds a
    subject of the CSV already. *)
Lemma load_into_loaded_store (csv : list countCSVStaging.row) (s : store)
    (subjects : list Subjects.row) (r : countCSVStaging.row) :
  countCSVStaging_table s = Some [] ->
  Subjects_table s = Some subjects ->
  In r csv ->
  In (countCSVStaging.subject r) (map Subjects.subject subjects) ->
  load csv s
  = (Raise (unique_constraint_failed "Subjects.subject"), set_staging (Some csv) s).
Proof.
  intros Hst Hsu Hr Hin. unfold load, bind, insert_countCSVStaging.
  rewrite Hst. store_simpl. unfold insert_Subjects. store_simpl. rewrite Hsu.
  rewrite (insert_rows_existing Subjects.subject subjects (select_subjects csv)
             (subject_columns r)); [reflexivity| |exact Hin].
  apply in_distinct. now apply in_map.
Qed.

(** C8: the outcome of Part 1 and the Subjects and Samples tables it leaves
    depend on the CSV only, not on the store it starts from, so loading the
    same CSV again gives the same rows and the same row counts; and running
    the load (lines 61 to 85) on the store a successful load of a CSV with at
    least one row has left, with the staging table created again and nothing
    cleared, raises the key violation of Subjects. *)
Theorem load_twice :
  (forall (csv : list countCSVStaging.row) (s s' : store),
      fst (part1 csv s) = fst (part1 csv s')
      /\ Subjects_table (snd (part1 csv s)) = Subjects_table (snd (part1 csv s'))
      /\ Samples_table (snd (part1 csv s)) = Samples_table (snd (part1 csv s'))
      /\ List.length (table_rows (Subjects_table (snd (part1 csv (snd (part1 csv s))))))
         = List.length (table_rows (Subjects_table (snd (part1 csv s))))
      /\ List.length (table_rows (Samples_table (snd (part1 csv (snd (part1 csv s))))))
         = List.length (table_rows (Samples_table (snd (part1 csv s)))))
  /\ (forall (csv : list countCSVStaging.row) (s : store),
        csv <> [] ->
        fst (part1 csv s) = Ok tt ->
        fst ((create_countCSVStaging ;; load csv) (snd (part1 csv s)))
        = Raise (unique_constraint_failed "Subjects.subject")).
Proof.
  split.
  - intros csv s s'.
    assert (H : forall a b,
              fst (part1 csv a) = fst (part1 csv b)
              /\ Subjects_table (snd (part1 csv a)) = Subjects_table (snd (part1 csv b))
              /\ Samples_table (snd (part1 csv a)) = Samples_table (snd (part1 csv b))).
    { intros a b. rewrite !part1_cases.
      destruct (insert_rows Subjects.subject [] (select_subjects csv)); [|repeat split].
      destruct (insert_rows Samples.sample [] (select_samples csv)); repeat split. }
    destruct (H s s') as (H1 & H2 & H3).
    destruct (H (snd (part1 csv s)) s) as (_ & H4 & H5).
    repeat split; try assumption; [now rewrite H4|now rewrite H5].
  - intros csv s Hne Hok. rewrite part1_cases in *.
    destruct (insert_rows Subjects.subject [] (select_subjects csv)); [|discriminate].
    destruct (insert_rows Samples.sample [] (select_samples csv)); [|discriminate].
    store_simpl. unfold bind, create_countCSVStaging. store_simpl.
    destruct (select_subjects_nonempty csv Hne) as (u & Hu).
    pose proof Hu as Hu'. apply in_distinct, in_map_iff in Hu' as (r & <- & Hr).
    rewrite (load_into_loaded_store csv _ (select_subjects csv) r);
      [reflexivity|reflexivity|reflexivity|exact Hr|].
    apply in_map_iff. exists (subject_columns r). split; [reflexivity|exact Hu].
Qed.


(** Subject sbj1 staged at 70 and at 71 years. *)
Lemma conflicting_subject_rows_fail_witness :
  let r1 := csv_row "sbj1" 70 "yes" "s1" 0 10 in
  let r2 := csv_row "sbj1" 71 "yes" "s2" 7 10 in
  In (subject_columns r1) (select_subjects [r1; r2])
  /\ In (subject_columns r2) (select_subjects [r1; r2])
  /\ Subjects.subject (subject_columns r1) = Subjects.subject (subject_columns r2)
  /\ fst (part1 [r1; r2] empty_store)
     = Raise (unique_constraint_failed "Subjects.subject").
Proof.
  intros r1 r2. apply (conflicting_subject_rows_fail [r1; r2] empty_store r1 r2).
  - simpl. tauto.
  - simpl. tauto.
  - reflexivity.
  - vm_compute. discriminate.
Defined.

(** Three samples of two subjects, loaded, and loaded again on what the
    first load has left. *)
Lemma load_twice_witness :
  let csv := [ csv_row "sbj1" 70 "yes" "s1" 0 10;
               csv_row "sbj1" 70 "yes" "s2" 7 12;
               csv_row "sbj2" 64 "no" "s3" 0 9 ] in
  fst (part1 csv empty_store) = Ok tt
  /\ fst ((create_countCSVStaging ;; load csv) (snd (part1 csv empty_store)))
     = Raise (unique_constraint_failed "Subjects.subject").
Proof.
  intros csv. split.
  - vm_compute. reflexivity.
  - apply (proj2 load_twice csv empty_store).
    + discriminate.
    + vm_compute. reflexivity.
Defined.

(* ================================================================== *)
(** * The baseline subset report *)
(* ================================================================== *)

Lemma flat_map_nil {A B : Type} (f : A -> list B) (l : list A) :
  (forall x, In x l -> f x = []) -> flat_map f l = [].
Proof.
  induction l as [|x xs IH]; intros H; simpl; [reflexivity|].
  rewrite (H x (or_introl eq_refl)). apply IH. intros y Hy. apply H. now right.
Qed.

(** No pair of the join passes the filter: the FROM ... WHERE of the four
    queries has no row. *)
Lemma baseline_rows_empty (samples : list Samples.row) (subjects : list Subjects.row) :
  (forall sa su, In sa samples -> In su subjects ->
                 Subjects.subject su = Samples.subject sa ->
                 filter_condition sa su = false) ->
  baseline_rows samples subjects = [].
Proof.
  intros H. unfold baseline_rows. apply flat_map_nil. intros sa Hsa.
  apply flat_map_nil. intros su Hsu.
  destruct (String.eqb_spec (Subjects.subject su) (Samples.subject sa)) as [E|E];
    [|reflexivity].
  now rewrite (H sa su Hsa Hsu E).
Qed.

(** C9: when no sample joined to its subject passes the baseline filter, the
    four queries of Part 4 return no row, and none of them raises. *)
Theorem empty_cohort_empty_report :
  forall (s : store) (samples : list Samples.row) (subjects : list Subjects.row),
    Samples_table s = Some samples ->
    Subjects_table s = Some subjects ->
    (forall sa su, In sa samples -> In su subjects ->
                   Subjects.subject su = Samples.subject sa ->
                   filter_condition sa su = false) ->
    query1 s = Ok []
    /\ query2 s = Ok []
    /\ query3 s = Ok []
    /\ query4 s = Ok []
    /\ part4 s = Ok {| baseline_samples := []; samples_per_project := [];
                       subjects_per_response := []; subjects_per_sex := [] |}.
Proof.
  intros s samples subjects Hsa Hsu Hnone.
  pose proof (baseline_rows_empty samples subjects Hnone) as Hrows.
  assert (H1 : query1 s = Ok []).
  { unfold query1, scan_Samples, scan_Subjects. rewrite Hsa, Hsu. simpl.
    now rewrite Hrows. }
  assert (H2 : query2 s = Ok []).
  { unfold query2, scan_Samples, scan_Subjects. rewrite Hsa, Hsu. simpl.
    now rewrite Hrows. }
  assert (H3 : query3 s = Ok []).
  { unfold query3, scan_Samples, scan_Subjects. rewrite Hsa, Hsu. simpl.
    now rewrite Hrows. }
  assert (H4 : query4 s = Ok []).
  { unfold query4, scan_Samples, scan_Subjects. rewrite Hsa, Hsu. simpl.
    now rewrite Hrows. }
  repeat split; try assumption.
  unfold part4. now rewrite H1, H2, H3, H4.
Qed.

(** A store whose only samples were taken a week after the treatment began. *)
Lemma empty_cohort_empty_report_witness :
  let csv := [ csv_row "sbj1" 70 "yes" "s1" 7 10;
               csv_row "sbj2" 64 "no" "s2" 7 9 ] in
  let s := snd (part1 csv empty_store) in
  query1 s = Ok []
  /\ query2 s = Ok []
  /\ query3 s = Ok []
  /\ query4 s = Ok []
  /\ part4 s = Ok {| baseline_samples := []; samples_per_project := [];
                     subjects_per_response := []; subjects_per_sex := [] |}.
Proof.
  intros csv s.
  apply (empty_cohort_empty_report s (select_samples csv) (select_subjects csv)).
  - vm_compute. reflexivity.
  - vm_compute. reflexivity.
  - intros sa su Hsa Hsu _. vm_compute in Hsa.
    destruct Hsa as [<-|[<-|[]]]; unfold filter_condition;
      cbn [Samples.time_from_treatment]; now rewrite !andb_false_r.
Defined.

(** The report on a small load: two baseline samples of one project, one
    responder and one non-responder, both women. *)
Example part4_on_three_samples :
  part4 (snd (part1 [ csv_row "sbj1" 70 "yes" "s1" 0 10;
                      csv_row "sbj1" 70 "yes" "s2" 7 12;
                      csv_row "sbj2" 64 "no" "s3" 0 9 ] empty_store))
  = Ok {| baseline_samples :=
            [ {| bs_sample := "s1"; bs_subject := "sbj1"; bs_project := "prj1";
                 bs_response := "yes"; bs_sex := "F" |};
              {| bs_sample := "s3"; bs_subject := "sbj2"; bs_project := "prj1";
                 bs_response := "no"; bs_sex := "F" |} ];
          samples_per_project := [("prj1", 2)];
          subjects_per_response := [("no", 1); ("yes", 1)];
          subjects_per_sex := [("F", 2)] |}.
Proof. vm_compute. reflexivity. Qed.

(* ================================================================== *)
(** * The cohort comparison *)
(* ================================================================== *)

Section JoinFacts.
Context {A B : Type}.
Variable key : A -> string.

(** A join on a key of a table whose keys are pairwise different is a
    lookup. *)
Lemma flat_map_key_lookup (k : string) (g : A -> list B) (table : list A) :
  NoDup (map key table) ->
  flat_map (fun r => if key r =? k then g r else []) table
  = match find (fun r => key r =? k) table with
    | Some r => g r
    | None => []
    end.
Proof.
  induction table as [|r rest IH]; intros Hnd; simpl; [reflexivity|].
  inversion Hnd as [|? ? Hr Hrest]; subst.
  destruct (String.eqb_spec (key r) k) as [E|E].
  - rewrite flat_map_nil; [apply app_nil_r|].
    intros x Hx. destruct (String.eqb_spec (key x) k) as [E'|E']; [|reflexivity].
    exfalso. apply Hr. rewrite E, <- E'. now apply in_map.
  - now apply IH.
Qed.
End JoinFacts.

Lemma arm_flat_map {A : Type} (label : string) (F : A -> list (string * value))
    (l : list A) :
  arm label (flat_map F l) = flat_map (fun x => arm label (F x)) l.
Proof.
  unfold arm. induction l as [|x xs IH]; simpl; [reflexivity|].
  now rewrite filter_app, map_app, IH.
Qed.

Lemma map_filter_flat_map {A B : Type} (p : A -> bool) (g : A -> B) (l : list A) :
  map g (filter p l) = flat_map (fun x => if p x then [g x] else []) l.
Proof.
  induction l as [|x xs IH]; simpl; [reflexivity|].
  destruct (p x); simpl; now rewrite IH.
Qed.

(** The rows the cohort query returns for a response label are the
    percentages of the frequency records the specification selects, in the
    order of the view. *)
Lemma cohort_rows_spec (population label : string)
    (freqs : list SampleCellFrequencies.row) (samples : list Samples.row)
    (subjects : list Subjects.row) :
  NoDup (map Samples.sample samples) ->
  NoDup (map Subjects.subject subjects) ->
  arm label (cohort_rows population freqs samples subjects)
  = map SampleCellFrequencies.percentage
        (filter (spec_in_cohort samples subjects population label) freqs).
Proof.
  intros Hsa Hsu. unfold cohort_rows. rewrite arm_flat_map, map_filter_flat_map.
  apply flat_map_ext. intros f.
  rewrite (flat_map_key_lookup Samples.sample (SampleCellFrequencies.sample f)) by exact Hsa.
  unfold spec_in_cohort, owner_sample.
  destruct (find _ samples) as [sa|]; [|reflexivity].
  rewrite (flat_map_ext _
             (fun su => if Subjects.subject su =? Samples.subject sa
                        then (if cohort_where population f sa su
                              then [(Subjects.response su,
                                     SampleCellFrequencies.percentage f)]
                              else [])
                        else [])).
  2:{ intros su. destruct (Subjects.subject su =? Samples.subject sa); reflexivity. }
  rewrite (flat_map_key_lookup Subjects.subject (Samples.subject sa)) by exact Hsu.
  unfold owner_subject.
  destruct (find _ subjects) as [su|]; [|reflexivity].
  unfold cohort_where, arm.
  destruct ((Subjects.treatment su =? "miraclib")
            && (Subjects.condition su =? "melanoma")
            && (Samples.sample_type sa =? "PBMC")
            && (SampleCellFrequencies.population f =? population)); simpl;
    [|reflexivity].
  destruct (Subjects.response su =? label); reflexivity.
Qed.

Module TTestFacts.
Local Open Scope R_scope.

(** A square root between two rationals whose squares enclose the radicand. *)
Lemma sqrt_between (x a b : R) :
  0 <= a -> 0 <= b -> a * a <= x <= b * b -> a <= R_sqrt.sqrt x <= b.
Proof.
  intros Ha Hb [H1 H2]. split.
  - rewrite <- (sqrt_square a Ha). apply sqrt_le_1_alt. exact H1.
  - rewrite <- (sqrt_square b Hb). apply sqrt_le_1_alt. exact H2.
Qed.

Lemma sqrt_two_thirds :
  81649658092 / 100000000000 <= R_sqrt.sqrt (2 / 3) <= 81649658093 / 100000000000.
Proof. apply sqrt_between; lra. Qed.

Lemma sqrt_154 :
  1240967364599 / 100000000000 <= R_sqrt.sqrt 154 <= 1240967364600 / 100000000000.
Proof. apply sqrt_between; lra. Qed.

(** The worked example of the specification: responders 10, 12, 11 against
    non-responders 20, 22, 21.  Means 11 and 21, pooled variance 1, four
    degrees of freedom. *)
Lemma Q2R_closed (q : Q) (n : Z) (d : positive) :
  (q == n # d)%Q -> Q2R q = IZR n / IZR (Zpos d).
Proof. intros E. rewrite (Qeq_eqR _ _ E). reflexivity. Qed.

(** The two-sided p-value with four degrees of freedom, in closed form. *)
Lemma student_two_sided_4 (t : R) :
  student_two_sided 4 t
  = 1 - Rabs t / R_sqrt.sqrt (4 + Rabs t * Rabs t)
        * (1 + 1 / 2 * (4 / (4 + Rabs t * Rabs t))).
Proof.
  unfold student_two_sided, student_within.
  cbn [Nat.even Nat.div2 cos_series INR].
  replace (1 + 1 + 1 + 1) with 4 by ring.
  replace ((2 * 1 - 1) / (2 * 1)) with (1 / 2) by field.
  f_equal. f_equal. ring.
Qed.

(** The worked example of the specification: responders 10, 12, 11 against
    non-responders 20, 22, 21.  Means 11 and 21, pooled variance 1, four
    degrees of freedom: the statistic is minus the square root of 150. *)
Lemma ttest_ind_example :
  exists t p : R,
    ttest_ind [VReal 10; VReal 12; VReal 11] [VReal 20; VReal 22; VReal 21]
    = (XFin t, XFin p)
    /\ t = - 10 / R_sqrt.sqrt (2 / 3)
    /\ p = 1 - (10 / R_sqrt.sqrt (2 / 3)) / R_sqrt.sqrt 154 * (78 / 77).
Proof.
  pose proof sqrt_two_thirds as [Hr _].
  set (r := R_sqrt.sqrt (2 / 3)) in *.
  assert (Hrr : r * r = 2 / 3) by (apply sqrt_sqrt; lra).
  assert (Ht : Q2R (mean [10; 12; 11] - mean [20; 22; 21])%Q
               / R_sqrt.sqrt
                   (Q2R ((sum_sq_dev [10; 12; 11] + sum_sq_dev [20; 22; 21])
                         / inject_Z (Z.of_nat 4)
                         * (1 / Qcount [10; 12; 11] + 1 / Qcount [20; 22; 21]))%Q)
               = - 10 / r).
  { rewrite (Q2R_closed _ (-10) 1) by reflexivity.
    rewrite (Q2R_closed _ 2 3) by reflexivity.
    fold r. lra. }
  exists (- 10 / r), (student_two_sided 4 (- 10 / r)). split; [|split].
  - unfold ttest_ind.
    cbn [observations option_map List.length Nat.eqb orb Nat.add Nat.leb Nat.sub].
    match goal with
    | |- context [Qeq_bool ?x 0] =>
        replace (Qeq_bool x 0) with false by (vm_compute; reflexivity)
    end.
    now rewrite Ht.
  - reflexivity.
  - rewrite student_two_sided_4.
    assert (Habs : Rabs (- 10 / r) = 10 / r).
    { assert (Hinv : 0 < / r) by (apply Rinv_0_lt_compat; lra).
      rewrite Rabs_left; [field; lra|]. unfold Rdiv. nra. }
    rewrite Habs.
    assert (Hsq : 10 / r * (10 / r) = 150).
    { field_simplify; [|lra]. replace (r ^ 2) with (r * r) by ring.
      rewrite Hrr. field. }
    rewrite Hsq. replace (4 + 150) with 154 by ring. f_equal. f_equal. field.
Qed.

(** The example against the reference values of a two-sample t-test:
    statistic -12.247448713915890 and p-value 0.000255216749441927. *)
Lemma ttest_ind_example_reference (t p : R) :
  t = - 10 / R_sqrt.sqrt (2 / 3) ->
  p = 1 - (10 / R_sqrt.sqrt (2 / 3)) / R_sqrt.sqrt 154 * (78 / 77) ->
  Rabs (t - - 12247448713915890 / 1000000000000000) <= 1 / 1000000
  /\ Rabs (p - 255216749441927 / 1000000000000000000) <= 1 / 1000000.
Proof.
  intros -> ->.
  pose proof sqrt_two_thirds as [Hr1 Hr2]. pose proof sqrt_154 as [Hs1 Hs2].
  set (r := R_sqrt.sqrt (2 / 3)) in *. set (s := R_sqrt.sqrt 154) in *.
  assert (HT : 10 / r * r = 10) by (field; lra).
  assert (HT0 : 0 < 10 / r) by (apply Rdiv_lt_0_compat; lra).
  set (T := 10 / r) in *.
  assert (HT1 : 122474487 / 10000000 <= T <= 122474488 / 10000000).
  { pose proof (Rmult_le_compat_l T _ _ (Rlt_le _ _ HT0) Hr1).
    pose proof (Rmult_le_compat_l T _ _ (Rlt_le _ _ HT0) Hr2).
    split; lra. }
  assert (HU : T / s * s = T) by (field; lra).
  assert (HU0 : 0 < T / s) by (apply Rdiv_lt_0_compat; lra).
  set (U := T / s) in *.
  assert (HU1 : 986927 / 1000000 <= U <= 986928 / 1000000).
  { pose proof (Rmult_le_compat_l U _ _ (Rlt_le _ _ HU0) Hs1).
    pose proof (Rmult_le_compat_l U _ _ (Rlt_le _ _ HU0) Hs2).
    split; lra. }
  split.
  - replace (- 10 / r) with (- T) by (unfold T; field; lra).
    apply Rabs_le. lra.
  - apply Rabs_le. lra.
Qed.
End TTestFacts.

(** The five frames of Part 3 and the dictionary of the dashboard come from
    the same five queries. *)
Lemma get_cell_data_tables (population : string) (s : store)
    (samples : list Samples.row) (subjects : list Subjects.row) :
  SampleCellFrequencies_view s = true ->
  Samples_table s = Some samples ->
  Subjects_table s = Some subjects ->
  get_cell_data population s
  = Ok (cohort_rows population (SampleCellFrequencies_rows samples) samples subjects).
Proof.
  intros Hv Hsa Hsu.
  unfold get_cell_data, scan_SampleCellFrequencies, scan_Samples, scan_Subjects.
  now rewrite Hv, Hsa, Hsu.
Qed.

(** When a table or the view is missing every cohort query raises, and the
    same exception whatever the population. *)
Lemma get_cell_data_raises (s : store) :
  (exists samples subjects,
      SampleCellFrequencies_view s = true
      /\ Samples_table s = Some samples /\ Subjects_table s = Some subjects)
  \/ (exists e, forall population, get_cell_data population s = Raise e).
Proof.
  unfold get_cell_data, scan_SampleCellFrequencies, scan_Samples, scan_Subjects.
  destruct (SampleCellFrequencies_view s); [|right; eexists; reflexivity].
  destruct (Samples_table s) as [samples|]; [|right; eexists; reflexivity].
  destruct (Subjects_table s) as [subjects|]; [|right; eexists; reflexivity].
  left. now exists samples, subjects.
Qed.

(** C10: on one store, the statistic and the p-value the dashboard computes
    for each population before it rounds them are those of the loop of Part 3,
    population by population and under the same display names (and when the
    queries raise, both raise the same exception); the rows of the
    dashboard's table are these values rounded to 3 and 4 decimals. *)
Theorem dashboard_matches_batch :
  forall s : store,
    (let* data := cell_data s in for_each (stats_of data) populations) = part3 s
    /\ stats_results s
       = (let* results := part3 s in Ok (map stats_row_of results)).
Proof.
  intros s. unfold stats_results, part3, dfs, cell_data, populations.
  destruct (get_cell_data_raises s) as [(samples & subjects & Hv & Hsa & Hsu)|(e & He)].
  - cbn [for_each].
    rewrite !(get_cell_data_tables _ s samples subjects Hv Hsa Hsu).
    cbn [for_each rbind]. unfold stats_of, ttest_of.
    cbn [getitem population_names String.eqb Ascii.eqb Bool.eqb rbind fst snd
         map for_each].
    repeat match goal with
           | |- context [ttest_ind ?a ?b] =>
               let t := fresh "t" in let p := fresh "p" in
               destruct (ttest_ind a b) as [t p]
           end.
    cbn [for_each rbind map stats_row_of]. split; reflexivity.
  - cbn [for_each]. rewrite !He. split; reflexivity.
Qed.

(** The loop of Part 3 on a store that holds the tables and the view. *)
Lemma part3_tables (s : store) (samples : list Samples.row)
    (subjects : list Subjects.row) :
  SampleCellFrequencies_view s = true ->
  Samples_table s = Some samples ->
  Subjects_table s = Some subjects ->
  part3 s
  = Ok (map (fun np =>
               ttest_of (fst np)
                 (cohort_rows (snd np) (SampleCellFrequencies_rows samples)
                    samples subjects))
            [ ("B Cell", "b_cell"); ("CD8 T Cell", "cd8_t_cell");
              ("CD4 T Cell", "cd4_t_cell"); ("NK Cell", "nk_cell");
              ("Monocyte", "monocyte") ]).
Proof.
  intros Hv Hsa Hsu. unfold part3, dfs.
  rewrite !(get_cell_data_tables _ s samples subjects Hv Hsa Hsu).
  reflexivity.
Qed.

(** C3: on a store that holds the tables (keys pairwise different, as the
    primary keys have them) and the view, the query of each population
    returns, for the label 'yes' and for the label 'no', the percentages of
    exactly the frequency records of that population whose sample is a PBMC
    sample of a subject treated with miraclib for melanoma with that
    response; Part 3 runs the equal-variance two-sample t-test on these two
    arms for each of the five populations; and on responders 10, 12, 11
    against non-responders 20, 22, 21 the test gives a statistic within 1e-6
    of -12.247448713915890 and a two-sided p-value within 1e-6 of
    0.000255216749441927. *)
Theorem cohort_comparison :
  (forall (s : store) (samples : list Samples.row) (subjects : list Subjects.row),
      SampleCellFrequencies_view s = true ->
      Samples_table s = Some samples ->
      Subjects_table s = Some subjects ->
      NoDup (map Samples.sample samples) ->
      NoDup (map Subjects.subject subjects) ->
      (forall population,
          exists df,
            get_cell_data population s = Ok df
            /\ forall label,
                 arm label df
                 = map SampleCellFrequencies.percentage
                     (filter (spec_in_cohort samples subjects population label)
                             (SampleCellFrequencies_rows samples)))
      /\ part3 s
         = Ok (map (fun np =>
                      let select label :=
                        map SampleCellFrequencies.percentage
                          (filter (spec_in_cohort samples subjects (snd np) label)
                                  (SampleCellFrequencies_rows samples)) in
                      (fst np,
                       fst (ttest_ind (select "yes") (select "no")),
                       snd (ttest_ind (select "yes") (select "no"))))
                   [ ("B Cell", "b_cell"); ("CD8 T Cell", "cd8_t_cell");
                     ("CD4 T Cell", "cd4_t_cell"); ("NK Cell", "nk_cell");
                     ("Monocyte", "monocyte") ]))
  /\ (exists t p : R,
        ttest_ind [VReal 10; VReal 12; VReal 11] [VReal 20; VReal 22; VReal 21]
        = (XFin t, XFin p)
        /\ (Rabs (t - - 12247448713915890 / 1000000000000000) <= 1 / 1000000)%R
        /\ (Rabs (p - 255216749441927 / 1000000000000000000) <= 1 / 1000000)%R).
Proof.
  split.
  - intros s samples subjects Hv Hsa Hsu Hnd1 Hnd2. split.
    + intros population. eexists. split.
      * apply (get_cell_data_tables population s samples subjects Hv Hsa Hsu).
      * intros label. now apply cohort_rows_spec.
    + rewrite (part3_tables s samples subjects Hv Hsa Hsu).
      f_equal. apply map_ext. intros [name pop]. unfold ttest_of.
      cbn [fst snd]. rewrite !cohort_rows_spec by assumption.
      now destruct (ttest_ind _ _).
  - destruct TTestFacts.ttest_ind_example as (t & p & E & Ht & Hp).
    exists t, p. split; [exact E|].
    now apply TTestFacts.ttest_ind_example_reference.
Qed.

(** Two responders and two non-responders, one PBMC sample each. *)
Lemma cohort_comparison_witness :
  let csv := [ csv_row "sbj1" 70 "yes" "s1" 0 10;
               csv_row "sbj2" 64 "no" "s2" 0 30;
               csv_row "sbj3" 58 "yes" "s3" 0 50;
               csv_row "sbj4" 61 "no" "s4" 0 70 ] in
  let s := snd (create_view_if_not_exists (snd (part1 csv empty_store))) in
  exists df,
    get_cell_data "b_cell" s = Ok df
    /\ forall label,
         arm label df
         = map SampleCellFrequencies.percentage
             (filter (spec_in_cohort (select_samples csv) (select_subjects csv)
                        "b_cell" label)
                     (SampleCellFrequencies_rows (select_samples csv))).
Proof.
  intros csv s.
  apply (proj1 (proj1 cohort_comparison s (select_samples csv) (select_subjects csv)
                  eq_refl eq_refl eq_refl
                  ltac:(vm_compute; repeat constructor; simpl; intuition discriminate)
                  ltac:(vm_compute; repeat constructor; simpl; intuition discriminate))
               "b_cell").
Defined.

(** The arms of these four samples: two B cell percentages of responders,
    two of non-responders, none under any other label. *)
Example arms_of_four_samples :
  let s := snd (create_view_if_not_exists
                  (snd (part1 [ csv_row "sbj1" 70 "yes" "s1" 0 10;
                                csv_row "sbj2" 64 "no" "s2" 0 30;
                                csv_row "sbj3" 58 "yes" "s3" 0 50;
                                csv_row "sbj4" 61 "no" "s4" 0 70 ] empty_store))) in
  exists df,
    get_cell_data "b_cell" s = Ok df
    /\ List.length (arm "yes" df) = 2%nat
    /\ List.length (arm "no" df) = 2%nat
    /\ arm "maybe" df = [].
Proof. eexists. split; [vm_compute; reflexivity|]. vm_compute. repeat split. Qed.

(* ------------------------------------------------------------------ *)
(** ** Arms with too few observations *)





(* ================================================================== *)
(** * More on the load *)
(* ================================================================== *)

Section DistinctFacts.
Context {A : Type}.
Variable eq_dec : forall x y : A, {x = y} + {x <> y}.

Lemma NoDup_map_inj_in {B : Type} (f : A -> B) (l : list A) (a b : A) :
  NoDup (map f l) -> In a l -> In b l -> f a = f b -> a = b.
Proof.
  induction l as [|x xs IH]; intros Hnd Ha Hb E; [contradiction|].
  simpl in Hnd. inversion Hnd as [|? ? Hx Hxs]; subst.
  destruct Ha as [->|Ha], Hb as [->|Hb]; try reflexivity.
  - exfalso. apply Hx. rewrite E. now apply in_map.
  - exfalso. apply Hx. rewrite <- E. now apply in_map.
  - now apply IH.
Qed.

(** The keys of the rows SELECT DISTINCT produces are pairwise different
    exactly when the key determines the row. *)
Lemma NoDup_keys_distinct {B : Type} (f : A -> B) (l : list A) :
  NoDup (map f (distinct eq_dec l))
  <-> (forall a b, In a l -> In b l -> f a = f b -> a = b).
Proof.
  split.
  - intros Hnd a b Ha Hb E.
    apply (NoDup_map_inj_in f (distinct eq_dec l)); try assumption;
      now apply in_distinct.
  - intros H. apply NoDup_map_NoDup_ForallPairs; [|apply NoDup_distinct].
    intros a b Ha Hb E. apply in_distinct in Ha, Hb. now apply H.
Qed.

Lemma distinct_from_seen (seen l : list A) :
  (forall x, In x l -> In x seen) -> distinct_from eq_dec seen l = [].
Proof.
  induction l as [|x xs IH]; intros H; simpl; [reflexivity|].
  destruct (in_dec eq_dec x seen) as [_|Hn].
  - apply IH. intros y Hy. apply H. now right.
  - exfalso. apply Hn, H. now left.
Qed.

Lemma distinct_from_app (seen l1 l2 : list A) :
  (forall x, In x l2 -> In x l1 \/ In x seen) ->
  distinct_from eq_dec seen (l1 ++ l2) = distinct_from eq_dec seen l1.
Proof.
  revert seen. induction l1 as [|x xs IH]; intros seen H; simpl.
  - apply distinct_from_seen. intros y Hy. destruct (H y Hy) as [[]|Hs]. exact Hs.
  - destruct (in_dec eq_dec x seen) as [Hx|Hx].
    + apply IH. intros y Hy. destruct (H y Hy) as [[->|Hin]|Hs]; tauto.
    + f_equal. apply IH. intros y Hy. simpl.
      destruct (H y Hy) as [[->|Hin]|Hs]; tauto.
Qed.

(** Rows that repeat earlier ones add nothing to a SELECT DISTINCT. *)
Lemma distinct_app_incl (l1 l2 : list A) :
  incl l2 l1 -> distinct eq_dec (l1 ++ l2) = distinct eq_dec l1.
Proof.
  intros H. apply distinct_from_app. intros x Hx. left. now apply H.
Qed.

Lemma distinct_from_length (seen l : list A) :
  (List.length (distinct_from eq_dec seen l) <= List.length l)%nat.
Proof.
  revert seen. induction l as [|x xs IH]; intros seen; simpl; [lia|].
  destruct (in_dec eq_dec x seen); simpl.
  - specialize (IH seen). lia.
  - specialize (IH (x :: seen)). lia.
Qed.
End DistinctFacts.

(** An INSERT ... SELECT into an empty keyed table succeeds exactly when the
    keys of the selected rows are pairwise different. *)
Lemma insert_rows_empty {A : Type} (key : A -> string) (rows : list A) :
  (exists t, insert_rows key [] rows = Some t) <-> NoDup (map key rows).
Proof.
  split.
  - intros (t & H). now apply insert_rows_Some in H as (_ & Hnd & _).
  - intros Hnd. exists ([] ++ rows). apply insert_rows_Some.
    repeat split; [exact Hnd|]. intros r _ [].
Qed.

Lemma select_subjects_keys (csv : list countCSVStaging.row) :
  NoDup (map Subjects.subject (select_subjects csv)) <-> subjects_consistent csv.
Proof.
  unfold select_subjects. rewrite NoDup_keys_distinct. unfold subjects_consistent.
  split.
  - intros H r1 r2 H1 H2 E. apply H; [now apply in_map|now apply in_map|exact E].
  - intros H a b Ha Hb E.
    apply in_map_iff in Ha as (r1 & <- & H1). apply in_map_iff in Hb as (r2 & <- & H2).
    now apply H.
Qed.

Lemma select_samples_keys (csv : list countCSVStaging.row) :
  NoDup (map Samples.sample (select_samples csv)) <-> samples_consistent csv.
Proof.
  unfold select_samples. rewrite NoDup_keys_distinct. unfold samples_consistent.
  split.
  - intros H r1 r2 H1 H2 E. apply H; [now apply in_map|now apply in_map|exact E].
  - intros H a b Ha Hb E.
    apply in_map_iff in Ha as (r1 & <- & H1). apply in_map_iff in Hb as (r2 & <- & H2).
    now apply H.
Qed.

(** Part 1 by the consistency of the CSV. *)
Lemma part1_by_consistency (csv : list countCSVStaging.row) (s : store) :
  (subjects_consistent csv /\ samples_consistent csv
   /\ part1 csv s
      = (Ok tt,
         {| countCSVStaging_table := None;
            Subjects_table := Some (select_subjects csv);
            Samples_table := Some (select_samples csv);
            SampleCellFrequencies_view := SampleCellFrequencies_view s |}))
  \/ (subjects_consistent csv /\ ~ samples_consistent csv
      /\ part1 csv s
         = (Raise (unique_constraint_failed "Samples.sample"),
            {| countCSVStaging_table := Some csv;
               Subjects_table := Some (select_subjects csv);
               Samples_table := Some [];
               SampleCellFrequencies_view := SampleCellFrequencies_view s |}))
  \/ (~ subjects_consistent csv
      /\ part1 csv s
         = (Raise (unique_constraint_failed "Subjects.subject"),
            {| countCSVStaging_table := Some csv; Subjects_table := Some [];
               Samples_table := Some [];
               SampleCellFrequencies_view := SampleCellFrequencies_view s |})).
Proof.
  rewrite part1_cases.
  destruct (insert_rows Subjects.subject [] (select_subjects csv)) as [t|] eqn:E1.
  - assert (H1 : subjects_consistent csv).
    { apply select_subjects_keys, insert_rows_empty. now exists t. }
    destruct (insert_rows Samples.sample [] (select_samples csv)) as [t'|] eqn:E2.
    + left. repeat split; [exact H1|].
      apply select_samples_keys, insert_rows_empty. now exists t'.
    + right. left. repeat split; [exact H1|].
      intros H2. apply select_samples_keys, insert_rows_empty in H2 as (t' & H2).
      congruence.
  - right. right. split; [|reflexivity].
    intros H1. apply select_subjects_keys, insert_rows_empty in H1 as (t & H1).
    congruence.
Qed.

(** X1: Part 1 succeeds exactly when the rows of the CSV agree on the columns
    of each subject code and on the columns of each sample code. *)
Theorem load_succeeds_iff_consistent :
  forall (csv : list countCSVStaging.row) (s : store),
    fst (part1 csv s) = Ok tt
    <-> subjects_consistent csv /\ samples_consistent csv.
Proof.
  intros csv s.
  destruct (part1_by_consistency csv s) as [(H1 & H2 & E)|[(H1 & H2 & E)|(H1 & E)]];
    rewrite E; cbn [fst]; split; try tauto; try discriminate.
Qed.

(** X2: after a successful Part 1 the staging table is gone, the subject codes
    of Subjects and the sample codes of Samples are pairwise different, every
    sample refers to a stored subject, and the two tables hold exactly the
    subject columns and the sample columns of the CSV rows. *)
Theorem loaded_store_invariants :
  forall (csv : list countCSVStaging.row) (s : store),
    fst (part1 csv s) = Ok tt ->
    let s' := snd (part1 csv s) in
    countCSVStaging_table s' = None
    /\ (exists subjects samples,
          Subjects_table s' = Some subjects
          /\ Samples_table s' = Some samples
          /\ NoDup (map Subjects.subject subjects)
          /\ NoDup (map Samples.sample samples)
          /\ (forall sa, In sa samples ->
                In (Samples.subject sa) (map Subjects.subject subjects))
          /\ (forall u, In u subjects <-> exists r, In r csv /\ u = subject_columns r)
          /\ (forall sa, In sa samples <-> exists r, In r csv /\ sa = sample_columns r)).
Proof.
  intros csv s Hok.
  destruct (part1_by_consistency csv s) as [(H1 & H2 & E)|[(H1 & H2 & E)|(H1 & E)]];
    rewrite E in Hok |- *; cbn [fst snd] in *; try discriminate.
  split; [reflexivity|].
  exists (select_subjects csv), (select_samples csv).
  split; [reflexivity|]. split; [reflexivity|].
  split; [now apply select_subjects_keys|].
  split; [now apply select_samples_keys|].
  split; [|split].
  - intros sa Hsa.
    pose proof (selected_samples_have_subjects csv) as Hfk.
    rewrite forallb_forall in Hfk. apply (has_key_true Subjects.subject).
    now apply Hfk.
  - intros u. unfold select_subjects. rewrite in_distinct, in_map_iff.
    split; intros (r & Ha & Hb); exists r; [split; [exact Hb|now symmetry]|].
    split; [now symmetry|exact Ha].
  - intros sa. unfold select_samples. rewrite in_distinct, in_map_iff.
    split; intros (r & Ha & Hb); exists r; [split; [exact Hb|now symmetry]|].
    split; [now symmetry|exact Ha].
Qed.

(** Three samples of two subjects. *)
Lemma loaded_store_invariants_witness :
  let csv := [ csv_row "sbj1" 70 "yes" "s1" 0 10;
               csv_row "sbj1" 70 "yes" "s2" 7 12;
               csv_row "sbj2" 64 "no" "s3" 0 9 ] in
  let s' := snd (part1 csv empty_store) in
  countCSVStaging_table s' = None
  /\ (exists subjects samples,
        Subjects_table s' = Some subjects
        /\ Samples_table s' = Some samples
        /\ NoDup (map Subjects.subject subjects)
        /\ NoDup (map Samples.sample samples)
        /\ (forall sa, In sa samples ->
              In (Samples.subject sa) (map Subjects.subject subjects))
        /\ (forall u, In u subjects <-> exists r, In r csv /\ u = subject_columns r)
        /\ (forall sa, In sa samples <-> exists r, In r csv /\ sa = sample_columns r)).
Proof.
  intros csv. apply (loaded_store_invariants csv empty_store).
  vm_compute. reflexivity.
Defined.

(** X3: when the CSV agrees on the columns of every subject but gives one
    sample code two different rows, INSERT INTO Samples raises on its key
    after INSERT INTO Subjects has been committed: the store keeps every
    subject of the CSV, no sample, and the staged rows. *)
Theorem samples_failure_keeps_subjects :
  forall (csv : list countCSVStaging.row) (s : store),
    subjects_consistent csv ->
    ~ samples_consistent csv ->
    let s' := snd (part1 csv s) in
    fst (part1 csv s) = Raise (unique_constraint_failed "Samples.sample")
    /\ Samples_table s' = Some []
    /\ countCSVStaging_table s' = Some csv
    /\ exists subjects,
         Subjects_table s' = Some subjects
         /\ forall r, In r csv -> In (subject_columns r) subjects.
Proof.
  intros csv s H1 H2.
  destruct (part1_by_consistency csv s) as [(_ & H2' & E)|[(_ & _ & E)|(H1' & E)]];
    try contradiction.
  rewrite E. cbn [fst snd]. repeat split.
  exists (select_subjects csv). split; [reflexivity|].
  intros r Hr. apply in_distinct. now apply in_map.
Qed.

(** Sample s1 staged with 10 and with 11 B cells. *)
Lemma samples_failure_keeps_subjects_witness :
  let csv := [ csv_row "sbj1" 70 "yes" "s1" 0 10;
               csv_row "sbj1" 70 "yes" "s1" 0 11 ] in
  let s' := snd (part1 csv empty_store) in
  fst (part1 csv empty_store) = Raise (unique_constraint_failed "Samples.sample")
  /\ Samples_table s' = Some []
  /\ countCSVStaging_table s' = Some csv
  /\ exists subjects,
       Subjects_table s' = Some subjects
       /\ forall r, In r csv -> In (subject_columns r) subjects.
Proof.
  intros csv. apply (samples_failure_keeps_subjects csv empty_store).
  - intros r1 r2 H1 H2 _. simpl in H1, H2.
    destruct H1 as [<-|[<-|[]]], H2 as [<-|[<-|[]]]; reflexivity.
  - intros H.
    specialize (H (csv_row "sbj1" 70 "yes" "s1" 0 10)
                  (csv_row "sbj1" 70 "yes" "s1" 0 11)
                  (or_introl eq_refl) (or_intror (or_introl eq_refl)) eq_refl).
    discriminate H.
Defined.

(** X4: rows of the CSV that repeat rows met before change nothing: the
    outcome of Part 1 and the two tables are those of the CSV without
    them. *)
Theorem repeated_rows_change_nothing :
  forall (csv extra : list countCSVStaging.row) (s : store),
    incl extra csv ->
    fst (part1 (csv ++ extra) s) = fst (part1 csv s)
    /\ Subjects_table (snd (part1 (csv ++ extra) s)) = Subjects_table (snd (part1 csv s))
    /\ Samples_table (snd (part1 (csv ++ extra) s)) = Samples_table (snd (part1 csv s)).
Proof.
  intros csv extra s Hincl.
  assert (Hsub : select_subjects (csv ++ extra) = select_subjects csv).
  { unfold select_subjects. rewrite map_app. apply distinct_app_incl.
    now apply incl_map. }
  assert (Hsam : select_samples (csv ++ extra) = select_samples csv).
  { unfold select_samples. rewrite map_app. apply distinct_app_incl.
    now apply incl_map. }
  rewrite !part1_cases, Hsub, Hsam.
  destruct (insert_rows Subjects.subject [] (select_subjects csv)); [|repeat split].
  destruct (insert_rows Samples.sample [] (select_samples csv)); repeat split.
Qed.

(** The first of two rows, once more at the end. *)
Lemma repeated_rows_change_nothing_witness :
  let csv := [ csv_row "sbj1" 70 "yes" "s1" 0 10;
               csv_row "sbj2" 64 "no" "s3" 0 9 ] in
  let extra := [ csv_row "sbj1" 70 "yes" "s1" 0 10 ] in
  fst (part1 (csv ++ extra) empty_store) = fst (part1 csv empty_store)
  /\ Subjects_table (snd (part1 (csv ++ extra) empty_store))
     = Subjects_table (snd (part1 csv empty_store))
  /\ Samples_table (snd (part1 (csv ++ extra) empty_store))
     = Samples_table (snd (part1 csv empty_store)).
Proof.
  intros csv extra. apply (repeated_rows_change_nothing csv extra empty_store).
  intros r Hr. simpl in Hr. destruct Hr as [<-|[]]. simpl. tauto.
Defined.

Lemma select_samples_nonempty (csv : list countCSVStaging.row) :
  csv <> [] -> exists sa, In sa (select_samples csv).
Proof.
  destruct csv as [|r rest]; [congruence|]. intros _.
  exists (sample_columns r). apply in_distinct. now left.
Qed.

(** X5: the order of the DROP statements matters.  On the store a successful
    load of at least one row has left, dropping Subjects before Samples
    raises on the foreign key and drops nothing, while the order of the
    script, Samples before Subjects, clears the tables without an error. *)
Theorem drop_order_matters :
  forall (csv : list countCSVStaging.row) (s : store),
    csv <> [] ->
    fst (part1 csv s) = Ok tt ->
    drop_Subjects_first (snd (part1 csv s))
    = (Raise foreign_key_constraint_failed, snd (part1 csv s))
    /\ fst (drop_tables (snd (part1 csv s))) = Ok tt
    /\ Subjects_table (snd (drop_tables (snd (part1 csv s)))) = None
    /\ Samples_table (snd (drop_tables (snd (part1 csv s)))) = None.
Proof.
  intros csv s Hne Hok.
  destruct (part1_by_consistency csv s) as [(H1 & H2 & E)|[(H1 & H2 & E)|(H1 & E)]];
    rewrite E in Hok |- *; cbn [fst snd] in *; try discriminate.
  split; [|repeat split].
  unfold drop_Subjects_first, bind, drop_Subjects_if_exists. store_simpl.
  destruct (select_samples_nonempty csv Hne) as (sa & Hsa).
  assert (Hex : existsb
                  (fun r => has_key Subjects.subject (Samples.subject r)
                              (select_subjects csv))
                  (select_samples csv) = true).
  { apply existsb_exists. exists sa. split; [exact Hsa|].
    pose proof (selected_samples_have_subjects csv) as Hfk.
    rewrite forallb_forall in Hfk. now apply Hfk. }
  now rewrite Hex.
Qed.

(** One sample of one subject. *)
Lemma drop_order_matters_witness :
  let csv := [ csv_row "sbj1" 70 "yes" "s1" 0 10 ] in
  let s := snd (part1 csv empty_store) in
  drop_Subjects_first s = (Raise foreign_key_constraint_failed, s)
  /\ fst (drop_tables s) = Ok tt
  /\ Subjects_table (snd (drop_tables s)) = None
  /\ Samples_table (snd (drop_tables s)) = None.
Proof.
  intros csv. apply (drop_order_matters csv empty_store).
  - discriminate.
  - vm_compute. reflexivity.
Defined.

(** X6: after a successful Part 1 every stored subject has at least one
    sample, and there are no more subjects than samples and no more samples
    than rows in the CSV. *)
Theorem row_counts_after_load :
  forall (csv : list countCSVStaging.row) (s : store),
    fst (part1 csv s) = Ok tt ->
    let subjects := table_rows (Subjects_table (snd (part1 csv s))) in
    let samples := table_rows (Samples_table (snd (part1 csv s))) in
    (forall u, In u subjects ->
       exists sa, In sa samples /\ Samples.subject sa = Subjects.subject u)
    /\ (List.length subjects <= List.length samples)%nat
    /\ (List.length samples <= List.length csv)%nat.
Proof.
  intros csv s Hok.
  destruct (part1_by_consistency csv s) as [(H1 & H2 & E)|[(H1 & H2 & E)|(H1 & E)]];
    rewrite E in Hok |- *; cbn [fst snd table_rows Subjects_table Samples_table] in *;
    try discriminate.
  assert (Hchild : forall u, In u (select_subjects csv) ->
            exists sa, In sa (select_samples csv)
                       /\ Samples.subject sa = Subjects.subject u).
  { intros u Hu. apply in_distinct, in_map_iff in Hu as (r & <- & Hr).
    exists (sample_columns r). split; [|reflexivity].
    apply in_distinct. now apply in_map. }
  split; [exact Hchild|]. split.
  - rewrite <- (length_map Subjects.subject), <- (length_map Samples.subject).
    apply NoDup_incl_length; [now apply select_subjects_keys|].
    intros k Hk. apply in_map_iff in Hk as (u & <- & Hu).
    destruct (Hchild u Hu) as (sa & Hsa & <-). now apply in_map.
  - unfold select_samples, distinct.
    etransitivity; [apply distinct_from_length|]. now rewrite length_map.
Qed.

(** Three rows, three samples, two subjects. *)
Lemma row_counts_after_load_witness :
  let csv := [ csv_row "sbj1" 70 "yes" "s1" 0 10;
               csv_row "sbj1" 70 "yes" "s2" 7 12;
               csv_row "sbj2" 64 "no" "s3" 0 9 ] in
  let subjects := table_rows (Subjects_table (snd (part1 csv empty_store))) in
  let samples := table_rows (Samples_table (snd (part1 csv empty_store))) in
  (forall u, In u subjects ->
     exists sa, In sa samples /\ Samples.subject sa = Subjects.subject u)
  /\ (List.length subjects <= List.length samples)%nat
  /\ (List.length samples <= List.length csv)%nat.
Proof.
  intros csv. apply (row_counts_after_load csv empty_store).
  vm_compute. reflexivity.
Defined.

(* ================================================================== *)
(** * ORDER BY *)
(* ================================================================== *)

Lemma ascii_compare_lt_trans (a b c : ascii) :
  Ascii.compare a b = Lt -> Ascii.compare b c = Lt -> Ascii.compare a c = Lt.
Proof.
  unfold Ascii.compare. rewrite !N.compare_lt_iff. apply N.lt_trans.
Qed.

Lemma string_compare_lt_trans (a b c : string) :
  String.compare a b = Lt -> String.compare b c = Lt -> String.compare a c = Lt.
Proof.
  revert b c. induction a as [|x a IH]; intros [|y b] [|z c]; simpl;
    try discriminate; try reflexivity.
  destruct (Ascii.compare x y) eqn:Exy; try discriminate.
  - apply Ascii.compare_eq_iff in Exy. subst y.
    destruct (Ascii.compare x z); try discriminate; [apply IH|reflexivity].
  - intros _. destruct (Ascii.compare y z) eqn:Eyz; try discriminate.
    + apply Ascii.compare_eq_iff in Eyz. subst z. now rewrite Exy.
    + now rewrite (ascii_compare_lt_trans x y z Exy Eyz).
Qed.

(** The order of the BINARY collation is transitive. *)
Lemma string_leb_trans (a b c : string) :
  String.leb a b = true -> String.leb b c = true -> String.leb a c = true.
Proof.
  unfold String.leb.
  destruct (String.compare a b) eqn:Eab; try discriminate;
    destruct (String.compare b c) eqn:Ebc; try discriminate; intros _ _.
  - apply String.compare_eq_iff in Eab. subst b. now rewrite Ebc.
  - apply String.compare_eq_iff in Eab. subst b. now rewrite Ebc.
  - apply String.compare_eq_iff in Ebc. subst c. now rewrite Eab.
  - now rewrite (string_compare_lt_trans a b c Eab Ebc).
Qed.

Lemma string_leb_refl (a : string) : String.leb a a = true.
Proof.
  unfold String.leb. pose proof (String.compare_antisym a a) as H.
  destruct (String.compare a a); simpl in H; try discriminate; reflexivity.
Qed.

Section OrderByFacts.
Context {A : Type}.
Variable key : A -> string.

Lemma insert_sorted_perm (x : A) (l : list A) :
  Permutation (x :: l) (insert_sorted key x l).
Proof.
  induction l as [|y ys IH]; simpl; [reflexivity|].
  destruct (String.leb (key x) (key y)); [reflexivity|].
  rewrite perm_swap. now apply perm_skip.
Qed.

(** ORDER BY returns the rows it is given, each as often as it came. *)
Lemma order_by_perm (l : list A) : Permutation l (order_by key l).
Proof.
  induction l as [|x xs IH]; simpl; [constructor|].
  rewrite <- insert_sorted_perm. now apply perm_skip.
Qed.

Lemma insert_sorted_sorted (x : A) (l : list A) :
  StronglySorted (key_le key) l -> StronglySorted (key_le key) (insert_sorted key x l).
Proof.
  induction l as [|y ys IH]; intros Hs; simpl.
  - constructor; constructor.
  - inversion Hs as [|? ? Hys Hall]; subst.
    destruct (String.leb (key x) (key y)) eqn:E.
    + constructor; [exact Hs|]. constructor; [exact E|].
      rewrite Forall_forall in *. intros z Hz. unfold key_le.
      apply (string_leb_trans _ (key y)); [exact E|now apply Hall].
    + constructor; [now apply IH|].
      assert (Hyx : key_le key y x).
      { destruct (String.leb_total (key x) (key y)) as [H|H]; [congruence|exact H]. }
      rewrite Forall_forall in *. intros z Hz.
      apply (Permutation_in _ (Permutation_sym (insert_sorted_perm x ys))) in Hz.
      destruct Hz as [<-|Hz]; [exact Hyx|now apply Hall].
Qed.

(** ORDER BY returns its rows in ascending order of the key. *)
Lemma order_by_sorted (l : list A) : StronglySorted (key_le key) (order_by key l).
Proof.
  induction l as [|x xs IH]; simpl; [constructor|]. now apply insert_sorted_sorted.
Qed.

(** A row put in before rows that all come after it stays first among the
    rows of its key: the sort is stable. *)
Lemma insert_sorted_filter (p : A -> bool) (x : A) (l : list A) :
  (forall y, In y l -> p y = true -> key y = key x) ->
  p x = true ->
  filter p (insert_sorted key x l) = x :: filter p l.
Proof.
  intros Hsame Hx. induction l as [|y ys IH]; simpl; [now rewrite Hx|].
  destruct (String.leb (key x) (key y)) eqn:E; simpl; [now rewrite Hx|].
  destruct (p y) eqn:Hy.
  - exfalso. rewrite (Hsame y (or_introl eq_refl) Hy) in E.
    rewrite string_leb_refl in E. discriminate.
  - apply IH. intros z Hz. apply Hsame. now right.
Qed.

Lemma insert_sorted_filter_out (p : A -> bool) (x : A) (l : list A) :
  p x = false -> filter p (insert_sorted key x l) = filter p l.
Proof.
  intros Hx. induction l as [|y ys IH]; simpl; [now rewrite Hx|].
  destruct (String.leb (key x) (key y)); simpl; [now rewrite Hx|].
  now rewrite IH.
Qed.

(** Rows of one key keep the order they came in. *)
Lemma order_by_stable (k : string) (l : list A) :
  filter (fun r => key r =? k) (order_by key l) = filter (fun r => key r =? k) l.
Proof.
  induction l as [|x xs IH]; simpl; [reflexivity|].
  destruct (key x =? k) eqn:E.
  - rewrite insert_sorted_filter; [now rewrite IH| |exact E].
    intros y _ Hy. apply String.eqb_eq in Hy, E. congruence.
  - rewrite insert_sorted_filter_out by exact E. exact IH.
Qed.
End OrderByFacts.

Section TwoKeys.
Context {A : Type}.
Variables key1 key2 : A -> string.

Lemma insert_sorted_lex (x : A) (l : list A) :
  StronglySorted (lex_le key1 key2) l ->
  (forall y, In y l -> String.leb (key2 x) (key2 y) = true) ->
  StronglySorted (lex_le key1 key2) (insert_sorted key1 x l).
Proof.
  induction l as [|y ys IH]; intros Hs Hx; simpl.
  - constructor; constructor.
  - inversion Hs as [|? ? Hys Hall]; subst. rewrite Forall_forall in Hall.
    destruct (String.leb (key1 x) (key1 y)) eqn:E.
    + constructor; [exact Hs|]. rewrite Forall_forall. intros z Hz. split.
      * destruct Hz as [<-|Hz]; [exact E|].
        apply (string_leb_trans _ (key1 y)); [exact E|]. now apply Hall.
      * intros _. now apply Hx.
    + constructor.
      * apply IH; [exact Hys|]. intros z Hz. apply Hx. now right.
      * rewrite Forall_forall. intros z Hz.
        apply (Permutation_in _ (Permutation_sym (insert_sorted_perm key1 x ys))) in Hz.
        destruct Hz as [<-|Hz]; [|now apply Hall].
        split.
        -- destruct (String.leb_total (key1 x) (key1 y)) as [H|H]; [congruence|exact H].
        -- intros Eq. rewrite Eq, string_leb_refl in E. discriminate.
Qed.

(** Sorting on the second key and then, stably, on the first gives the
    lexicographic order of the two. *)
Lemma order_by_two_keys (l : list A) :
  StronglySorted (lex_le key1 key2) (order_by key1 (order_by key2 l)).
Proof.
  pose proof (order_by_sorted key2 l) as Hs.
  induction Hs as [|x xs Hxs IH Hall]; simpl; [constructor|].
  apply insert_sorted_lex; [exact IH|].
  rewrite Forall_forall in Hall. intros y Hy. apply Hall.
  now apply (Permutation_in _ (Permutation_sym (order_by_perm key1 xs))).
Qed.
End TwoKeys.

(** X7: reading the view (SELECT * FROM SampleCellFrequencies ORDER BY sample,
    population) gives exactly the rows of the view, five per sample, in
    ascending order of the sample code and, within a sample, of the
    population name. *)
Theorem read_frequencies_sorted :
  forall (s : store) (samples : list Samples.row),
    SampleCellFrequencies_view s = true ->
    Samples_table s = Some samples ->
    exists rows,
      read_frequencies s = Ok rows
      /\ Permutation (SampleCellFrequencies_rows samples) rows
      /\ List.length rows = (5 * List.length samples)%nat
      /\ StronglySorted sample_population_le rows.
Proof.
  intros s samples Hv Hsa. unfold read_frequencies, scan_SampleCellFrequencies.
  rewrite Hv, Hsa. cbn [rbind]. eexists. split; [reflexivity|].
  assert (Hperm : Permutation (SampleCellFrequencies_rows samples)
            (order_by SampleCellFrequencies.sample
               (order_by SampleCellFrequencies.population
                  (SampleCellFrequencies_rows samples)))).
  { etransitivity; apply order_by_perm. }
  split; [exact Hperm|]. split.
  - rewrite <- (Permutation_length Hperm). unfold SampleCellFrequencies_rows.
    rewrite !length_app, !length_map. lia.
  - apply (order_by_two_keys SampleCellFrequencies.sample
             SampleCellFrequencies.population).
Qed.

(** Two samples, loaded in the order s2, s1. *)
Lemma read_frequencies_sorted_witness :
  let csv := [ csv_row "sbj1" 70 "yes" "s2" 7 12;
               csv_row "sbj1" 70 "yes" "s1" 0 10 ] in
  let s := snd (create_view_if_not_exists (snd (part1 csv empty_store))) in
  exists rows,
    read_frequencies s = Ok rows
    /\ Permutation (SampleCellFrequencies_rows (select_samples csv)) rows
    /\ List.length rows = (5 * List.length (select_samples csv))%nat
    /\ StronglySorted sample_population_le rows.
Proof.
  intros csv s. apply (read_frequencies_sorted s (select_samples csv)); reflexivity.
Defined.

(** The order in which the ten records of those two samples are read. *)
Example read_frequencies_of_two_samples :
  let csv := [ csv_row "sbj1" 70 "yes" "s2" 7 12;
               csv_row "sbj1" 70 "yes" "s1" 0 10 ] in
  let s := snd (create_view_if_not_exists (snd (part1 csv empty_store))) in
  exists rows,
    read_frequencies s = Ok rows
    /\ map (fun f => (SampleCellFrequencies.sample f,
                      SampleCellFrequencies.population f)) rows
       = [ ("s1", "b_cell"); ("s1", "cd4_t_cell"); ("s1", "cd8_t_cell");
           ("s1", "monocyte"); ("s1", "nk_cell");
           ("s2", "b_cell"); ("s2", "cd4_t_cell"); ("s2", "cd8_t_cell");
           ("s2", "monocyte"); ("s2", "nk_cell") ].
Proof. eexists. split; vm_compute; reflexivity. Qed.

(* ================================================================== *)
(** * GROUP BY *)
(* ================================================================== *)

Section GroupFacts.
Context {A : Type}.
Variable key : A -> string.

(** The keys of the groups: the keys that occur among the rows, each once, in
    ascending order. *)
Lemma group_by_keys (rows : list A) :
  NoDup (map fst (group_by key rows))
  /\ StronglySorted (fun a b => String.leb a b = true) (map fst (group_by key rows))
  /\ (forall k, In k (map fst (group_by key rows)) <-> In k (map key rows)).
Proof.
  unfold group_by. rewrite map_map. cbn [fst]. rewrite map_id.
  pose proof (order_by_perm (fun k : string => k)
                (distinct string_dec (map key rows))) as Hperm.
  split; [|split].
  - apply (Permutation_NoDup Hperm). apply NoDup_distinct.
  - apply (order_by_sorted (fun k : string => k)).
  - intros k. rewrite <- (in_distinct string_dec (map key rows)). split; intros H.
    + now apply (Permutation_in _ (Permutation_sym Hperm)).
    + now apply (Permutation_in _ Hperm).
Qed.

(** Every group holds a row, and only rows of its key. *)
Lemma group_by_groups (rows : list A) (k : string) (g : list A) :
  In (k, g) (group_by key rows) ->
  g = filter (fun r => key r =? k) rows
  /\ g <> []
  /\ (forall r, In r g -> In r rows /\ key r = k).
Proof.
  intros Hin. unfold group_by in Hin. apply in_map_iff in Hin as (k' & E & Hk).
  inversion E; subst k' g. clear E.
  apply (Permutation_in _ (Permutation_sym (order_by_perm _ _))) in Hk.
  apply in_distinct, in_map_iff in Hk as (r & Hr & Hin).
  split; [reflexivity|]. split.
  - intros Hnil.
    assert (H : In r (filter (fun r0 => key r0 =? k) rows)).
    { apply filter_In. split; [exact Hin|]. now apply String.eqb_eq. }
    rewrite Hnil in H. contradiction.
  - intros r' Hr'. apply filter_In in Hr' as [H1 H2].
    split; [exact H1|]. now apply String.eqb_eq.
Qed.

(** Over keys that are pairwise different and cover the rows, the sizes of
    the selections on the key add up to the number of rows. *)
Lemma filter_lengths_sum (keys : list string) (rows : list A) :
  NoDup keys ->
  (forall r, In r rows -> In (key r) keys) ->
  list_sum (map (fun k => List.length (filter (fun r => key r =? k) rows)) keys)
  = List.length rows.
Proof.
  intros Hnd. induction rows as [|r rs IH]; intros Hcov.
  - simpl. induction keys as [|k ks IHk]; simpl; [reflexivity|].
    inversion Hnd; subst. now apply IHk.
  - assert (Hone : forall ks, NoDup ks ->
              list_sum (map (fun k => List.length
                                        (filter (fun r0 => key r0 =? k) (r :: rs))) ks)
              = Nat.add (if in_dec string_dec (key r) ks then 1%nat else 0%nat)
                        (list_sum (map (fun k => List.length
                                             (filter (fun r0 => key r0 =? k) rs)) ks))).
    { clear. induction ks as [|k ks IHk]; intros Hnd; [reflexivity|].
      inversion Hnd as [|? ? Hk Hks]; subst.
      rewrite map_cons.
      assert (Hcons : forall a l, list_sum (a :: l) = (a + list_sum l)%nat)
        by reflexivity.
      rewrite !Hcons, (IHk Hks). cbn [filter].
      destruct (String.eqb_spec (key r) k) as [E|E].
      - subst k. destruct (in_dec string_dec (key r) (key r :: ks)) as [_|n];
          [|exfalso; apply n; now left].
        destruct (in_dec string_dec (key r) ks) as [i|_]; [contradiction|].
        simpl. lia.
      - destruct (in_dec string_dec (key r) (k :: ks)) as [[i|i]|n];
          destruct (in_dec string_dec (key r) ks) as [i'|n'].
        + congruence.
        + congruence.
        + simpl. lia.
        + contradiction.
        + exfalso. apply n. now right.
        + simpl. lia. }
    rewrite (Hone keys Hnd), IH.
    + destruct (in_dec string_dec (key r) keys) as [_|n]; [reflexivity|].
      exfalso. apply n, Hcov. now left.
    + intros r' Hr'. apply Hcov. now right.
Qed.

(** The counts of a GROUP BY add up to the number of rows grouped. *)
Lemma group_by_sizes (rows : list A) :
  total_of (map (fun g => (fst g, Z.of_nat (List.length (snd g)))) (group_by key rows))
  = Z.of_nat (List.length rows).
Proof.
  destruct (group_by_keys rows) as (Hnd & _ & Hcov).
  rewrite <- (filter_lengths_sum (map fst (group_by key rows)) rows Hnd).
  - unfold group_by. rewrite !map_map. cbn [fst snd].
    induction (order_by (fun k : string => k) (distinct string_dec (map key rows)))
      as [|k ks IH]; [reflexivity|].
    unfold total_of in *. cbn [map fold_right snd].
    rewrite IH. change (list_sum (?a :: ?l)) with (a + list_sum l)%nat.
    lia.
  - intros r Hr. apply Hcov. now apply in_map.
Qed.
End GroupFacts.

(* ================================================================== *)
(** * The subset report on a store that has both tables *)
(* ================================================================== *)

Section DistinctMore.
Context {A : Type}.
Variable eq_dec : forall x y : A, {x = y} + {x <> y}.

Lemma distinct_from_filter (p : A -> bool) (seen l : list A) :
  distinct_from eq_dec (filter p seen) (filter p l)
  = filter p (distinct_from eq_dec seen l).
Proof.
  revert seen. induction l as [|x xs IH]; intros seen; simpl; [reflexivity|].
  destruct (p x) eqn:Hp; simpl.
  - destruct (in_dec eq_dec x (filter p seen)) as [i|n];
      destruct (in_dec eq_dec x seen) as [i'|n'].
    + apply IH.
    + exfalso. apply n'. now apply filter_In in i.
    + exfalso. apply n. apply filter_In. now split.
    + simpl. rewrite Hp. f_equal. rewrite <- IH. simpl. now rewrite Hp.
  - destruct (in_dec eq_dec x seen) as [i'|n'].
    + apply IH.
    + simpl. rewrite Hp. rewrite <- IH. simpl. now rewrite Hp.
Qed.

Lemma distinct_filter (p : A -> bool) (l : list A) :
  distinct eq_dec (filter p l) = filter p (distinct eq_dec l).
Proof. apply (distinct_from_filter p []). Qed.

Lemma distinct_length_perm (l l' : list A) :
  Permutation l l' ->
  List.length (distinct eq_dec l) = List.length (distinct eq_dec l').
Proof.
  intros H. apply Permutation_length. apply NoDup_Permutation.
  - apply NoDup_distinct.
  - apply NoDup_distinct.
  - intros x. rewrite !in_distinct. split; intros Hx.
    + now apply (Permutation_in _ H).
    + now apply (Permutation_in _ (Permutation_sym H)).
Qed.

Lemma distinct_nonempty (l : list A) :
  l <> [] -> (1 <= List.length (distinct eq_dec l))%nat.
Proof.
  intros H. destruct (distinct eq_dec l) eqn:E; [|simpl; lia].
  now apply distinct_nil_inv in E.
Qed.
End DistinctMore.

(** Distinct values under a map that tells the rows apart. *)
Lemma distinct_from_map_inj {A B : Type}
    (decA : forall x y : A, {x = y} + {x <> y})
    (decB : forall x y : B, {x = y} + {x <> y})
    (f : A -> B) (seen l : list A) :
  (forall x y, In x (seen ++ l) -> In y (seen ++ l) -> f x = f y -> x = y) ->
  distinct_from decB (map f seen) (map f l) = map f (distinct_from decA seen l).
Proof.
  revert seen. induction l as [|x xs IH]; intros seen Hinj; simpl; [reflexivity|].
  assert (Hnext : forall s', incl s' (seen ++ x :: xs) ->
            forall a b, In a (s' ++ xs) -> In b (s' ++ xs) -> f a = f b -> a = b).
  { intros s' Hs a b Ha Hb. apply Hinj.
    - apply in_app_or in Ha as [Ha|Ha]; [now apply Hs|].
      apply in_or_app. right. now right.
    - apply in_app_or in Hb as [Hb|Hb]; [now apply Hs|].
      apply in_or_app. right. now right. }
  destruct (in_dec decB (f x) (map f seen)) as [i|n];
    destruct (in_dec decA x seen) as [i'|n'].
  - apply IH. apply Hnext. intros a Ha. apply in_or_app. now left.
  - exfalso. apply in_map_iff in i as (y & Hy & Hin).
    apply n'. rewrite <- (Hinj y x); [exact Hin| | |exact Hy].
    + apply in_or_app. now left.
    + apply in_or_app. right. now left.
  - exfalso. apply n. now apply in_map.
  - simpl. f_equal. apply (IH (x :: seen)). apply Hnext.
    intros a [<-|Ha]; apply in_or_app; [right; now left|now left].
Qed.

Lemma sorted_map {A B : Type} (f : A -> B) (key : B -> string) (l : list A) :
  StronglySorted (key_le (fun r => key (f r))) l ->
  StronglySorted (key_le key) (map f l).
Proof.
  induction 1 as [|r l Hl IH Hall]; [constructor|].
  simpl. constructor; [exact IH|].
  apply Forall_forall. intros b Hb. apply in_map_iff in Hb as (r' & <- & Hr').
  rewrite Forall_forall in Hall. exact (Hall r' Hr').
Qed.

Lemma baseline_rows_in (samples : list Samples.row) (subjects : list Subjects.row)
    (r : Samples.row * Subjects.row) :
  In r (baseline_rows samples subjects)
  <-> In (fst r) samples /\ In (snd r) subjects
      /\ Subjects.subject (snd r) = Samples.subject (fst r)
      /\ filter_condition (fst r) (snd r) = true.
Proof.
  unfold baseline_rows. rewrite in_flat_map. split.
  - intros (sa & Hsa & H). apply in_flat_map in H as (su & Hsu & H).
    destruct (String.eqb_spec (Subjects.subject su) (Samples.subject sa)) as [E|E];
      [|contradiction].
    destruct (filter_condition sa su) eqn:Hf; [|contradiction].
    destruct H as [<-|[]]. now repeat split.
  - intros (Hsa & Hsu & E & Hf). exists (fst r). split; [exact Hsa|].
    apply in_flat_map. exists (snd r). split; [exact Hsu|].
    rewrite E, String.eqb_refl, Hf. left. now destruct r.
Qed.

(** With a primary key on Subjects, the join gives each sample at most one
    row: that of the subject it names. *)
Lemma baseline_rows_by_sample (samples : list Samples.row)
    (subjects : list Subjects.row) :
  NoDup (map Subjects.subject subjects) ->
  baseline_rows samples subjects
  = flat_map (fun sa =>
      match find (fun su => Subjects.subject su =? Samples.subject sa) subjects with
      | Some su => if filter_condition sa su then [(sa, su)] else []
      | None => []
      end) samples.
Proof.
  intros Hnd. unfold baseline_rows. apply flat_map_ext. intros sa.
  rewrite <- (flat_map_key_lookup Subjects.subject (Samples.subject sa)
                (fun su => if filter_condition sa su then [(sa, su)] else [])
                subjects Hnd).
  apply flat_map_ext. intros su.
  now destruct (Subjects.subject su =? Samples.subject sa), (filter_condition sa su).
Qed.

Lemma baseline_rows_length (samples : list Samples.row)
    (subjects : list Subjects.row) :
  NoDup (map Subjects.subject subjects) ->
  (List.length (baseline_rows samples subjects) <= List.length samples)%nat.
Proof.
  intros Hnd. rewrite (baseline_rows_by_sample samples subjects Hnd).
  induction samples as [|sa rest IH]; simpl; [lia|].
  rewrite length_app.
  destruct (find _ subjects) as [su|]; [destruct (filter_condition sa su)|];
    simpl; lia.
Qed.

Lemma baseline_rows_samples_NoDup (samples : list Samples.row)
    (subjects : list Subjects.row) :
  NoDup (map Samples.sample samples) ->
  NoDup (map Subjects.subject subjects) ->
  NoDup (map (fun r => Samples.sample (fst r)) (baseline_rows samples subjects)).
Proof.
  intros Hsa Hsu. rewrite (baseline_rows_by_sample samples subjects Hsu).
  induction samples as [|sa rest IH]; simpl; [constructor|].
  inversion Hsa as [|? ? Hnew Hrest]; subst. rewrite map_app.
  assert (Htail : forall k,
            In k (map (fun r : Samples.row * Subjects.row => Samples.sample (fst r))
                    (flat_map (fun sa0 =>
                       match find (fun su => Subjects.subject su =? Samples.subject sa0)
                               subjects with
                       | Some su => if filter_condition sa0 su then [(sa0, su)] else []
                       | None => []
                       end) rest)) ->
            In k (map Samples.sample rest)).
  { intros k Hk. apply in_map_iff in Hk as (r & <- & Hr).
    apply in_flat_map in Hr as (sa0 & Hin & Hr).
    destruct (find _ subjects) as [su|]; [|contradiction].
    destruct (filter_condition sa0 su); [|contradiction].
    destruct Hr as [<-|[]]. now apply in_map. }
  destruct (find _ subjects) as [su|]; [destruct (filter_condition sa su)|]; simpl.
  - constructor; [|now apply IH]. intros Hin. apply Hnew. now apply Htail.
  - now apply IH.
  - now apply IH.
Qed.

Lemma part4_queries (s : store) (samples : list Samples.row)
    (subjects : list Subjects.row) :
  Samples_table s = Some samples ->
  Subjects_table s = Some subjects ->
  query1 s = Ok (map baseline_of
                   (order_by (fun r => Samples.sample (fst r))
                      (baseline_rows samples subjects)))
  /\ query2 s = Ok (map (fun g => (fst g, Z.of_nat (List.length (snd g))))
                      (group_by (fun r => Subjects.project (snd r))
                         (baseline_rows samples subjects)))
  /\ query3 s = Ok (map (fun g =>
                      (fst g, count_distinct
                                (map (fun r => Subjects.subject (snd r)) (snd g))))
                      (group_by (fun r => Subjects.response (snd r))
                         (baseline_rows samples subjects)))
  /\ query4 s = Ok (map (fun g =>
                      (fst g, count_distinct
                                (map (fun r => Subjects.subject (snd r)) (snd g))))
                      (group_by (fun r => Subjects.sex (snd r))
                         (baseline_rows samples subjects))).
Proof.
  intros Hsa Hsu.
  unfold query1, query2, query3, query4, scan_Samples, scan_Subjects.
  rewrite Hsa, Hsu. now repeat split.
Qed.

(** A count over the groups of a GROUP BY is well grouped as soon as it gives
    every group that holds a row at least one. *)
Lemma grouped_count_well_grouped {A : Type} (key : A -> string)
    (count : list A -> Z) (rows : list A) :
  (forall g, g <> [] -> 1 <= count g) ->
  well_grouped (map (fun g => (fst g, count (snd g))) (group_by key rows)).
Proof.
  intros Hcount. unfold well_grouped. rewrite map_map. cbn [fst].
  destruct (group_by_keys key rows) as (Hnd & Hsorted & _).
  split; [exact Hnd|]. split; [exact Hsorted|].
  apply Forall_forall. intros g Hg. apply in_map_iff in Hg as ([k rs] & <- & Hin).
  cbn [snd]. apply Hcount. now destruct (group_by_groups key rows k rs Hin) as (_ & H & _).
Qed.

(** The counts of distinct subjects over the groups of an attribute of the
    subject add up to the number of distinct subjects, when the subject code
    determines the subject row. *)
Lemma distinct_subjects_by_group (attribute : Subjects.row -> string)
    (rows : list (Samples.row * Subjects.row)) :
  (forall r1 r2, In r1 rows -> In r2 rows ->
                 Subjects.subject (snd r1) = Subjects.subject (snd r2) ->
                 snd r1 = snd r2) ->
  total_of (map (fun g =>
             (fst g, count_distinct (map (fun r => Subjects.subject (snd r)) (snd g))))
             (group_by (fun r => attribute (snd r)) rows))
  = count_distinct (map (fun r => Subjects.subject (snd r)) rows).
Proof.
  intros Hinj.
  assert (Hcount : forall l : list (Samples.row * Subjects.row), incl l rows ->
            count_distinct (map (fun r => Subjects.subject (snd r)) l)
            = Z.of_nat (List.length (distinct Subjects.eq_dec (map snd l)))).
  { intros l Hl. unfold count_distinct, distinct. f_equal.
    rewrite <- (map_map snd Subjects.subject).
    change (@nil string) with (map Subjects.subject []).
    rewrite (distinct_from_map_inj Subjects.eq_dec string_dec Subjects.subject).
    - apply length_map.
    - simpl. intros x y Hx Hy E.
      apply in_map_iff in Hx as (r1 & <- & H1).
      apply in_map_iff in Hy as (r2 & <- & H2).
      apply Hinj; [now apply Hl|now apply Hl|exact E]. }
  rewrite (Hcount rows) by apply incl_refl.
  set (L := distinct Subjects.eq_dec (map snd rows)).
  destruct (group_by_keys (fun r => attribute (snd r)) rows) as (Hnd & _ & Hcov).
  rewrite <- (filter_lengths_sum attribute
                (map fst (group_by (fun r => attribute (snd r)) rows)) L Hnd).
  - unfold group_by. rewrite !map_map. cbn [fst snd].
    induction (order_by (fun k : string => k)
                 (distinct string_dec (map (fun r => attribute (snd r)) rows)))
      as [|k ks IH]; [reflexivity|].
    unfold total_of in *. cbn [map fold_right snd]. rewrite IH.
    change (list_sum (?a :: ?l)) with (a + list_sum l)%nat.
    rewrite Nat2Z.inj_add. f_equal.
    rewrite Hcount by (intros r Hr; now apply filter_In in Hr).
    f_equal. f_equal. unfold L.
    rewrite <- (distinct_filter Subjects.eq_dec). f_equal.
    now rewrite filter_map_comm.
  - intros su Hsu. apply Hcov. unfold L in Hsu. apply in_distinct in Hsu.
    apply in_map_iff in Hsu as (r & <- & Hr). rewrite <- (map_map snd attribute).
    apply in_map_iff. exists (snd r). split; [reflexivity|]. now apply in_map.
Qed.

(** X8: the baseline listing of Part 4 (query1) holds the rows of the join
    that pass the filter and no other row, in ascending order of the sample
    code; with the primary keys of the two tables no sample is listed twice,
    and the listing is no longer than the Samples table. *)
Theorem baseline_listing :
  forall (s : store) (samples : list Samples.row) (subjects : list Subjects.row),
    Samples_table s = Some samples ->
    Subjects_table s = Some subjects ->
    NoDup (map Samples.sample samples) ->
    NoDup (map Subjects.subject subjects) ->
    exists q1,
      query1 s = Ok q1
      /\ (forall b, In b q1 <->
            exists sa su, In sa samples /\ In su subjects
              /\ Subjects.subject su = Samples.subject sa
              /\ filter_condition sa su = true
              /\ b = baseline_of (sa, su))
      /\ StronglySorted (key_le bs_sample) q1
      /\ NoDup (map bs_sample q1)
      /\ (List.length q1 <= List.length samples)%nat.
Proof.
  intros s samples subjects Hsa Hsu Hk1 Hk2.
  destruct (part4_queries s samples subjects Hsa Hsu) as (H1 & _).
  pose proof (order_by_perm (fun r : Samples.row * Subjects.row => Samples.sample (fst r))
                (baseline_rows samples subjects)) as Hperm.
  eexists. split; [exact H1|]. split; [|split; [|split]].
  - intros b. rewrite in_map_iff. split.
    + intros (r & <- & Hr).
      apply (Permutation_in _ (Permutation_sym Hperm)) in Hr.
      apply baseline_rows_in in Hr as (Ha & Hb & E & Hf).
      exists (fst r), (snd r). now destruct r.
    + intros (sa & su & Ha & Hb & E & Hf & ->). exists (sa, su).
      split; [reflexivity|]. apply (Permutation_in _ Hperm).
      apply baseline_rows_in. now repeat split.
  - apply sorted_map. cbn [baseline_of bs_sample].
    apply (order_by_sorted (fun r : Samples.row * Subjects.row => Samples.sample (fst r))).
  - rewrite map_map. cbn [baseline_of bs_sample].
    apply (Permutation_NoDup (Permutation_map _ Hperm)).
    now apply baseline_rows_samples_NoDup.
  - rewrite length_map, <- (Permutation_length Hperm).
    now apply baseline_rows_length.
Qed.

Lemma baseline_listing_witness :
  let csv := [ csv_row "sbj2" 64 "no" "s3" 0 9;
               csv_row "sbj1" 70 "yes" "s2" 7 10;
               csv_row "sbj1" 70 "yes" "s1" 0 12 ] in
  let s := snd (part1 csv empty_store) in
  exists q1,
    query1 s = Ok q1
    /\ (forall b, In b q1 <->
          exists sa su, In sa (select_samples csv) /\ In su (select_subjects csv)
            /\ Subjects.subject su = Samples.subject sa
            /\ filter_condition sa su = true
            /\ b = baseline_of (sa, su))
    /\ StronglySorted (key_le bs_sample) q1
    /\ NoDup (map bs_sample q1)
    /\ (List.length q1 <= List.length (select_samples csv))%nat.
Proof.
  intros csv s.
  apply (baseline_listing s (select_samples csv) (select_subjects csv)).
  - vm_compute. reflexivity.
  - vm_compute. reflexivity.
  - vm_compute. repeat constructor; simpl; intuition discriminate.
  - vm_compute. repeat constructor; simpl; intuition discriminate.
Defined.

(** X9: each of the three grouped queries of Part 4 (query2, query3, query4)
    returns one row per key, the keys in ascending order, and never a row
    with a count below one; the keys are the projects, the responses and the
    sexes that occur in the baseline listing. *)
Theorem grouped_queries_well_grouped :
  forall (s : store) (samples : list Samples.row) (subjects : list Subjects.row),
    Samples_table s = Some samples ->
    Subjects_table s = Some subjects ->
    exists q1 q2 q3 q4,
      query1 s = Ok q1 /\ query2 s = Ok q2 /\ query3 s = Ok q3 /\ query4 s = Ok q4
      /\ well_grouped q2 /\ well_grouped q3 /\ well_grouped q4
      /\ (forall k, In k (map fst q2) <-> In k (map bs_project q1))
      /\ (forall k, In k (map fst q3) <-> In k (map bs_response q1))
      /\ (forall k, In k (map fst q4) <-> In k (map bs_sex q1)).
Proof.
  intros s samples subjects Hsa Hsu.
  destruct (part4_queries s samples subjects Hsa Hsu) as (H1 & H2 & H3 & H4).
  pose proof (order_by_perm (fun r : Samples.row * Subjects.row => Samples.sample (fst r))
                (baseline_rows samples subjects)) as Hperm.
  assert (Hkeys : forall (attribute : Subjects.row -> string)
                         (count : list (Samples.row * Subjects.row) -> Z)
                         (column : baseline_sample -> string),
            (forall r, column (baseline_of r) = attribute (snd r)) ->
            forall k,
              In k (map fst (map (fun g => (fst g, count (snd g)))
                               (group_by (fun r => attribute (snd r))
                                  (baseline_rows samples subjects))))
              <-> In k (map column
                          (map baseline_of
                             (order_by (fun r => Samples.sample (fst r))
                                (baseline_rows samples subjects))))).
  { intros attribute count column Hcol k.
    pose proof (group_by_keys (fun r => attribute (snd r))
                  (baseline_rows samples subjects)) as (_ & _ & Hcov).
    assert (E : forall G : list (string * list (Samples.row * Subjects.row)),
              map fst (map (fun g => (fst g, count (snd g))) G) = map fst G).
    { intros G. rewrite map_map. now apply map_ext. }
    rewrite E, Hcov, (map_map baseline_of column).
    rewrite (map_ext (fun r => column (baseline_of r)) (fun r => attribute (snd r)) Hcol).
    split; intros H.
    - now apply (Permutation_in _ (Permutation_map _ Hperm)).
    - now apply (Permutation_in _ (Permutation_sym (Permutation_map _ Hperm))). }
  do 4 eexists.
  split; [exact H1|]. split; [exact H2|]. split; [exact H3|]. split; [exact H4|].
  split; [|split; [|split; [|split; [|split]]]].
  - apply (grouped_count_well_grouped _ (fun g => Z.of_nat (List.length g))).
    intros [|r g] Hg; [congruence|]. simpl List.length. lia.
  - apply (grouped_count_well_grouped _
             (fun g => count_distinct (map (fun r => Subjects.subject (snd r)) g))).
    intros g Hg. unfold count_distinct.
    assert (Hm : map (fun r : Samples.row * Subjects.row => Subjects.subject (snd r)) g
                 <> []) by (destruct g; [congruence|discriminate]).
    pose proof (distinct_nonempty string_dec _ Hm). lia.
  - apply (grouped_count_well_grouped _
             (fun g => count_distinct (map (fun r => Subjects.subject (snd r)) g))).
    intros g Hg. unfold count_distinct.
    assert (Hm : map (fun r : Samples.row * Subjects.row => Subjects.subject (snd r)) g
                 <> []) by (destruct g; [congruence|discriminate]).
    pose proof (distinct_nonempty string_dec _ Hm). lia.
  - apply (Hkeys Subjects.project (fun g => Z.of_nat (List.length g)) bs_project).
    reflexivity.
  - apply (Hkeys Subjects.response
             (fun g => count_distinct (map (fun r => Subjects.subject (snd r)) g))
             bs_response).
    reflexivity.
  - apply (Hkeys Subjects.sex
             (fun g => count_distinct (map (fun r => Subjects.subject (snd r)) g))
             bs_sex).
    reflexivity.
Qed.

Lemma grouped_queries_well_grouped_witness :
  let csv := [ csv_row "sbj2" 64 "no" "s3" 0 9;
               csv_row "sbj1" 70 "yes" "s2" 7 10;
               csv_row "sbj1" 70 "yes" "s1" 0 12 ] in
  let s := snd (part1 csv empty_store) in
  exists q1 q2 q3 q4,
    query1 s = Ok q1 /\ query2 s = Ok q2 /\ query3 s = Ok q3 /\ query4 s = Ok q4
    /\ well_grouped q2 /\ well_grouped q3 /\ well_grouped q4
    /\ (forall k, In k (map fst q2) <-> In k (map bs_project q1))
    /\ (forall k, In k (map fst q3) <-> In k (map bs_response q1))
    /\ (forall k, In k (map fst q4) <-> In k (map bs_sex q1)).
Proof.
  intros csv s.
  apply (grouped_queries_well_grouped s (select_samples csv) (select_subjects csv)).
  - vm_compute. reflexivity.
  - vm_compute. reflexivity.
Defined.

(** X10: the counts of Part 4 add up.  The samples per project (query2) add
    up to the number of rows of the baseline listing (query1); with the
    primary key of Subjects, the subjects per response (query3) and the
    subjects per sex (query4) both add up to the number of distinct subjects
    of the listing. *)
Theorem subset_counts_add_up :
  forall (s : store) (samples : list Samples.row) (subjects : list Subjects.row),
    Samples_table s = Some samples ->
    Subjects_table s = Some subjects ->
    NoDup (map Subjects.subject subjects) ->
    exists q1 q2 q3 q4,
      query1 s = Ok q1 /\ query2 s = Ok q2 /\ query3 s = Ok q3 /\ query4 s = Ok q4
      /\ total_of q2 = Z.of_nat (List.length q1)
      /\ total_of q3 = count_distinct (map bs_subject q1)
      /\ total_of q4 = count_distinct (map bs_subject q1).
Proof.
  intros s samples subjects Hsa Hsu Hkey.
  destruct (part4_queries s samples subjects Hsa Hsu) as (H1 & H2 & H3 & H4).
  pose proof (order_by_perm (fun r : Samples.row * Subjects.row => Samples.sample (fst r))
                (baseline_rows samples subjects)) as Hperm.
  assert (Hinj : forall r1 r2,
            In r1 (baseline_rows samples subjects) ->
            In r2 (baseline_rows samples subjects) ->
            Subjects.subject (snd r1) = Subjects.subject (snd r2) ->
            snd r1 = snd r2).
  { intros r1 r2 Hr1 Hr2 E.
    apply baseline_rows_in in Hr1 as (_ & Hin1 & _).
    apply baseline_rows_in in Hr2 as (_ & Hin2 & _).
    pose proof (filter_key_unique Subjects.subject subjects (snd r2) Hkey Hin2) as Hf.
    assert (Hm : In (snd r1)
                    (filter (fun x => Subjects.subject x =? Subjects.subject (snd r2))
                       subjects)).
    { apply filter_In. split; [exact Hin1|]. now apply String.eqb_eq. }
    rewrite Hf in Hm. destruct Hm as [<-|[]]. reflexivity. }
  assert (Hsubjects :
            count_distinct (map bs_subject
                              (map baseline_of
                                 (order_by (fun r => Samples.sample (fst r))
                                    (baseline_rows samples subjects))))
            = count_distinct (map (fun r => Subjects.subject (snd r))
                                (baseline_rows samples subjects))).
  { rewrite map_map. cbn [baseline_of bs_subject]. unfold count_distinct. f_equal.
    apply distinct_length_perm. apply Permutation_map. now apply Permutation_sym. }
  do 4 eexists.
  split; [exact H1|]. split; [exact H2|]. split; [exact H3|]. split; [exact H4|].
  split; [|split].
  - rewrite length_map, <- (Permutation_length Hperm). apply group_by_sizes.
  - rewrite Hsubjects. now apply distinct_subjects_by_group.
  - rewrite Hsubjects. now apply distinct_subjects_by_group.
Qed.

Lemma subset_counts_add_up_witness :
  let csv := [ csv_row "sbj2" 64 "no" "s3" 0 9;
               csv_row "sbj1" 70 "yes" "s2" 0 10;
               csv_row "sbj1" 70 "yes" "s1" 0 12 ] in
  let s := snd (part1 csv empty_store) in
  exists q1 q2 q3 q4,
    query1 s = Ok q1 /\ query2 s = Ok q2 /\ query3 s = Ok q3 /\ query4 s = Ok q4
    /\ total_of q2 = Z.of_nat (List.length q1)
    /\ total_of q3 = count_distinct (map bs_subject q1)
    /\ total_of q4 = count_distinct (map bs_subject q1).
Proof.
  intros csv s.
  apply (subset_counts_add_up s (select_samples csv) (select_subjects csv)).
  - vm_compute. reflexivity.
  - vm_compute. reflexivity.
  - vm_compute. repeat constructor; simpl; intuition discriminate.
Defined.

(** Two samples of one subject at the baseline: query2 counts two samples,
    query3 and query4 one subject. *)
Example part4_counts_samples_and_subjects :
  let csv := [ csv_row "sbj1" 70 "yes" "s2" 0 10;
               csv_row "sbj1" 70 "yes" "s1" 0 12 ] in
  let s := snd (part1 csv empty_store) in
  option_map (map snd) (match query2 s with Ok q => Some q | Raise _ => None end)
  = Some [2]
  /\ option_map (map snd) (match query3 s with Ok q => Some q | Raise _ => None end)
     = Some [1].
Proof. vm_compute. split; reflexivity. Qed.

(* ================================================================== *)
(** * The cohort frames *)
(* ================================================================== *)

Lemma flat_map_map {A B C : Type} (f : B -> list C) (g : A -> B) (l : list A) :
  flat_map f (map g l) = flat_map (fun x => f (g x)) l.
Proof. induction l as [|x xs IH]; simpl; [reflexivity|]. now rewrite IH. Qed.

Lemma flat_map_ext_in {A B : Type} (f g : A -> list B) (l : list A) :
  (forall x, In x l -> f x = g x) -> flat_map f l = flat_map g l.
Proof.
  induction l as [|x xs IH]; intros H; simpl; [reflexivity|].
  rewrite (H x (or_introl eq_refl)), IH; [reflexivity|].
  intros y Hy. apply H. now right.
Qed.

(** In a table with a primary key, looking up the key of a row of the table
    finds that row. *)
Lemma find_key_self {A : Type} (key : A -> string) (l : list A) (r : A) :
  NoDup (map key l) -> In r l ->
  find (fun x => key x =? key r) l = Some r.
Proof.
  induction l as [|x xs IH]; intros Hnd Hin; [contradiction|].
  simpl in Hnd. inversion Hnd as [|? ? Hx Hxs]; subst. simpl.
  destruct Hin as [->|Hin]; [now rewrite String.eqb_refl|].
  destruct (String.eqb_spec (key x) (key r)) as [E|E]; [|now apply IH].
  exfalso. apply Hx. rewrite E. now apply in_map.
Qed.

(** One SELECT of the UNION ALL joined to the two tables: the frame of its
    population when that is the population asked for, and nothing otherwise. *)
Lemma cohort_rows_block (population name : string) (count : Samples.row -> Z)
    (samples : list Samples.row) (subjects : list Subjects.row) :
  NoDup (map Samples.sample samples) ->
  NoDup (map Subjects.subject subjects) ->
  cohort_rows population (map (frequency name count) samples) samples subjects
  = if name =? population then cohort_frame count samples subjects else [].
Proof.
  intros Hsa Hsu. unfold cohort_rows. rewrite flat_map_map.
  transitivity
    (flat_map (fun r =>
       if in_cohort subjects r && (name =? population)
       then [(response_of subjects r, percentage_of (count r) (total_count r))]
       else []) samples).
  - apply flat_map_ext_in. intros r Hr.
    cbn [frequency SampleCellFrequencies.sample].
    rewrite (flat_map_key_lookup Samples.sample (Samples.sample r)) by exact Hsa.
    rewrite (find_key_self Samples.sample samples r Hsa Hr).
    rewrite (flat_map_ext _
               (fun su => if Subjects.subject su =? Samples.subject r
                          then (if cohort_where population (frequency name count r) r su
                                then [(Subjects.response su,
                                       percentage_of (count r) (total_count r))]
                                else [])
                          else [])).
    + rewrite (flat_map_key_lookup Subjects.subject (Samples.subject r)) by exact Hsu.
      unfold in_cohort, response_of, owner_subject, cohort_where.
      cbn [frequency SampleCellFrequencies.population].
      destruct (find _ subjects) as [su|]; reflexivity.
    + intros su. cbn [frequency SampleCellFrequencies.percentage].
      now destruct (Subjects.subject su =? Samples.subject r),
                   (cohort_where population (frequency name count r) r su).
  - unfold cohort_frame. destruct (name =? population).
    + rewrite map_filter_flat_map. apply flat_map_ext. intros r.
      now rewrite andb_true_r.
    + apply flat_map_nil. intros r _. now rewrite andb_false_r.
Qed.

Lemma cohort_rows_app (population : string)
    (f1 f2 : list SampleCellFrequencies.row) (samples : list Samples.row)
    (subjects : list Subjects.row) :
  cohort_rows population (f1 ++ f2) samples subjects
  = cohort_rows population f1 samples subjects
    ++ cohort_rows population f2 samples subjects.
Proof. unfold cohort_rows. apply flat_map_app. Qed.

(** The join over the whole view. *)
Lemma cohort_rows_view (population : string) (samples : list Samples.row)
    (subjects : list Subjects.row) :
  NoDup (map Samples.sample samples) ->
  NoDup (map Subjects.subject subjects) ->
  cohort_rows population (SampleCellFrequencies_rows samples) samples subjects
  = flat_map (fun nc => if fst nc =? population
                        then cohort_frame (snd nc) samples subjects else [])
      population_columns.
Proof.
  intros Hsa Hsu. unfold SampleCellFrequencies_rows, population_columns.
  rewrite !cohort_rows_app, !cohort_rows_block by assumption.
  cbn [flat_map fst snd]. now rewrite app_nil_r.
Qed.

Lemma cohort_rows_known (population : string) (count : Samples.row -> Z)
    (samples : list Samples.row) (subjects : list Subjects.row) :
  NoDup (map Samples.sample samples) ->
  NoDup (map Subjects.subject subjects) ->
  In (population, count) population_columns ->
  cohort_rows population (SampleCellFrequencies_rows samples) samples subjects
  = cohort_frame count samples subjects.
Proof.
  intros Hsa Hsu Hin. rewrite cohort_rows_view by assumption.
  unfold population_columns in *. cbn [flat_map fst snd].
  repeat (destruct Hin as [E|Hin];
          [inversion E; subst; cbn; now rewrite ?app_nil_r|]).
  contradiction.
Qed.


(** A sample that passes the baseline filter of Part 4 is a sample of the
    cohort of Part 3. *)
Lemma baseline_rows_in_cohort (samples : list Samples.row)
    (subjects : list Subjects.row) :
  NoDup (map Subjects.subject subjects) ->
  (List.length (baseline_rows samples subjects)
   <= List.length (filter (in_cohort subjects) samples))%nat.
Proof.
  intros Hsu. rewrite (baseline_rows_by_sample samples subjects Hsu).
  induction samples as [|sa rest IH]; simpl; [lia|].
  rewrite length_app. unfold filter_condition in *.
  destruct (in_cohort subjects sa) eqn:Hc; unfold in_cohort, owner_subject in Hc;
    destruct (find (fun su => Subjects.subject su =? Samples.subject sa) subjects)
      as [su|].
  - rewrite Hc. destruct (Samples.time_from_treatment sa =? 0)%Z; simpl; lia.
  - discriminate.
  - rewrite Hc. simpl. lia.
  - simpl. lia.
Qed.

Lemma arm_length (label : string) (df : data_frame) :
  (List.length (arm label df) <= List.length df)%nat.
Proof. unfold arm. rewrite length_map. apply filter_length_le. Qed.

Lemma arms_disjoint_length (df : data_frame) :
  (List.length (arm "yes" df) + List.length (arm "no" df) <= List.length df)%nat.
Proof.
  unfold arm. rewrite !length_map.
  induction df as [|[label v] rest IH]; simpl; [lia|].
  destruct (String.eqb_spec label "yes") as [->|Hy]; simpl; [lia|].
  destruct (label =? "no"); simpl; lia.
Qed.



(** X12: the five frames of Part 3 have the same number of rows and the same
    response column; the two arms of a test together hold no more values than
    the frame has rows; and the baseline listing of Part 4, which also asks
    for time 0, is never longer than a frame. *)
Theorem frames_and_baseline :
  forall (s : store) (samples : list Samples.row) (subjects : list Subjects.row),
    SampleCellFrequencies_view s = true ->
    Samples_table s = Some samples ->
    Subjects_table s = Some subjects ->
    NoDup (map Samples.sample samples) ->
    NoDup (map Subjects.subject subjects) ->
    exists frames q1,
      dfs s = Ok frames
      /\ query1 s = Ok q1
      /\ List.length frames = 5%nat
      /\ forall name df, In (name, df) frames ->
           map fst df = map (response_of subjects) (filter (in_cohort subjects) samples)
           /\ (List.length df <= List.length samples)%nat
           /\ (List.length (arm "yes" df) + List.length (arm "no" df)
               <= List.length df)%nat
           /\ (List.length q1 <= List.length df)%nat.
Proof.
  intros s samples subjects Hv Hsa Hsu Hk1 Hk2.
  destruct (part4_queries s samples subjects Hsa Hsu) as (H1 & _).
  assert (Hframe : forall population count,
            In (population, count) population_columns ->
            get_cell_data population s = Ok (cohort_frame count samples subjects)).
  { intros population count Hin.
    rewrite (get_cell_data_tables population s samples subjects Hv Hsa Hsu).
    now rewrite (cohort_rows_known population count samples subjects). }
  unfold dfs.
  rewrite (Hframe "b_cell" Samples.b_cell) by (simpl; tauto).
  rewrite (Hframe "cd8_t_cell" Samples.cd8_t_cell) by (simpl; tauto).
  rewrite (Hframe "cd4_t_cell" Samples.cd4_t_cell) by (simpl; tauto).
  rewrite (Hframe "nk_cell" Samples.nk_cell) by (simpl; tauto).
  rewrite (Hframe "monocyte" Samples.monocyte) by (simpl; tauto).
  cbn [rbind]. do 2 eexists. split; [reflexivity|]. split; [exact H1|].
  split; [reflexivity|].
  assert (Hone : forall count,
            let df := cohort_frame count samples subjects in
            map fst df = map (response_of subjects) (filter (in_cohort subjects) samples)
            /\ (List.length df <= List.length samples)%nat
            /\ (List.length (arm "yes" df) + List.length (arm "no" df)
                <= List.length df)%nat
            /\ (List.length
                  (map baseline_of
                     (order_by (fun r => Samples.sample (fst r))
                        (baseline_rows samples subjects)))
                <= List.length df)%nat).
  { intros count df. unfold df, cohort_frame. split; [|split; [|split]].
    - rewrite map_map. reflexivity.
    - rewrite length_map. apply filter_length_le.
    - apply arms_disjoint_length.
    - rewrite !length_map.
      rewrite <- (Permutation_length
                    (order_by_perm (fun r : Samples.row * Subjects.row =>
                                      Samples.sample (fst r))
                       (baseline_rows samples subjects))).
      now apply baseline_rows_in_cohort. }
  intros name df Hin.
  repeat (destruct Hin as [E|Hin]; [inversion E; subst; apply Hone|]).
  contradiction.
Qed.

Lemma frames_and_baseline_witness :
  let csv := [ csv_row "sbj1" 70 "yes" "s1" 0 10;
               csv_row "sbj1" 70 "yes" "s2" 7 30;
               csv_row "sbj2" 64 "no" "s3" 0 20 ] in
  let s := snd ((part1 csv ;; create_view_if_not_exists) empty_store) in
  exists frames q1,
    dfs s = Ok frames
    /\ query1 s = Ok q1
    /\ List.length frames = 5%nat
    /\ forall name df, In (name, df) frames ->
         map fst df = map (response_of (select_subjects csv))
                        (filter (in_cohort (select_subjects csv)) (select_samples csv))
         /\ (List.length df <= List.length (select_samples csv))%nat
         /\ (List.length (arm "yes" df) + List.length (arm "no" df)
             <= List.length df)%nat
         /\ (List.length q1 <= List.length df)%nat.
Proof.
  intros csv s.
  apply (frames_and_baseline s (select_samples csv) (select_subjects csv)).
  - vm_compute. reflexivity.
  - vm_compute. reflexivity.
  - vm_compute. reflexivity.
  - vm_compute. repeat constructor; simpl; intuition discriminate.
  - vm_compute. repeat constructor; simpl; intuition discriminate.
Defined.

Lemma frequency_at_time (time : Samples.row -> Z) (samples : list Samples.row) :
  SampleCellFrequencies_rows (map (at_time time) samples)
  = SampleCellFrequencies_rows samples.
Proof. unfold SampleCellFrequencies_rows. now rewrite !map_map. Qed.

Lemma cohort_rows_at_time (time : Samples.row -> Z) (population : string)
    (freqs : list SampleCellFrequencies.row) (samples : list Samples.row)
    (subjects : list Subjects.row) :
  cohort_rows population freqs (map (at_time time) samples) subjects
  = cohort_rows population freqs samples subjects.
Proof.
  unfold cohort_rows. apply flat_map_ext. intros f. now rewrite flat_map_map.
Qed.

Lemma get_cell_data_retime (time : Samples.row -> Z) (population : string)
    (s : store) :
  get_cell_data population (retime time s) = get_cell_data population s.
Proof.
  unfold get_cell_data, retime, scan_SampleCellFrequencies, scan_Samples,
    scan_Subjects.
  cbn [set_samples SampleCellFrequencies_view Samples_table Subjects_table].
  destruct (SampleCellFrequencies_view s); [|reflexivity].
  destruct (Samples_table s) as [samples|]; [|reflexivity].
  cbn [option_map rbind].
  destruct (Subjects_table s) as [subjects|]; [|reflexivity].
  cbn [rbind]. now rewrite frequency_at_time, cohort_rows_at_time.
Qed.

(** X13: the cohort of Part 3 does not look at the time of a sample.  Moving
    the samples of a store to any other times changes none of the five
    frames, none of the tests of the batch script and no row of the
    dashboard's statistics table. *)
Theorem cohort_ignores_time :
  forall (time : Samples.row -> Z) (s : store),
    (forall population,
        get_cell_data population (retime time s) = get_cell_data population s)
    /\ part3 (retime time s) = part3 s
    /\ stats_results (retime time s) = stats_results s.
Proof.
  intros time s. split; [|split].
  - intros population. apply get_cell_data_retime.
  - unfold part3, dfs. now rewrite !get_cell_data_retime.
  - unfold stats_results, cell_data, populations. cbn [for_each].
    now rewrite !get_cell_data_retime.
Qed.

(** The baseline listing of Part 4 does look at it. *)
Example baseline_depends_on_time :
  let csv := [ csv_row "sbj1" 70 "yes" "s1" 0 10 ] in
  let s := snd ((part1 csv ;; create_view_if_not_exists) empty_store) in
  (exists row, query1 s = Ok [row])
  /\ query1 (retime (fun _ => 7) s) = Ok []
  /\ get_cell_data "b_cell" (retime (fun _ => 7) s) = get_cell_data "b_cell" s.
Proof.
  intros csv s. split; [|split].
  - eexists. vm_compute. reflexivity.
  - vm_compute. reflexivity.
  - apply get_cell_data_retime.
Qed.

(* ================================================================== *)
(** * The percentages of the view, one by one *)
(* ================================================================== *)

Lemma in_view_rows (samples : list Samples.row) (f : SampleCellFrequencies.row) :
  In f (SampleCellFrequencies_rows samples) ->
  exists r population count,
    In r samples /\ In (population, count) population_columns
    /\ f = frequency population count r.
Proof.
  unfold SampleCellFrequencies_rows, population_columns. rewrite !in_app_iff.
  intros H.
  repeat (destruct H as [H|H];
          [apply in_map_iff in H as (r & <- & Hr);
           eexists r, _, _; split; [exact Hr|]; split; [|reflexivity];
           simpl; tauto|]).
  apply in_map_iff in H as (r & <- & Hr).
  eexists r, _, _. split; [exact Hr|]. split; [|reflexivity]. simpl; tauto.
Qed.

Lemma column_within_total (r : Samples.row) (population : string)
    (count : Samples.row -> Z) :
  counts_in_range r -> In (population, count) population_columns ->
  (0 <= count r <= five_counts r)%Z.
Proof.
  intros (Hb & H8 & H4 & Hn & Hm) Hin. unfold five_counts.
  unfold population_columns in Hin.
  repeat (destruct Hin as [E|Hin]; [inversion E; subst; lia|]).
  contradiction.
Qed.

(** X14: every record of the view that belongs to a sample with non-negative
    64 bit counts and a positive total holds a percentage that is a double
    (never NULL), is not negative, differs from the exact quotient
    100 * count / total by at most 2e-13, and is zero exactly when the count
    is zero. *)
Theorem view_percentage_accurate :
  forall (samples : list Samples.row) (f : SampleCellFrequencies.row),
    (forall r, In r samples -> counts_in_range r /\ (0 < five_counts r)%Z) ->
    In f (SampleCellFrequencies_rows samples) ->
    exists (r : Samples.row) (p : Q),
      In r samples
      /\ SampleCellFrequencies.sample f = Samples.sample r
      /\ SampleCellFrequencies.percentage f = VReal p
      /\ (0 <= p)%Q
      /\ (Qabs (p - 100 * inject_Z (SampleCellFrequencies.count f)
                    / inject_Z (five_counts r))
          <= 2 # 10000000000000)%Q
      /\ ((p == 0)%Q <-> SampleCellFrequencies.count f = 0%Z).
Proof.
  intros samples f Hall Hin.
  destruct (in_view_rows samples f Hin) as (r & population & count & Hr & Hcol & ->).
  destruct (Hall r Hr) as (Hrange & HT).
  destruct (column_within_total r population count Hrange Hcol) as (Hc0 & HcT).
  destruct (SumFacts.percentage_near r (count r) Hrange HT Hc0) as (p & Ep & [Hl Hu]).
  exists r, p. cbn [frequency SampleCellFrequencies.sample
                    SampleCellFrequencies.percentage SampleCellFrequencies.count].
  split; [exact Hr|]. split; [reflexivity|]. split; [exact Ep|].
  rewrite NearFacts.delta_value in Hl, Hu.
  assert (HTq : (0 < inject_Z (five_counts r))%Q) by (now rewrite Zlt_Qlt in HT).
  assert (Hcq : (0 <= inject_Z (count r))%Q) by (now rewrite Zle_Qle in Hc0).
  assert (HcTq : (inject_Z (count r) <= inject_Z (five_counts r))%Q)
    by (now rewrite Zle_Qle in HcT).
  set (x := (100 * inject_Z (count r) / inject_Z (five_counts r))%Q) in *.
  assert (Hx0 : (0 <= x)%Q).
  { unfold x. apply Qle_shift_div_l; [exact HTq|]. lra. }
  assert (Hx100 : (x <= 100)%Q).
  { unfold x. apply Qle_shift_div_r; [exact HTq|]. lra. }
  split; [lra|]. split.
  - apply Qabs_Qle_condition. split; lra.
  - split.
    + intros Hp.
      destruct (Z.eq_dec (count r) 0) as [E|E]; [exact E|]. exfalso.
      assert (Hpos : (0 < inject_Z (count r))%Q).
      { assert (Hz : (0 < count r)%Z) by lia. now rewrite Zlt_Qlt in Hz. }
      assert (Hxpos : (0 < x)%Q).
      { unfold x. apply Qlt_shift_div_l; [exact HTq|]. lra. }
      lra.
    + intros E.
      assert (Hxz : (x == 0)%Q).
      { unfold x. rewrite E. field. lra. }
      lra.
Qed.

Lemma view_percentage_accurate_witness :
  let samples := select_samples [ csv_row "sbj1" 70 "yes" "s1" 0 10 ] in
  let f := frequency "b_cell" Samples.b_cell
             (sample_columns (csv_row "sbj1" 70 "yes" "s1" 0 10)) in
  exists (r : Samples.row) (p : Q),
    In r samples
    /\ SampleCellFrequencies.sample f = Samples.sample r
    /\ SampleCellFrequencies.percentage f = VReal p
    /\ (0 <= p)%Q
    /\ (Qabs (p - 100 * inject_Z (SampleCellFrequencies.count f)
                  / inject_Z (five_counts r))
        <= 2 # 10000000000000)%Q
    /\ ((p == 0)%Q <-> SampleCellFrequencies.count f = 0%Z).
Proof.
  intros samples f.
  apply (view_percentage_accurate samples f).
  - intros r Hr. vm_compute in Hr. destruct Hr as [<-|[]].
    split; [|vm_compute; reflexivity].
    unfold counts_in_range; vm_compute; intuition discriminate.
  - vm_compute. left. reflexivity.
Defined.

(* ================================================================== *)
(** * The script and the dashboard, from end to end *)
(* ================================================================== *)

Lemma stats_results_tables (s : store) (samples : list Samples.row)
    (subjects : list Subjects.row) :
  SampleCellFrequencies_view s = true ->
  Samples_table s = Some samples ->
  Subjects_table s = Some subjects ->
  stats_results s
  = Ok (map (fun np =>
               stats_row_of
                 (ttest_of (fst np)
                    (cohort_rows (snd np) (SampleCellFrequencies_rows samples)
                       samples subjects)))
            [ ("B Cell", "b_cell"); ("CD8 T Cell", "cd8_t_cell");
              ("CD4 T Cell", "cd4_t_cell"); ("NK Cell", "nk_cell");
              ("Monocyte", "monocyte") ]).
Proof.
  intros Hv Hsa Hsu. unfold stats_results, cell_data, populations.
  cbn [for_each].
  rewrite !(get_cell_data_tables _ s samples subjects Hv Hsa Hsu).
  cbn [for_each rbind]. unfold stats_of, ttest_of.
  cbn [getitem population_names String.eqb Ascii.eqb Bool.eqb rbind fst snd
       map for_each].
  repeat match goal with
         | |- context [ttest_ind ?a ?b] =>
             let t := fresh "t" in let p := fresh "p" in
             destruct (ttest_ind a b) as [t p]
         end.
  reflexivity.
Qed.

Lemma part4_tables (s : store) (samples : list Samples.row)
    (subjects : list Subjects.row) :
  Samples_table s = Some samples ->
  Subjects_table s = Some subjects ->
  exists subset, part4 s = Ok subset.
Proof.
  intros Hsa Hsu.
  destruct (part4_queries s samples subjects Hsa Hsu) as (H1 & H2 & H3 & H4).
  unfold part4. rewrite H1, H2, H3, H4. cbn [rbind]. now eexists.
Qed.

Lemma stats_row_shape (name : string) (df : data_frame) :
  Cell_Type (stats_row_of (ttest_of name df)) = name
  /\ (Significant (stats_row_of (ttest_of name df)) = "Yes"
      \/ Significant (stats_row_of (ttest_of name df)) = "No").
Proof.
  unfold ttest_of. destruct (ttest_ind (arm "yes" df) (arm "no" df)) as [t p].
  cbn [stats_row_of Cell_Type Significant]. split; [reflexivity|].
  destruct (xlt p (5 / 100)%R); [now left|now right].
Qed.


(** X16: what the dashboard holds once it has started: the two tables in
    ascending order of their keys, row for row the tables of the store; five
    frequency records per sample; and a statistics table of five rows, the
    populations under their display names in the order of [populations], each
    flagged "Yes" or "No". *)
Theorem dashboard_tables :
  forall (s : store) (samples : list Samples.row) (subjects : list Subjects.row),
    SampleCellFrequencies_view s = true ->
    Samples_table s = Some samples ->
    Subjects_table s = Some subjects ->
    exists d,
      dashboard_startup s = Ok d
      /\ Permutation subjects (subjects_df d)
      /\ StronglySorted (key_le Subjects.subject) (subjects_df d)
      /\ Permutation samples (samples_df d)
      /\ StronglySorted (key_le Samples.sample) (samples_df d)
      /\ List.length (cell_frequencies_df d) = (5 * List.length samples)%nat
      /\ map Cell_Type (stats_df d)
         = ["B Cell"; "CD8 T Cell"; "CD4 T Cell"; "NK Cell"; "Monocyte"]
      /\ Forall (fun row => Significant row = "Yes" \/ Significant row = "No")
                (stats_df d).
Proof.
  intros s samples subjects Hv Hsa Hsu.
  unfold dashboard_startup, scan_Subjects, scan_Samples, read_frequencies,
    scan_SampleCellFrequencies.
  rewrite Hv, Hsa, Hsu. cbn [rbind].
  rewrite (stats_results_tables s samples subjects Hv Hsa Hsu). cbn [rbind].
  destruct (part4_tables s samples subjects Hsa Hsu) as (subset & ->).
  cbn [rbind]. eexists. split; [reflexivity|].
  cbn [subjects_df samples_df cell_frequencies_df stats_df].
  split; [apply order_by_perm|]. split; [apply order_by_sorted|].
  split; [apply order_by_perm|]. split; [apply order_by_sorted|].
  split; [|split].
  - rewrite <- (Permutation_length (order_by_perm _ _)).
    rewrite <- (Permutation_length (order_by_perm _ _)).
    unfold SampleCellFrequencies_rows. rewrite !length_app, !length_map. lia.
  - cbn [map fst snd].
    now rewrite !(proj1 (stats_row_shape _ _)).
  - cbn [map fst snd].
    repeat (apply Forall_cons; [apply stats_row_shape|]). apply Forall_nil.
Qed.

Lemma dashboard_tables_witness :
  let csv := [ csv_row "sbj2" 64 "no" "s3" 0 20;
               csv_row "sbj1" 70 "yes" "s2" 7 30;
               csv_row "sbj1" 70 "yes" "s1" 0 10 ] in
  let s := snd ((part1 csv ;; create_view_if_not_exists) empty_store) in
  exists d,
    dashboard_startup s = Ok d
    /\ Permutation (select_subjects csv) (subjects_df d)
    /\ StronglySorted (key_le Subjects.subject) (subjects_df d)
    /\ Permutation (select_samples csv) (samples_df d)
    /\ StronglySorted (key_le Samples.sample) (samples_df d)
    /\ List.length (cell_frequencies_df d) = (5 * List.length (select_samples csv))%nat
    /\ map Cell_Type (stats_df d)
       = ["B Cell"; "CD8 T Cell"; "CD4 T Cell"; "NK Cell"; "Monocyte"]
    /\ Forall (fun row => Significant row = "Yes" \/ Significant row = "No")
              (stats_df d).
Proof.
  intros csv s.
  apply (dashboard_tables s (select_samples csv) (select_subjects csv)).
  - vm_compute. reflexivity.
  - vm_compute. reflexivity.
  - vm_compute. reflexivity.
Defined.



(** The dashboard on a database that Part 1 alone has filled: the view is
    missing. *)
Example dashboard_needs_the_view :
  let csv := [ csv_row "sbj1" 70 "yes" "s1" 0 10 ] in
  dashboard_startup (snd (part1 csv empty_store))
  = Raise (no_such_table "SampleCellFrequencies").
Proof. vm_compute. reflexivity. Qed.
